(** * go-smtpd: the SMTP session of [smtpd/smtpd.go]

    A shallow embedding of the per-connection protocol engine: the command
    line codec ([cmdLine]), the address value ([addrString]), the three
    regular expressions of the MAIL and RCPT arguments, the [Envelope]
    interface with the [BasicEnvelope] shipped by the package, and the
    [session] with its handlers and its command loop.

    Conventions of the model.
    - A Go [string] or [[]byte] is a [string] of 8-bit [ascii] characters.
    - [strings.ToUpper], [strings.ToLower], [unicode.IsSpace] and
      [strings.TrimSpace] are the ASCII parts of the library functions: bytes
      above 127 are left as they are. They are the library functions on
      strings of ASCII bytes ([is_ascii]) and differ from them on other
      strings (the library maps every Unicode letter and trims every
      Unicode space); a statement that reads a verb, an argument or a host
      part through them is made for lines of ASCII bytes.
    - The buffered reader is the stream of bytes it still has to deliver;
      [ReadSlice] cuts it after the first line feed, as [bufio.Reader] does
      with its 4096-byte buffer.
    - Every [Fprintf] on the buffered writer is followed by a [Flush] before
      control leaves the handler; the [trace] records the chunk each flush
      pushes towards the connection ([EvSent]), next to every call of an
      embedder callback with its result, every line read, and the log calls.
    - Deadlines ([ReadTimeout], [WriteTimeout]) are not modelled: a timeout
      shows as the input stream ending. A [Close] of the connection by the
      server is an event of the trace ([EvConnClose]); the lines the reader
      still has are read as before, and the stream ends where the
      environment ends it.
    - The outcome of a TLS handshake, and the bytes that can be read after
      it, are given by the TLS configuration ([Handshake]). *)

From Stdlib Require Import String Ascii List ZArith Lia Bool Arith.
From Stdlib Require Import DecimalString.
Import ListNotations.

Local Open Scope string_scope.
Local Open Scope bool_scope.

(** ** Bytes and strings *)

Definition LF : ascii := "010"%char.
Definition CR : ascii := "013"%char.
Definition CRLF : string := String CR (String LF EmptyString).

(** [s[:n]] and [s[n:]] for [n <= len(s)]. *)
Fixpoint take (n : nat) (s : string) : string :=
  match n, s with
  | S k, String c r => String c (take k r)
  | _, _ => EmptyString
  end.

Fixpoint drop (n : nat) (s : string) : string :=
  match n, s with
  | S k, String _ r => drop k r
  | _, _ => s
  end.

(** [strings.HasSuffix]: [len(s) >= len(suffix) && s[len(s)-len(suffix):] == suffix]. *)
Definition HasSuffix (s suffix : string) : bool :=
  (String.length suffix <=? String.length s)%nat
  && (drop (String.length s - String.length suffix) s =? suffix).

(** [strings.HasPrefix]. *)
Definition HasPrefix (s pre : string) : bool :=
  (String.length pre <=? String.length s)%nat
  && (take (String.length pre) s =? pre).

(** [strings.Index(s, c)] for a one-byte needle; [None] is Go's [-1]. *)
Fixpoint Index (s : string) (c : ascii) : option nat :=
  match s with
  | EmptyString => None
  | String a r => if (a =? c)%char then Some 0%nat else option_map S (Index r c)
  end.

(** [strings.LastIndex(s, c)] for a one-byte needle. *)
Fixpoint LastIndex (s : string) (c : ascii) : option nat :=
  match s with
  | EmptyString => None
  | String a r =>
      match LastIndex r c with
      | Some i => Some (S i)
      | None => if (a =? c)%char then Some 0%nat else None
      end
  end.

Definition is_upper (c : ascii) : bool :=
  let n := nat_of_ascii c in (65 <=? n)%nat && (n <=? 90)%nat.

Definition is_lower (c : ascii) : bool :=
  let n := nat_of_ascii c in (97 <=? n)%nat && (n <=? 122)%nat.

Definition is_digit (c : ascii) : bool :=
  let n := nat_of_ascii c in (48 <=? n)%nat && (n <=? 57)%nat.

Definition upper_char (c : ascii) : ascii :=
  if is_lower c then ascii_of_nat (nat_of_ascii c - 32) else c.

Definition lower_char (c : ascii) : ascii :=
  if is_upper c then ascii_of_nat (nat_of_ascii c + 32) else c.

Fixpoint map_string (f : ascii -> ascii) (s : string) : string :=
  match s with
  | EmptyString => EmptyString
  | String c r => String (f c) (map_string f r)
  end.

(** [strings.ToUpper] and [strings.ToLower] as they act on ASCII bytes. *)
Definition ToUpper : string -> string := map_string upper_char.
Definition ToLower : string -> string := map_string lower_char.

(** [unicode.IsSpace] on one-byte runes: tab, LF, VT, FF, CR and space. *)
Definition IsSpace (c : ascii) : bool :=
  let n := nat_of_ascii c in ((9 <=? n)%nat && (n <=? 13)%nat) || (n =? 32)%nat.

(** [strings.TrimRightFunc(s, unicode.IsSpace)]. *)
Fixpoint TrimRightSpace (s : string) : string :=
  match s with
  | EmptyString => EmptyString
  | String c r =>
      match TrimRightSpace r with
      | EmptyString => if IsSpace c then EmptyString else String c EmptyString
      | r' => String c r'
      end
  end.

Fixpoint TrimLeftSpace (s : string) : string :=
  match s with
  | EmptyString => EmptyString
  | String c r => if IsSpace c then TrimLeftSpace r else s
  end.

(** [strings.TrimSpace]. *)
Definition TrimSpace (s : string) : string := TrimLeftSpace (TrimRightSpace s).

(** A byte below [utf8.RuneSelf] (0x80): a rune of its own in UTF-8. *)
Definition is_ascii_byte (c : ascii) : bool :=
  match c with Ascii _ _ _ _ _ _ _ b7 => negb b7 end.

(** A string of ASCII bytes. On such a string [strings.ToUpper] and
    [strings.ToLower] map byte by byte, [unicode.IsSpace] is asked about
    one-byte runes only, and the functions above are the library's. *)
Fixpoint is_ascii (s : string) : bool :=
  match s with
  | EmptyString => true
  | String c r => is_ascii_byte c && is_ascii r
  end.

Fixpoint contains (s : string) (c : ascii) : bool :=
  match s with
  | EmptyString => false
  | String a r => (a =? c)%char || contains r c
  end.

(** [fmt.Sprintf("%d", n)]. *)
Definition itoa (n : Z) : string := NilZero.string_of_int (Z.to_int n).

(** ** [strconv.Atoi] on a 64-bit [int] *)

Definition intSize : Z := 64.
Definition maxInt : Z := 2 ^ (intSize - 1) - 1.
Definition minInt : Z := - 2 ^ (intSize - 1).

Definition digit_val (c : ascii) : Z := Z.of_nat (nat_of_ascii c) - 48.

Fixpoint parse_digits (acc : Z) (s : string) : option Z :=
  match s with
  | EmptyString => Some acc
  | String c r =>
      if is_digit c then parse_digits (10 * acc + digit_val c) r else None
  end.

(** An optional sign, then one digit at least; a value outside the range of
    [int] is an error ([strconv.ErrRange]), as is any other byte
    ([strconv.ErrSyntax]). *)
Definition Atoi (s : string) : option Z :=
  let '(neg, body) :=
    match s with
    | String c r =>
        if (c =? "-")%char then (true, r)
        else if (c =? "+")%char then (false, r)
        else (false, s)
    | EmptyString => (false, s)
    end in
  match body with
  | EmptyString => None
  | _ =>
      match parse_digits 0 body with
      | None => None
      | Some v =>
          let v' := if neg then (- v)%Z else v in
          if ((minInt <=? v') && (v' <=? maxInt))%Z then Some v' else None
      end
  end.

(** ** Errors *)

(** A Go [error] value as the session tells them apart: the type assertion
    [err.(SMTPError)] succeeds on the first constructor only. *)
Inductive error : Type :=
| SMTPError (reply : string)
| PlainError (msg : string).

(** [err.Error()]. *)
Definition Error (e : error) : string :=
  match e with SMTPError s => s | PlainError s => s end.

(** ** [addrString] *)

Definition addrString := string.

Definition addrString_Email (a : addrString) : string := a.

(** [Hostname]: [strings.Index(e, "@")] finds the first at-sign; when there
    is one ([idx != -1]) the result is [strings.ToLower(e[idx+1:])], otherwise
    the empty string. *)
Definition addrString_Hostname (a : addrString) : string :=
  let e := a in
  match Index e "@" with
  | Some idx => ToLower (drop (idx + 1) e)
  | None => EmptyString
  end.

(** ** [cmdLine] *)

Definition cmdLine := string.

(** [s[:len(s)-2]] and [s[idx+1:len(s)-2]] are in range on every line that
    ends in CRLF, the only lines [Verb] and [Arg] are called on. *)
Definition cmdLine_Verb (cl : cmdLine) : string :=
  let s := cl in
  match Index s " " with
  | Some idx => ToUpper (take idx s)
  | None => ToUpper (take (String.length s - 2) s)
  end.

Definition cmdLine_Arg (cl : cmdLine) : string :=
  let s := cl in
  match Index s " " with
  | Some idx => TrimRightSpace (drop (idx + 1) (take (String.length s - 2) s))
  | None => EmptyString
  end.

(** The message of the first error is the Go raw string literal
    [`line doesn't end in \r\n`]: a backslash and a letter, twice. *)
Definition cmdLine_checkValid (cl : cmdLine) : option string :=
  if negb (HasSuffix cl CRLF) then Some "line doesn't end in \r\n"
  else
    let v := cmdLine_Verb cl in
    if ((v =? "RSET") || (v =? "DATA") || (v =? "QUIT"))
       && negb (cmdLine_Arg cl =? EmptyString)
    then Some "unexpected argument"
    else None.

(** ** The regular expressions of the MAIL and RCPT arguments *)

Definition fold_eq (c lower upper : ascii) : bool :=
  (c =? lower)%char || (c =? upper)%char.

(** [mailFromRE.FindStringSubmatch]: the two captures, or [None] for a nil
    match. The pattern is anchored at both ends: the letters of FROM in
    either case, a colon, an opening angle bracket, a first group of bytes
    other than the closing bracket (greedy, possibly empty), the closing
    bracket, and a second group of any bytes to the end of the text. The
    first group stops at the first closing bracket; the dot of the second
    group does not match a line feed, so the rest must be free of them. *)
Definition mailFromRE (arg : string) : option (string * string) :=
  match arg with
  | String f (String r (String o (String m (String colon (String lt rest))))) =>
      if fold_eq f "f" "F" && fold_eq r "r" "R" && fold_eq o "o" "O"
         && fold_eq m "m" "M" && (colon =? ":")%char && (lt =? "<")%char
      then
        match Index rest ">" with
        | Some i =>
            let m2 := drop (i + 1) rest in
            if contains m2 LF then None else Some (take i rest, m2)
        | None => None
        end
      else None
  | _ => None
  end.

Fixpoint digits_prefix (s : string) : string :=
  match s with
  | String c r => if is_digit c then String c (digits_prefix r) else EmptyString
  | EmptyString => EmptyString
  end.

(** The pattern of [mailSizeRE] tried at the head of [s]: the letters of
    SIZE in either case, an equals sign and a group of one or more ASCII
    digits, taken greedily. *)
Definition size_here (s : string) : option string :=
  match s with
  | String a (String b (String c (String d (String e rest)))) =>
      if fold_eq a "s" "S" && fold_eq b "i" "I" && fold_eq c "z" "Z"
         && fold_eq d "e" "E" && (e =? "=")%char
      then
        match digits_prefix rest with
        | EmptyString => None
        | ds => Some ds
        end
      else None
  | _ => None
  end.

(** [mailSizeRE.FindStringSubmatch]: the pattern is not anchored, so the
    leftmost position at which it matches wins; the result is its digit
    group. *)
Fixpoint mailSizeRE (s : string) : option string :=
  match s with
  | EmptyString => None
  | String _ r =>
      match size_here s with
      | Some ds => Some ds
      | None => mailSizeRE r
      end
  end.

(** The part of [s] before its first line feed. *)
Fixpoint first_line (s : string) : string :=
  match s with
  | EmptyString => EmptyString
  | String c r => if (c =? LF)%char then EmptyString else String c (first_line r)
  end.

(** [rcptToRE.FindStringSubmatch]: anchored at the start only; the letters
    of TO in either case, a colon, an opening angle bracket, a group of one
    or more bytes other than line feed, and a closing bracket. The group is
    greedy, so it runs to the last closing bracket it can reach without
    crossing a line feed, and holds one byte at least. *)
Definition rcptToRE (arg : string) : option string :=
  match arg with
  | String t (String o (String colon (String lt rest))) =>
      if fold_eq t "t" "T" && fold_eq o "o" "O"
         && (colon =? ":")%char && (lt =? "<")%char
      then
        let seg := first_line rest in
        match LastIndex seg ">" with
        | Some (S j) => Some (take (S j) seg)
        | _ => None
        end
      else None
  | _ => None
  end.

(** ** The [Envelope] interface *)

(** Each method of the Go interface mutates the envelope behind the
    interface value and returns an [error]; here it returns the envelope
    after the call together with the error ([None] for [nil]). The address
    handed to [AddRecipient] is always an [addrString]. *)
Class Envelope (E : Type) : Type := {
  AddRecipient : E -> addrString -> E * option error;
  BeginData : E -> E * option error;
  Write : E -> string -> E * option error;
  Close : E -> E * option error
}.

Record BasicEnvelope : Type := { rcpts : list addrString }.

Definition BasicEnvelope_AddRecipient (e : BasicEnvelope) (rcpt : addrString)
  : BasicEnvelope * option error :=
  ({| rcpts := rcpts e ++ [rcpt] |}, None).

Definition BasicEnvelope_BeginData (e : BasicEnvelope)
  : BasicEnvelope * option error :=
  if (List.length (rcpts e) =? 0)%nat
  then (e, Some (SMTPError "554 5.5.1 Error: no valid recipients"))
  else (e, None).

(** [Write] prints the line on the standard output and returns [nil]. *)
Definition BasicEnvelope_Write (e : BasicEnvelope) (line : string)
  : BasicEnvelope * option error := (e, None).

Definition BasicEnvelope_Close (e : BasicEnvelope)
  : BasicEnvelope * option error := (e, None).

#[export] Instance BasicEnvelope_Envelope : Envelope BasicEnvelope := {
  AddRecipient := BasicEnvelope_AddRecipient;
  BeginData := BasicEnvelope_BeginData;
  Write := BasicEnvelope_Write;
  Close := BasicEnvelope_Close
}.

(** An embedder's envelope in the manner of the sample program [ajas]: it
    wraps a [BasicEnvelope] and lets a policy decide each method's error.
    [AddRecipient] refuses what [reject_rcpt] selects with a plain error
    before delegating, [BeginData] delegates unless [on_begin] is set, and
    [Write] and [Close] answer with [on_write] and [on_close]. *)
Record PolicyEnvelope : Type := {
  basic : BasicEnvelope;
  reject_rcpt : addrString -> bool;
  on_begin : option error;
  on_write : option error;
  on_close : option error
}.

Definition with_basic (p : PolicyEnvelope) (b : BasicEnvelope) : PolicyEnvelope :=
  {| basic := b; reject_rcpt := reject_rcpt p; on_begin := on_begin p;
     on_write := on_write p; on_close := on_close p |}.

#[export] Instance PolicyEnvelope_Envelope : Envelope PolicyEnvelope := {
  AddRecipient p rcpt :=
    if reject_rcpt p rcpt
    then (p, Some (PlainError "we don't send email to bad@"))
    else let '(b, err) := BasicEnvelope_AddRecipient (basic p) rcpt in
         (with_basic p b, err);
  BeginData p :=
    match on_begin p with
    | Some err => (p, Some err)
    | None => let '(b, err) := BasicEnvelope_BeginData (basic p) in
              (with_basic p b, err)
    end;
  Write p line := (p, on_write p);
  Close p := (p, on_close p)
}.

(** ** The buffered reader *)

Definition defaultBufSize : nat := 4096.

(** The line that ends at the first line feed among the first [room] bytes
    of [s], with what follows it. *)
Fixpoint cut_line (room : nat) (s : string) : option (string * string) :=
  match room, s with
  | S k, String c r =>
      if (c =? LF)%char then Some (String c EmptyString, r)
      else match cut_line k r with
           | Some (l, rest) => Some (String c l, rest)
           | None => None
           end
  | _, _ => None
  end.

(** [bufio.Reader.ReadSlice('\n')] on the bytes still to be delivered: the
    line up to and including the first line feed and [err == nil] when that
    line feed lies within the buffer; otherwise an error (the buffer is full,
    or the stream ends first) after the buffered bytes have been consumed. *)
Definition ReadSlice (stream : string) : option string * string :=
  match cut_line defaultBufSize stream with
  | Some (l, rest) => (Some l, rest)
  | None => (None, drop defaultBufSize stream)
  end.

(** ** Server and session *)

(** [tls.Server(rwc, cfg).Handshake()] on the bytes the client still sends:
    an error and the bytes left on the connection, or [nil] and the
    plaintext the upgraded connection will deliver. *)
Record tlsConfig : Type := { Handshake : string -> option error * string }.

(** What a callback sees of the session: [Connection.Addr()]. *)
Definition Connection := string.

Inductive event : Type :=
| EvRecv (line : string)
| EvRecvData (line : string)
| EvSent (text : string)
| EvLog (format : string)
| EvNewConnection (err : option error)
| EvNewMail (email : string) (size : option Z) (got_env : bool) (err : option error)
| EvAddRecipient (rcpt : string) (err : option error)
| EvBeginData (err : option error)
| EvWrite (line : string) (err : option error)
| EvClose (err : option error)
| EvHandshake (err : option error)
| EvSleep
| EvConnClose.

Inductive panic : Type :=
| OnNewMailIsNil
| IndexOutOfRange.

Definition isSome {A : Type} (o : option A) : bool :=
  match o with Some _ => true | None => false end.

Section Session.

Context {E : Type} `{Envelope E}.

(** The fields of the Go struct, and with them [hostname_cmd]: the output
    of the external [hostname] command that [Server.hostname] falls back on,
    [None] when the command fails. The [Log] override is left out: a call of
    [Server.log] is the event [EvLog] with the format it was given. *)
Record Server : Type := {
  Addr : string;
  Hostname : string;
  ReadTimeout : Z;
  WriteTimeout : Z;
  PlainAuth : bool;
  TLSConfig : option tlsConfig;
  MaxSize : Z;
  OnNewConnection : option (Connection -> option error);
  OnNewMail : option (Connection -> addrString -> option Z -> option E * option error);
  hostname_cmd : option string
}.

Definition Server_hostname (srv : Server) : string :=
  if negb (Hostname srv =? EmptyString) then Hostname srv
  else match hostname_cmd srv with
       | None => EmptyString
       | Some out => TrimSpace out
       end.

Record session : Type := {
  srv : Server;
  remote : Connection;
  br : string;
  env : option E;
  helloType : string;
  helloHost : string;
  trace : list event
}.

Definition with_br (s : session) (b : string) : session :=
  {| srv := srv s; remote := remote s; br := b; env := env s;
     helloType := helloType s; helloHost := helloHost s; trace := trace s |}.

Definition with_env (s : session) (e : option E) : session :=
  {| srv := srv s; remote := remote s; br := br s; env := e;
     helloType := helloType s; helloHost := helloHost s; trace := trace s |}.

Definition with_hello (s : session) (greeting host : string) : session :=
  {| srv := srv s; remote := remote s; br := br s; env := env s;
     helloType := greeting; helloHost := host; trace := trace s |}.

Definition emit (s : session) (ev : event) : session :=
  {| srv := srv s; remote := remote s; br := br s; env := env s;
     helloType := helloType s; helloHost := helloHost s;
     trace := trace s ++ [ev] |}.

Inductive outcome : Type :=
| Continue (s : session)
| Return (s : session)
| Panic (p : panic) (s : session)
| OutOfFuel (s : session).

Definition state_of (o : outcome) : session :=
  match o with Continue s | Return s | Panic _ s | OutOfFuel s => s end.

Definition log (s : session) (format : string) : session := emit s (EvLog format).

Definition errorf (s : session) (format : string) : session :=
  log s ("Client error: " ++ format).

Definition sendf (s : session) (text : string) : session := emit s (EvSent text).

Definition sendlinef (s : session) (text : string) : session :=
  sendf s (text ++ CRLF).

Definition sendSMTPErrorOrLinef (s : session) (err : error) (text : string) : session :=
  match err with
  | SMTPError se => sendlinef s se
  | PlainError _ => sendlinef s text
  end.

Definition handleHello (s : session) (greeting host : string) : session :=
  let s := with_hello s greeting host in
  let bw := "250-" ++ Server_hostname (srv s) ++ CRLF in
  let extensions : list string := [] in
  let extensions : list string :=
    if PlainAuth (srv s) then (extensions ++ ["250-AUTH PLAIN"])%list else extensions in
  let extensions : list string :=
    if isSome (TLSConfig (srv s)) then (extensions ++ ["250-STARTTLS"])%list else extensions in
  let extensions : list string :=
    if negb (MaxSize (srv s) =? 0)%Z
    then (extensions ++ [("250-SIZE " ++ itoa (MaxSize (srv s)))%string])%list
    else extensions in
  let extensions : list string :=
    (extensions ++ ["250-PIPELINING"; "250-ENHANCEDSTATUSCODES"; "250-8BITMIME"; "250 DSN"])%list in
  let bw := fold_left (fun bw ext => bw ++ ext ++ CRLF) extensions bw in
  sendf s bw.

Definition handleStartTLS (s : session) (cfg : tlsConfig) : session * option error :=
  let s := sendlinef s "220 Ready to start TLS" in
  let '(err, stream) := Handshake cfg (br s) in
  let s := emit (with_br s stream) (EvHandshake err) in
  match err with
  | Some e => (sendSMTPErrorOrLinef s e "403 4.7.0 TLS handshake failed", Some e)
  | None => (s, None)
  end.

Definition handleMailFrom (s : session) (email : string) (size : option Z) : outcome :=
  if isSome (env s) then
    Continue (sendlinef s "503 5.5.1 Error: nested MAIL command")
  else
    match OnNewMail (srv s) with
    | None => Panic OnNewMailIsNil s
    | Some cb =>
        let s := with_env s None in
        let '(e, err) := cb (remote s) email size in
        let s := emit s (EvNewMail email size (isSome e) err) in
        match err with
        | Some _ =>
            let s := log s "Rejecting MAIL FROM %q: %v" in
            let s := sendf s ("451 denied" ++ CRLF) in
            let s := emit s EvSleep in
            Continue (emit s EvConnClose)
        | None =>
            let s := with_env s e in
            Continue (sendlinef s "250 2.1.0 Ok")
        end
    end.

Definition handleRcpt (s : session) (line : cmdLine) : session :=
  match env s with
  | None => sendlinef s "503 5.5.1 Error: need MAIL command"
  | Some e =>
      let arg := cmdLine_Arg line in
      match rcptToRE arg with
      | None =>
          let s := log s "Bad RCPT address: %q" in
          sendlinef s "501 5.1.7 Bad sender address syntax"
      | Some m1 =>
          let '(e', err) := AddRecipient e m1 in
          let s := emit (with_env s (Some e')) (EvAddRecipient m1 err) in
          match err with
          | Some er => sendSMTPErrorOrLinef s er "550 bad recipient"
          | None => sendlinef s "250 2.1.0 Ok"
          end
      end
  end.

Definition handleError (s : session) (method : string) (err : error) : session :=
  match err with
  | SMTPError se => sendlinef s se
  | PlainError _ =>
      let s := log s "Method %s returns error: %v" in
      with_env s None
  end.

Inductive loop_exit : Type :=
| LBreak (s : session) (e : E)
| LReturn (s : session)
| LPanic (p : panic) (s : session)
| LOutOfFuel (s : session).

(** The [for] loop of [handleData]; [e] is the envelope behind [s.env].
    [sl[0]] panics on an empty slice. One unit of fuel is spent per
    iteration. *)
Fixpoint data_loop (fuel : nat) (s : session) (e : E) : loop_exit :=
  match fuel with
  | O => LOutOfFuel s
  | S fuel' =>
      let '(r, rest) := ReadSlice (br s) in
      let s := with_br s rest in
      match r with
      | None => LReturn (errorf s "read error: %v")
      | Some sl =>
          let s := emit s (EvRecvData sl) in
          if sl =? "." ++ CRLF then LBreak s e
          else
            match sl with
            | EmptyString => LPanic IndexOutOfRange s
            | String c tl =>
                let sl := if (c =? ".")%char then tl else sl in
                let '(e', err) := Write e sl in
                let s := emit (with_env s (Some e')) (EvWrite sl err) in
                match err with
                | Some er => LReturn (sendSMTPErrorOrLinef s er "550 ??? failed")
                | None => data_loop fuel' s e'
                end
            end
      end
  end.

(** Every iteration that goes round again has consumed a byte of the input,
    so one more unit of fuel than there are bytes is enough. *)
Definition handleData (s : session) : outcome :=
  match env s with
  | None => Continue (sendlinef s "503 5.5.1 Error: need RCPT command")
  | Some e =>
      let '(e, err) := BeginData e in
      let s := emit (with_env s (Some e)) (EvBeginData err) in
      match err with
      | Some er => Continue (handleError s "BeginData" er)
      | None =>
          let s := sendlinef s "354 Go ahead" in
          match data_loop (S (String.length (br s))) s e with
          | LReturn s => Continue s
          | LPanic p s => Panic p s
          | LOutOfFuel s => OutOfFuel s
          | LBreak s e =>
              let '(e, err) := Close e in
              let s := emit (with_env s (Some e)) (EvClose err) in
              match err with
              | Some er => Continue (handleError s "Close" er)
              | None =>
                  let s := sendlinef s "250 2.0.0 Ok: queued" in
                  Continue (with_env s None)
              end
          end
      end
  end.

(** One turn of the [for] loop of [serve]: [Continue] when the loop goes
    round again, [Return] when [serve] returns. *)
Definition serve_body (s : session) : outcome :=
  let '(r, rest) := ReadSlice (br s) in
  let s := with_br s rest in
  match r with
  | None => Return (errorf s "read error: %v")
  | Some sl =>
      let s := emit s (EvRecv sl) in
      let line : cmdLine := sl in
      match cmdLine_checkValid line with
      | Some err => Continue (sendlinef s ("500 " ++ err))
      | None =>
          let verb := cmdLine_Verb line in
          if (verb =? "HELO") || (verb =? "EHLO") then
            Continue (handleHello s verb (cmdLine_Arg line))
          else if verb =? "STARTTLS" then
            match TLSConfig (srv s) with
            | None => Continue (sendlinef s "502 5.5.2 Error: command not recognized")
            | Some cfg =>
                let '(s, err) := handleStartTLS s cfg in
                match err with
                | Some _ => Continue (errorf s "failed to start tls: %s")
                | None => Continue s
                end
            end
          else if verb =? "QUIT" then
            Return (sendlinef s "221 2.0.0 Bye")
          else if verb =? "RSET" then
            let s := with_env s None in
            Continue (sendlinef s "250 2.0.0 OK")
          else if verb =? "NOOP" then
            Continue (sendlinef s "250 2.0.0 OK")
          else if verb =? "MAIL" then
            let arg := cmdLine_Arg line in
            match mailFromRE arg with
            | None =>
                let s := log s "Invalid MAIL arg: %q" in
                Continue (sendlinef s "501 5.1.7 Bad sender address syntax")
            | Some (m1, m2) =>
                if (0 <? String.length m2)%nat then
                  match mailSizeRE m2 with
                  | Some digits =>
                      match Atoi digits with
                      | None =>
                          Continue (sendlinef s
                            "501 5.5.4 Syntax error in parameters or arguments (invalid SIZE parameter)")
                      | Some parsedSize => handleMailFrom s m1 (Some parsedSize)
                      end
                  | None => handleMailFrom s m1 None
                  end
                else handleMailFrom s m1 None
            end
          else if verb =? "RCPT" then
            Continue (handleRcpt s line)
          else if verb =? "DATA" then
            handleData s
          else
            Continue (sendlinef s "502 5.5.2 Error: command not recognized")
      end
  end.

(** The loop of [serve], [fuel] turns of it at most: the outcome is
    [Continue s] when the session is still being served after them. *)
Fixpoint serve_loop (fuel : nat) (s : session) : outcome :=
  match fuel with
  | O => Continue s
  | S fuel' =>
      match serve_body s with
      | Continue s' => serve_loop fuel' s'
      | o => o
      end
  end.

(** [defer s.rwc.Close()]. *)
Definition deferred_close (o : outcome) : outcome :=
  match o with
  | Return s => Return (emit s EvConnClose)
  | Panic p s => Panic p (emit s EvConnClose)
  | o => o
  end.

Definition serve (fuel : nat) (s : session) : outcome :=
  deferred_close
    match OnNewConnection (srv s) with
    | Some onc =>
        let err := onc (remote s) in
        let s := emit s (EvNewConnection err) in
        match err with
        | Some er => Return (sendSMTPErrorOrLinef s er "554 connection rejected")
        | None =>
            serve_loop fuel
              (sendf s ("220 " ++ Server_hostname (srv s) ++ " ESMTP gosmtpd" ++ CRLF))
        end
    | None =>
        serve_loop fuel
          (sendf s ("220 " ++ Server_hostname (srv s) ++ " ESMTP gosmtpd" ++ CRLF))
    end.

(** [Server.newSession]. *)
Definition newSession (sv : Server) (peer : Connection) (stream : string) : session :=
  {| srv := sv; remote := peer; br := stream; env := None;
     helloType := EmptyString; helloHost := EmptyString; trace := [] |}.

(** ** Properties of sessions, as the specification words them *)

(** The session once [serve] has read [line] off the stream, [rest] being
    left to read. *)
Definition received (s : session) (line rest : string) : session :=
  emit (with_br s rest) (EvRecv line).

(** *** The extension reply *)

(** The keywords the EHLO reply announces after the host name, in order. *)
Definition ehlo_keywords (sv : Server) : list string :=
  ((if PlainAuth sv then ["AUTH PLAIN"] else [])
   ++ (if isSome (TLSConfig sv) then ["STARTTLS"] else [])
   ++ (if (MaxSize sv =? 0)%Z then [] else [("SIZE " ++ itoa (MaxSize sv))%string])
   ++ ["PIPELINING"; "ENHANCEDSTATUSCODES"; "8BITMIME"; "DSN"])%list.

(** A multi-line reply: the code and a hyphen before every line but the
    last, the code and a space before the last. *)
Fixpoint multiline_reply (code : string) (lines : list string) : string :=
  match lines with
  | [] => EmptyString
  | [l] => code ++ " " ++ l ++ CRLF
  | l :: rest => code ++ "-" ++ l ++ CRLF ++ multiline_reply code rest
  end.

Definition ehlo_reply (sv : Server) : string :=
  multiline_reply "250" (Server_hostname sv :: ehlo_keywords sv).

(** *** The envelope and the history of a session *)

Definition is_command (verb : string) (ev : event) : bool :=
  match ev with
  | EvRecv l =>
      match cmdLine_checkValid l with
      | None => cmdLine_Verb l =? verb
      | Some _ => false
      end
  | _ => false
  end.

(** A line read as a command is made of ASCII bytes: on it the verb and
    the argument of this file are those of [cmdLine.Verb] and [cmdLine.Arg]. *)
Definition ascii_command (ev : event) : bool :=
  match ev with EvRecv l => is_ascii l | _ => true end.

(** The callback of MAIL FROM returned an envelope and no error. *)
Definition mail_accepted (ev : event) : bool :=
  match ev with EvNewMail _ _ true None => true | _ => false end.

(** The end-of-data line was reached and [Close] was called. *)
Definition data_terminal (ev : event) : bool :=
  match ev with EvClose _ => true | _ => false end.

Definition begin_refused_plain (ev : event) : bool :=
  match ev with EvBeginData (Some (PlainError _)) => true | _ => false end.

Definition close_smtp_error (ev : event) : bool :=
  match ev with EvClose (Some (SMTPError _)) => true | _ => false end.

(** Whether, after [ev], a MAIL FROM has been accepted and none of the
    events that [clears] selects has occurred since, given the answer [b]
    before [ev]. *)
Definition envelope_step (clears : event -> bool) (b : bool) (ev : event) : bool :=
  if mail_accepted ev then true
  else if clears ev then false
  else b.

Definition clears_rset_quit_data (ev : event) : bool :=
  is_command "RSET" ev || is_command "QUIT" ev || data_terminal ev.

Definition clears_also_begin (ev : event) : bool :=
  clears_rset_quit_data ev || begin_refused_plain ev.

(** A MAIL FROM has been accepted and neither RSET, QUIT nor a terminal DATA
    has occurred since. *)
Definition mail_open (tr : list event) : bool :=
  fold_left (envelope_step clears_rset_quit_data) tr false.

(** The same, a DATA whose [BeginData] failed with a plain error counting as
    well. *)
Definition mail_open_begin (tr : list event) : bool :=
  fold_left (envelope_step clears_also_begin) tr false.

(** [s'] is [s] some events later, and whether it holds an envelope is what
    those events make of whether [s] held one, as long as no [Close] among
    them failed with an SMTP reply. *)
Definition follows (s s' : session) : Prop :=
  exists evs : list event,
    trace s' = (trace s ++ evs)%list
    /\ (existsb close_smtp_error evs = false ->
        fold_left (envelope_step clears_also_begin) evs (isSome (env s))
        = isSome (env s')).

(** *** Replies *)

Definition is_sent (ev : event) : bool :=
  match ev with EvSent _ => true | _ => false end.

Definition sent_count (tr : list event) : nat := List.length (filter is_sent tr).

(** The number of replies the next command of [s] is answered with. *)
Definition replies_to_next (s : session) : nat :=
  sent_count (trace (state_of (serve_body s))) - sent_count (trace s).

Definition is_index_panic (o : outcome) : bool :=
  match o with Panic IndexOutOfRange _ => true | _ => false end.

(** *** The DATA phase *)

(** All the [Write] calls for [lines] succeed, from envelope [e] on. *)
Fixpoint write_all (e : E) (lines : list string) : option E :=
  match lines with
  | [] => Some e
  | l :: rest =>
      match Write e l with
      | (e', None) => write_all e' rest
      | (_, Some _) => None
      end
  end.

End Session.

Arguments Server E : clear implicits.
Arguments session E : clear implicits.
Arguments outcome E : clear implicits.
Arguments loop_exit E : clear implicits.

(** A line as the client sends it during DATA: it ends in a line feed, has
    no other line feed, and fits the reader's buffer. *)
Definition is_line (l : string) : bool :=
  HasSuffix l (String LF EmptyString)
  && negb (contains (take (String.length l - 1) l) LF)
  && (String.length l <=? defaultBufSize)%nat.

Fixpoint body_stream (lines : list string) : string :=
  match lines with
  | [] => EmptyString
  | l :: rest => l ++ body_stream rest
  end.

(** What [Write] is to receive for the body line [l]: [l] without its first
    byte when that byte is a dot, [l] otherwise. *)
Definition delivered (l : string) : string :=
  if HasPrefix l "." then drop 1 l else l.

Definition data_events (lines : list string) : list event :=
  flat_map (fun l => [EvRecvData l; EvWrite (delivered l) None]) lines.

(** The number a run of decimal digits stands for. *)
Definition decimal_value (digits : string) : Z :=
  fold_left (fun acc c => (10 * acc + digit_val c)%Z) (list_ascii_of_string digits) 0%Z.

Fixpoint all_digits (s : string) : bool :=
  match s with
  | EmptyString => true
  | String c r => is_digit c && all_digits r
  end.

(** The part of [s] after its last [c], when [c] occurs. *)
Fixpoint after_last (c : ascii) (s : string) : option string :=
  match s with
  | EmptyString => None
  | String a r =>
      match after_last c r with
      | Some t => Some t
      | None => if (a =? c)%char then Some r else None
      end
  end.

(** The host part as the lowercased text after the last at-sign. *)
Definition hostname_after_last_at (email : string) : string :=
  match after_last "@" email with
  | Some h => ToLower h
  | None => EmptyString
  end.

(** ** Sample servers *)

Definition policy (on_begin_ on_close_ : option error) : PolicyEnvelope :=
  {| basic := {| rcpts := [] |};
     reject_rcpt := fun a => HasPrefix (addrString_Email a) "bad@";
     on_begin := on_begin_; on_write := None; on_close := on_close_ |}.

(** A server in the manner of [ajas]: every MAIL FROM gets a fresh envelope. *)
Definition sample_server (on_begin_ on_close_ : option error) : Server PolicyEnvelope :=
  {| Addr := ":2500"; Hostname := "mx"; ReadTimeout := 0; WriteTimeout := 0;
     PlainAuth := false; TLSConfig := None; MaxSize := 0;
     OnNewConnection := None;
     OnNewMail := Some (fun _ _ _ => (Some (policy on_begin_ on_close_), None));
     hostname_cmd := None |}.

Definition sample_session (on_begin_ on_close_ : option error) (stream : string)
  : session PolicyEnvelope :=
  newSession (sample_server on_begin_ on_close_) "192.0.2.1:40000" stream.

Definition crlf (s : string) : string := s ++ CRLF.

(** A TLS configuration no client gets through. *)
Definition refusing_tls : tlsConfig :=
  {| Handshake := fun stream => (Some (PlainError "tls: handshake failure"), stream) |}.

(** A server that announces every optional extension. *)
Definition full_server : Server PolicyEnvelope :=
  {| Addr := ":2500"; Hostname := "mx"; ReadTimeout := 0; WriteTimeout := 0;
     PlainAuth := true; TLSConfig := Some refusing_tls; MaxSize := 10485760;
     OnNewConnection := None;
     OnNewMail := Some (fun _ _ _ => (Some (policy None None), None));
     hostname_cmd := None |}.


(** ** Notions for the properties of the second part *)

(** Dot-stuffing, as a client does it before it sends a body line: a line
    that begins with a dot gets one more dot in front. *)
Definition stuffed (l : string) : string :=
  if HasPrefix l "." then String "." l else l.

Fixpoint no_lower (s : string) : bool :=
  match s with
  | EmptyString => true
  | String c r => negb (is_lower c) && no_lower r
  end.

(** The last byte of [s] is not white space. *)
Fixpoint no_trailing_space (s : string) : bool :=
  match s with
  | EmptyString => true
  | String c EmptyString => negb (IsSpace c)
  | String _ r => no_trailing_space r
  end.

(** The verbs [serve] has a case for. *)
Definition known_verbs : list string :=
  ["HELO"; "EHLO"; "STARTTLS"; "QUIT"; "RSET"; "NOOP"; "MAIL"; "RCPT"; "DATA"].

(** The reply [sendSMTPErrorOrLinef] sends for [err]. *)
Definition reply_for (err : error) (fallback : string) : string :=
  match err with
  | SMTPError reply => crlf reply
  | PlainError _ => crlf fallback
  end.

(** A TLS configuration every client gets through; the plaintext is what
    was on the wire. *)
Definition accepting_tls : tlsConfig :=
  {| Handshake := fun stream => (None, stream) |}.

Definition tls_server : Server PolicyEnvelope :=
  {| Addr := ":2500"; Hostname := "mx"; ReadTimeout := 0; WriteTimeout := 0;
     PlainAuth := false; TLSConfig := Some accepting_tls; MaxSize := 0;
     OnNewConnection := None;
     OnNewMail := Some (fun _ _ _ => (Some (policy None None), None));
     hostname_cmd := None |}.

(** A server whose envelopes are the package's own. *)
Definition basic_server : Server BasicEnvelope :=
  {| Addr := ":2500"; Hostname := "mx"; ReadTimeout := 0; WriteTimeout := 0;
     PlainAuth := false; TLSConfig := None; MaxSize := 0;
     OnNewConnection := None;
     OnNewMail := Some (fun _ _ _ => (Some {| rcpts := [] |}, None));
     hostname_cmd := None |}.

(** An envelope whose [Write] refuses every line. *)
Definition full_disk : PolicyEnvelope :=
  {| basic := {| rcpts := ["b@y"] |};
     reject_rcpt := fun _ => false;
     on_begin := None;
     on_write := Some (SMTPError "452 4.3.1 Insufficient system storage");
     on_close := None |}.

(** The events of a body whose lines were dot-stuffed by the client. *)
Definition stuffed_events (lines : list string) : list event :=
  flat_map (fun l => [EvRecvData (stuffed l); EvWrite l None]) lines.

(** The events of a run of RCPT commands that are all accepted. *)
Definition rcpt_events (lines addrs : list string) : list event :=
  flat_map (fun la => [EvRecv (fst la); EvAddRecipient (snd la) None;
                       EvSent (crlf "250 2.1.0 Ok")])
    (combine lines addrs).

(** *** The order of the calls *)

(** Where a session stands with its envelope: none; one, between commands;
    one whose [BeginData] has just returned nil; one in the middle of the
    body. *)
Inductive phase : Type :=
| NoEnvelope
| HasEnvelope
| DataBegun
| InData.

(** What each phase allows next, and where it leads. Without an envelope
    the only call is that of the MAIL callback, and no method of an
    envelope is called. With one, the callback is not called, recipients
    are added, RSET drops it, and [BeginData] starts the data, keeps the
    envelope (SMTP error) or drops it (plain error). Once [BeginData] has
    returned nil the next event is the sending of [354 Go ahead], and
    nothing else; then only body lines are read and written, until a [Write] fails, a read fails (which is logged), or
    [Close] is called: once. *)
Definition lifecycle_step (p : phase) (ev : event) : option phase :=
  match p with
  | NoEnvelope =>
      match ev with
      | EvNewMail _ _ true None => Some HasEnvelope
      | EvAddRecipient _ _ | EvBeginData _ | EvWrite _ _ | EvClose _
      | EvRecvData _ => None
      | _ => Some NoEnvelope
      end
  | HasEnvelope =>
      match ev with
      | EvNewMail _ _ _ _ | EvWrite _ _ | EvClose _ | EvRecvData _ => None
      | EvBeginData None => Some DataBegun
      | EvBeginData (Some (PlainError _)) => Some NoEnvelope
      | EvRecv _ => if is_command "RSET" ev then Some NoEnvelope else Some HasEnvelope
      | _ => Some HasEnvelope
      end
  | DataBegun =>
      match ev with
      | EvSent text => if text =? crlf "354 Go ahead" then Some InData else None
      | _ => None
      end
  | InData =>
      match ev with
      | EvRecvData _ | EvWrite _ None => Some InData
      | EvWrite _ (Some _) => Some HasEnvelope
      | EvClose (Some (SMTPError _)) => Some HasEnvelope
      | EvClose _ => Some NoEnvelope
      | EvLog format =>
          if format =? "Client error: read error: %v" then Some HasEnvelope else None
      | _ => None
      end
  end.

Fixpoint lifecycle (p : phase) (evs : list event) : option phase :=
  match evs with
  | [] => Some p
  | ev :: rest =>
      match lifecycle_step p ev with
      | Some q => lifecycle q rest
      | None => None
      end
  end.

Definition phase_of {E : Type} (s : session E) : phase :=
  if isSome (env s) then HasEnvelope else NoEnvelope.

(** What is flushed to the connection ends in CRLF. *)
Definition sent_ends_in_CRLF (ev : event) : bool :=
  match ev with
  | EvSent text => HasSuffix text CRLF
  | _ => true
  end.

(** Both at once: the order of the calls, and every chunk ending in CRLF. *)
Definition protocol_step (p : phase) (ev : event) : option phase :=
  if sent_ends_in_CRLF ev then lifecycle_step p ev else None.

Fixpoint protocol (p : phase) (evs : list event) : option phase :=
  match evs with
  | [] => Some p
  | ev :: rest =>
      match protocol_step p ev with
      | Some q => protocol q rest
      | None => None
      end
  end.

(** [a] is [s] some events later, and those events take the protocol from
    the phase of [s] to [p]. *)
Definition reach {E : Type} (s a : session E) (p : phase) : Prop :=
  exists evs : list event,
    trace a = (trace s ++ evs)%list /\ protocol (phase_of s) evs = Some p.

(** *** Counting replies, and bytes *)

(** [a] is [s] some events later, [n] of them flushes. *)
Definition flushed {E : Type} (s a : session E) (n : nat) : Prop :=
  exists evs : list event,
    trace a = (trace s ++ evs)%list /\ sent_count evs = n.

(** [serve] is over: it has returned, or a panic has unwound it. *)
Definition has_ended {E : Type} (o : outcome E) : bool :=
  match o with Return _ | Panic _ _ => true | _ => false end.

(** The bytes of the lines a trace has read. *)
Fixpoint received_bytes (tr : list event) : string :=
  match tr with
  | [] => EmptyString
  | EvRecv l :: rest | EvRecvData l :: rest => l ++ received_bytes rest
  | _ :: rest => received_bytes rest
  end.

(** The events at which input is lost to the trace: a failed read, which
    consumes what it could not frame, and a TLS handshake, after which the
    stream is another. *)
Definition loses_input (ev : event) : bool :=
  match ev with
  | EvHandshake _ => true
  | EvLog format => format =? "Client error: read error: %v"
  | _ => false
  end.

(** [a] is [s] some events later, and unless input was lost on the way,
    what [s] had to read is what was read since, then what [a] has to
    read. *)
Definition in_order {E : Type} (s a : session E) : Prop :=
  exists evs : list event,
    trace a = (trace s ++ evs)%list
    /\ (existsb loses_input evs = false -> br s = received_bytes evs ++ br a).

(** * Facts *)

(** ** Strings *)

Lemma append_nil_r (s : string) : s ++ EmptyString = s.
Proof. induction s as [|c s IH]; simpl; [reflexivity | now rewrite IH]. Qed.

Lemma append_assoc (a b c : string) : (a ++ b) ++ c = a ++ (b ++ c).
Proof. induction a as [|x a IH]; simpl; [reflexivity | now rewrite IH]. Qed.

Lemma length_append (a b : string) :
  String.length (a ++ b) = String.length a + String.length b.
Proof. induction a as [|x a IH]; simpl; [reflexivity | now rewrite IH]. Qed.

Lemma take_drop (n : nat) (s : string) : take n s ++ drop n s = s.
Proof.
  revert s; induction n as [|n IH]; intros [|c s]; simpl; try reflexivity.
  now rewrite IH.
Qed.

Lemma drop_append_length (a b : string) : drop (String.length a) (a ++ b) = b.
Proof.
  induction a as [|x a IH]; simpl; [now destruct b | exact IH].
Qed.

Lemma take_append_length (a b : string) : take (String.length a) (a ++ b) = a.
Proof.
  induction a as [|x a IH]; simpl; [now destruct b | now rewrite IH].
Qed.

Lemma HasSuffix_iff (s suf : string) :
  HasSuffix s suf = true <-> exists p, s = p ++ suf.
Proof.
  unfold HasSuffix; split.
  - intros Hs; apply andb_true_iff in Hs as [_ Hd].
    apply String.eqb_eq in Hd.
    exists (take (String.length s - String.length suf) s).
    pose proof (take_drop (String.length s - String.length suf) s) as Ht.
    rewrite Hd in Ht; now symmetry.
  - intros [p ->]; rewrite length_append.
    replace (String.length p + String.length suf - String.length suf)
      with (String.length p) by lia.
    rewrite drop_append_length, String.eqb_refl, andb_true_r.
    apply Nat.leb_le; lia.
Qed.

Lemma HasPrefix_iff (s pre : string) :
  HasPrefix s pre = true <-> exists r, s = pre ++ r.
Proof.
  unfold HasPrefix; split.
  - intros Hs; apply andb_true_iff in Hs as [_ Hd].
    apply String.eqb_eq in Hd.
    exists (drop (String.length pre) s).
    pose proof (take_drop (String.length pre) s) as Ht.
    rewrite Hd in Ht; now symmetry.
  - intros [r ->]; rewrite length_append, take_append_length.
    rewrite String.eqb_refl, andb_true_r.
    apply Nat.leb_le; lia.
Qed.

Lemma Index_None (s : string) (c : ascii) :
  Index s c = None <-> contains s c = false.
Proof.
  induction s as [|a s IH]; simpl; [tauto|].
  destruct (a =? c)%char; simpl; [split; discriminate|].
  destruct (Index s c); simpl; [|tauto].
  split; [discriminate|]. intros Hc; apply IH in Hc; discriminate.
Qed.

(** [Index] finds the occurrence that has none before it. *)
Lemma Index_first (l r : string) (c : ascii) :
  contains l c = false ->
  Index (l ++ String c r) c = Some (String.length l).
Proof.
  induction l as [|a l IH]; simpl; intros Hc.
  - now rewrite Ascii.eqb_refl.
  - apply orb_false_iff in Hc as [-> Hc]. now rewrite IH.
Qed.

Lemma drop_past (l r : string) (c : ascii) :
  drop (String.length l + 1) (l ++ String c r) = r.
Proof.
  induction l as [|a l IH]; simpl; [now destruct r | exact IH].
Qed.

(** ** The buffered reader *)

Lemma cut_line_Some (room : nat) (s l rest : string) :
  cut_line room s = Some (l, rest) ->
  exists body,
    l = body ++ String LF EmptyString /\ s = l ++ rest
    /\ contains body LF = false /\ S (String.length body) <= room.
Proof.
  revert s l rest; induction room as [|k IH]; intros [|c s] l rest; simpl;
    try discriminate.
  destruct (c =? LF)%char eqn:Hc.
  - intros [= <- <-]. apply Ascii.eqb_eq in Hc; subst c.
    exists EmptyString; simpl; repeat split; lia.
  - destruct (cut_line k s) as [[l' rest']|] eqn:Hk; [|discriminate].
    intros [= <- <-].
    destruct (IH _ _ _ Hk) as (body & -> & -> & Hb & Hl).
    exists (String c body); simpl; rewrite Hc, Hb; repeat split; lia.
Qed.

Lemma cut_line_whole (room : nat) (body rest : string) :
  contains body LF = false -> S (String.length body) <= room ->
  cut_line room ((body ++ String LF EmptyString) ++ rest)
  = Some (body ++ String LF EmptyString, rest).
Proof.
  revert room; induction body as [|c body IH]; intros [|k] Hb Hl; simpl in *;
    try lia.
  - reflexivity.
  - apply orb_false_iff in Hb as [Hc Hb]. rewrite Hc, IH by (auto; lia).
    reflexivity.
Qed.

Lemma ReadSlice_Some (stream sl rest : string) :
  ReadSlice stream = (Some sl, rest) ->
  exists body,
    sl = body ++ String LF EmptyString /\ stream = sl ++ rest
    /\ contains body LF = false.
Proof.
  unfold ReadSlice.
  destruct (cut_line defaultBufSize stream) as [[l r]|] eqn:Hc; [|discriminate].
  intros [= <- <-].
  destruct (cut_line_Some _ _ _ _ Hc) as (body & ? & ? & ? & _); eauto.
Qed.

Lemma ReadSlice_shrinks (stream sl rest : string) :
  ReadSlice stream = (Some sl, rest) -> String.length rest < String.length stream.
Proof.
  intros Hr; destruct (ReadSlice_Some _ _ _ Hr) as (body & -> & -> & _).
  rewrite !length_append; simpl; lia.
Qed.

Lemma ReadSlice_nonempty (stream rest : string) :
  ReadSlice stream <> (Some EmptyString, rest).
Proof.
  intros Hr; destruct (ReadSlice_Some _ _ _ Hr) as (body & Hb & _).
  destruct body; discriminate.
Qed.

Lemma is_line_inv (l : string) :
  is_line l = true ->
  exists body, l = body ++ String LF EmptyString
    /\ contains body LF = false /\ S (String.length body) <= defaultBufSize.
Proof.
  unfold is_line; intros Hl.
  apply andb_true_iff in Hl as [Hl Hn]; apply andb_true_iff in Hl as [Hs Hc].
  apply HasSuffix_iff in Hs as [body ->]; exists body.
  rewrite length_append in Hc, Hn; simpl in Hc, Hn.
  replace (String.length body + 1 - 1) with (String.length body) in Hc by lia.
  rewrite take_append_length in Hc.
  apply negb_true_iff in Hc; apply Nat.leb_le in Hn.
  repeat split; [assumption | lia].
Qed.

(** A well-formed line at the head of the stream is what [ReadSlice] returns. *)
Lemma ReadSlice_line (l rest : string) :
  is_line l = true -> ReadSlice (l ++ rest) = (Some l, rest).
Proof.
  intros Hl; destruct (is_line_inv _ Hl) as (body & -> & Hb & Hn).
  unfold ReadSlice; now rewrite cut_line_whole.
Qed.

(** ** The host part of an address *)




(** ** The dot check of the DATA loop *)

Section DataLoopSafety.

Context {E : Type} `{Envelope E}.

Lemma data_loop_no_index_panic (fuel : nat) (s : session E) (e : E) (q : session E) :
  data_loop fuel s e <> LPanic IndexOutOfRange q.
Proof.
  revert s e; induction fuel as [|fuel IH]; intros s e; simpl; [discriminate|].
  destruct (ReadSlice (br s)) as [[sl|] rest] eqn:Hr; [|discriminate].
  match goal with |- context [if ?b then _ else _] => destruct b end;
    [discriminate|].
  destruct sl as [|c tl]; [now apply ReadSlice_nonempty in Hr|].
  destruct (Write e _) as [e' [er|]]; [discriminate|]. apply IH.
Qed.

Lemma data_loop_enough_fuel (fuel : nat) (s : session E) (e : E) (q : session E) :
  String.length (br s) < fuel -> data_loop fuel s e <> LOutOfFuel q.
Proof.
  revert s e; induction fuel as [|fuel IH]; intros s e Hf; simpl; [lia|].
  destruct (ReadSlice (br s)) as [[sl|] rest] eqn:Hr; [|discriminate].
  match goal with |- context [if ?b then _ else _] => destruct b end;
    [discriminate|].
  destruct sl as [|c tl]; [discriminate|].
  destruct (Write e _) as [e' [er|]]; [discriminate|].
  apply IH; simpl. apply ReadSlice_shrinks in Hr. lia.
Qed.

(** [handleData] never stops for want of fuel. *)
Lemma handleData_total (s q : session E) : handleData s <> OutOfFuel q.
Proof.
  unfold handleData.
  destruct (env s) as [e|]; [|discriminate].
  destruct (BeginData e) as [e1 [er|]]; [discriminate|].
  match goal with |- context [data_loop ?f ?t ?x] =>
    pose proof (data_loop_enough_fuel f t x) as Hf;
    destruct (data_loop f t x) as [s' e'|s'|p s'|s'] end.
  - destruct (Close e') as [e2 [er|]]; discriminate.
  - discriminate.
  - discriminate.
  - exfalso; apply (Hf s'); [simpl; lia | reflexivity].
Qed.

Lemma handleData_no_index_panic (s : session E) :
  is_index_panic (handleData s) = false.
Proof.
  unfold handleData.
  destruct (env s) as [e|]; [|reflexivity].
  destruct (BeginData e) as [e1 [er|]]; [reflexivity|].
  match goal with |- context [data_loop ?f ?t ?x] =>
    pose proof (data_loop_no_index_panic f t x) as Hp;
    destruct (data_loop f t x) as [s' e'|s'|p s'|s'] end; try reflexivity.
  - destruct (Close e') as [e2 [er|]]; reflexivity.
  - destruct p; [reflexivity|]. now exfalso; apply (Hp s').
Qed.

Lemma handleMailFrom_no_index_panic (s : session E) (email : string) (size : option Z) :
  is_index_panic (handleMailFrom s email size) = false.
Proof.
  unfold handleMailFrom.
  destruct (isSome (env s)); [reflexivity|].
  destruct (OnNewMail (srv s)) as [cb|]; [|reflexivity].
  destruct (cb _ _ _) as [e [er|]]; reflexivity.
Qed.

Lemma serve_body_no_index_panic (s : session E) :
  is_index_panic (serve_body s) = false.
Proof.
  unfold serve_body.
  destruct (ReadSlice (br s)) as [[sl|] rest]; [|reflexivity].
  destruct (cmdLine_checkValid sl); [reflexivity|].
  repeat match goal with
         | |- context [if ?b then _ else _] => destruct b
         | |- context [match ?x with _ => _ end] => destruct x
         end;
    try reflexivity;
    auto using handleData_no_index_panic, handleMailFrom_no_index_panic.
Qed.

Lemma serve_loop_no_index_panic (fuel : nat) (s : session E) :
  is_index_panic (serve_loop fuel s) = false.
Proof.
  revert s; induction fuel as [|fuel IH]; intros s; simpl; [reflexivity|].
  pose proof (serve_body_no_index_panic s) as Hb.
  destruct (serve_body s); auto.
Qed.

(** C10: a line that [ReadSlice] returns without error ends in a line feed
    and is not empty, so the dot check of the DATA loop never indexes past
    the end of its slice: neither the loop, nor [handleData], nor a whole
    session ever stops with an index-out-of-range panic. *)
Theorem dot_check_in_range :
  (forall stream : string,
      match ReadSlice stream with
      | (Some sl, _) =>
          HasSuffix sl (String LF EmptyString) && (0 <? String.length sl)%nat = true
      | (None, _) => True
      end)
  /\ (forall s : session E, is_index_panic (handleData s) = false)
  /\ (forall (fuel : nat) (s : session E), is_index_panic (serve fuel s) = false).
Proof.
  split; [|split].
  - intros stream.
    destruct (ReadSlice stream) as [[sl|] rest] eqn:Hr; [|exact I].
    destruct (ReadSlice_Some _ _ _ Hr) as (body & -> & _ & _).
    apply andb_true_iff; split.
    + apply HasSuffix_iff; eauto.
    + apply Nat.ltb_lt; rewrite length_append; simpl; lia.
  - exact handleData_no_index_panic.
  - intros fuel s; unfold serve.
    destruct (OnNewConnection (srv s)) as [onc|].
    + destruct (onc (remote s)) as [[se|pe]|]; try reflexivity.
      match goal with |- context [serve_loop ?f ?t] =>
        pose proof (serve_loop_no_index_panic f t) as Hp;
        destruct (serve_loop f t) as [?|?|[|] ?|?] end;
        simpl in *; congruence.
    + match goal with |- context [serve_loop ?f ?t] =>
        pose proof (serve_loop_no_index_panic f t) as Hp;
        destruct (serve_loop f t) as [?|?|[|] ?|?] end;
        simpl in *; congruence.
Qed.

End DataLoopSafety.

(** ** Decimal digits and [Atoi] *)

Lemma digits_prefix_all_digits (s : string) : all_digits (digits_prefix s) = true.
Proof.
  induction s as [|c s IH]; simpl; [reflexivity|].
  destruct (is_digit c) eqn:Hc; simpl; [now rewrite Hc|reflexivity].
Qed.

Lemma size_here_Some (s ds : string) :
  size_here s = Some ds -> all_digits ds = true /\ ds <> EmptyString.
Proof.
  unfold size_here.
  destruct s as [|a [|b [|c [|d [|e rest]]]]]; try discriminate.
  destruct (_ && _); [|discriminate].
  pose proof (digits_prefix_all_digits rest) as Hd.
  destruct (digits_prefix rest); [discriminate|].
  intros [= <-]; split; [assumption | discriminate].
Qed.

Lemma mailSizeRE_Some (s ds : string) :
  mailSizeRE s = Some ds ->
  all_digits ds = true /\ ds <> EmptyString /\ s <> EmptyString.
Proof.
  induction s as [|c s IH]; [discriminate|].
  cbn [mailSizeRE].
  destruct (size_here (String c s)) as [d|] eqn:Hs.
  - intros [= <-]. destruct (size_here_Some _ _ Hs); repeat split; auto.
    discriminate.
  - intros Hm. destruct (IH Hm) as (? & ? & _); repeat split; auto.
    discriminate.
Qed.

Lemma digit_val_nonneg (c : ascii) : is_digit c = true -> (0 <= digit_val c)%Z.
Proof.
  unfold is_digit, digit_val; intros Hd.
  apply andb_true_iff in Hd as [Hd _]; apply Nat.leb_le in Hd; lia.
Qed.

Lemma parse_digits_fold (s : string) (acc : Z) :
  all_digits s = true ->
  parse_digits acc s
  = Some (fold_left (fun a c => (10 * a + digit_val c)%Z) (list_ascii_of_string s) acc).
Proof.
  revert acc; induction s as [|c s IH]; intros acc;
    cbn [list_ascii_of_string fold_left all_digits parse_digits]; [reflexivity|].
  intros Hd; apply andb_true_iff in Hd as [Hc Hd]. rewrite Hc. now apply IH.
Qed.

Lemma fold_digits_nonneg (s : string) (acc : Z) :
  all_digits s = true -> (0 <= acc)%Z ->
  (0 <= fold_left (fun a c => (10 * a + digit_val c)%Z) (list_ascii_of_string s) acc)%Z.
Proof.
  revert acc; induction s as [|c s IH]; intros acc;
    cbn [list_ascii_of_string fold_left all_digits]; [auto|].
  intros Hd Ha; apply andb_true_iff in Hd as [Hc Hd].
  apply IH; [assumption|]. pose proof (digit_val_nonneg c Hc); lia.
Qed.

(** On a run of digits [Atoi] fails exactly when the number is too big for
    an [int]. *)
Lemma Atoi_digits (ds : string) :
  all_digits ds = true -> ds <> EmptyString ->
  Atoi ds = if (decimal_value ds <=? maxInt)%Z then Some (decimal_value ds) else None.
Proof.
  intros Hd Hne. destruct ds as [|c r]; [congruence|].
  pose proof (parse_digits_fold _ 0%Z Hd) as Hp.
  pose proof (fold_digits_nonneg _ 0%Z Hd (Z.le_refl 0)) as Hn.
  fold (decimal_value (String c r)) in Hp, Hn.
  simpl in Hd; apply andb_true_iff in Hd as [Hc _].
  unfold Atoi.
  assert (Hm : (c =? "-")%char = false).
  { destruct (Ascii.eqb_spec c "-"); [subst c; discriminate | reflexivity]. }
  assert (Hq : (c =? "+")%char = false).
  { destruct (Ascii.eqb_spec c "+"); [subst c; discriminate | reflexivity]. }
  rewrite Hm, Hq, Hp.
  assert (Hlo : (minInt <=? decimal_value (String c r))%Z = true).
  { assert (Hz : (minInt <= 0)%Z) by (vm_compute; discriminate).
    apply Z.leb_le; lia. }
  now rewrite Hlo.
Qed.

(** ** One command *)

Section Dispatch.

Context {E : Type} `{Envelope E}.

Lemma handleHello_reply (s : session E) (greeting host : string) :
  handleHello s greeting host
  = sendf (with_hello s greeting host) (ehlo_reply (srv s)).
Proof.
  unfold handleHello, ehlo_reply, ehlo_keywords; cbn [srv with_hello].
  f_equal.
  destruct (PlainAuth (srv s)), (isSome (TLSConfig (srv s))),
    (MaxSize (srv s) =? 0)%Z;
    cbn [negb app fold_left multiline_reply];
    rewrite ?append_assoc; cbn [append]; rewrite ?append_assoc; reflexivity.
Qed.

Lemma serve_body_hello (s : session E) (line rest : string) :
  ReadSlice (br s) = (Some line, rest) ->
  cmdLine_checkValid line = None ->
  cmdLine_Verb line = "HELO" \/ cmdLine_Verb line = "EHLO" ->
  serve_body s
  = Continue (handleHello (received s line rest) (cmdLine_Verb line)
                (cmdLine_Arg line)).
Proof.
  intros Hr Hv Hverb; unfold serve_body; rewrite Hr, Hv.
  destruct Hverb as [-> | ->]; reflexivity.
Qed.

Lemma serve_body_invalid (s : session E) (line rest msg : string) :
  ReadSlice (br s) = (Some line, rest) ->
  cmdLine_checkValid line = Some msg ->
  serve_body s = Continue (sendlinef (received s line rest) ("500 " ++ msg)).
Proof. intros Hr Hv; unfold serve_body; now rewrite Hr, Hv. Qed.

Lemma serve_body_MAIL (s : session E) (line rest addr params : string) :
  ReadSlice (br s) = (Some line, rest) ->
  cmdLine_checkValid line = None ->
  cmdLine_Verb line = "MAIL" ->
  mailFromRE (cmdLine_Arg line) = Some (addr, params) ->
  serve_body s
  = match mailSizeRE params with
    | Some digits =>
        match Atoi digits with
        | None =>
            Continue (sendlinef (received s line rest)
              "501 5.5.4 Syntax error in parameters or arguments (invalid SIZE parameter)")
        | Some n => handleMailFrom (received s line rest) addr (Some n)
        end
    | None => handleMailFrom (received s line rest) addr None
    end.
Proof.
  intros Hr Hv Hverb Hm; unfold serve_body; rewrite Hr, Hv, Hverb, Hm.
  cbn [String.eqb Ascii.eqb Bool.eqb orb andb].
  destruct (0 <? String.length params)%nat eqn:Hl; [reflexivity|].
  destruct params; [reflexivity | discriminate].
Qed.

(** C7: the reply to EHLO is a function of the server's configuration: the
    multi-line 250 reply that starts with the host name and goes on, in this
    order, with AUTH PLAIN (if PlainAuth), STARTTLS (if a TLS configuration
    is set), SIZE n (if MaxSize is not 0), PIPELINING, ENHANCEDSTATUSCODES,
    8BITMIME and DSN, every line but the last behind [250-], the last behind
    [250 ]. *)
Theorem EHLO_reply_from_config (s : session E) (line rest : string) :
  ReadSlice (br s) = (Some line, rest) ->
  cmdLine_checkValid line = None ->
  cmdLine_Verb line = "EHLO" ->
  exists s' : session E,
    serve_body s = Continue s'
    /\ trace s' = (trace s ++ [EvRecv line; EvSent (ehlo_reply (srv s))])%list
    /\ srv s' = srv s.
Proof.
  intros Hr Hv Hverb.
  rewrite (serve_body_hello s line rest) by auto.
  rewrite handleHello_reply. eexists; split; [reflexivity|].
  cbn; rewrite <- app_assoc; auto.
Qed.

(** C3, as the code has it: the reply to HELO is the multi-line extension
    reply, the same as the reply to EHLO. *)
Theorem HELO_reply_is_extension_reply (s : session E) (line rest : string) :
  ReadSlice (br s) = (Some line, rest) ->
  cmdLine_checkValid line = None ->
  cmdLine_Verb line = "HELO" ->
  exists s' : session E,
    serve_body s = Continue s'
    /\ trace s' = (trace s ++ [EvRecv line; EvSent (ehlo_reply (srv s))])%list.
Proof.
  intros Hr Hv Hverb.
  rewrite (serve_body_hello s line rest) by auto.
  rewrite handleHello_reply. eexists; split; [reflexivity|].
  cbn; rewrite <- app_assoc; auto.
Qed.

(** C8, as the code has it: HELO and EHLO leave the session's envelope as
    it is. *)
Theorem hello_keeps_envelope (s : session E) (line rest : string) :
  ReadSlice (br s) = (Some line, rest) ->
  cmdLine_checkValid line = None ->
  cmdLine_Verb line = "HELO" \/ cmdLine_Verb line = "EHLO" ->
  exists s' : session E,
    serve_body s = Continue s'
    /\ env s' = env s
    /\ helloType s' = cmdLine_Verb line
    /\ helloHost s' = cmdLine_Arg line.
Proof.
  intros Hr Hv Hverb.
  rewrite (serve_body_hello s line rest) by auto.
  rewrite handleHello_reply. eexists; split; [reflexivity|].
  cbn; auto.
Qed.

(** C2, as the code has it: a line that does not end in CRLF is answered
    with the single reply [500 line doesn't end in \r\n], and the loop goes
    on to the next line with the envelope untouched. *)
Theorem bad_framing_500_and_continue (s : session E) (line rest : string) :
  ReadSlice (br s) = (Some line, rest) ->
  HasSuffix line CRLF = false ->
  exists s' : session E,
    serve_body s = Continue s'
    /\ trace s'
       = (trace s ++ [EvRecv line; EvSent (crlf "500 line doesn't end in \r\n")])%list
    /\ env s' = env s
    /\ br s' = rest.
Proof.
  intros Hr Hs.
  rewrite (serve_body_invalid s line rest "line doesn't end in \r\n"); auto.
  - eexists; split; [reflexivity|]. cbn; rewrite <- app_assoc; auto.
  - unfold cmdLine_checkValid; now rewrite Hs.
Qed.

(** C4, as the code has it: on a MAIL whose argument has the shape
    FROM:<addr>params, the reply is [501 5.5.4] and the callback is not
    called when the leftmost SIZE=digits of the parameters names a number
    too big for an [int]; a SIZE= that no digit follows is no SIZE parameter
    at all, and then, as for a SIZE that fits, the command goes to
    [handleMailFrom]. *)
Theorem MAIL_SIZE_parameter (s : session E) (line rest addr params : string) :
  ReadSlice (br s) = (Some line, rest) ->
  cmdLine_checkValid line = None ->
  cmdLine_Verb line = "MAIL" ->
  mailFromRE (cmdLine_Arg line) = Some (addr, params) ->
  (forall digits : string,
      mailSizeRE params = Some digits -> (maxInt < decimal_value digits)%Z ->
      exists s' : session E,
        serve_body s = Continue s'
        /\ trace s'
           = (trace s ++
              [EvRecv line;
               EvSent (crlf "501 5.5.4 Syntax error in parameters or arguments (invalid SIZE parameter)")])%list
        /\ env s' = env s)
  /\ (forall digits : string,
         mailSizeRE params = Some digits -> (decimal_value digits <= maxInt)%Z ->
         serve_body s
         = handleMailFrom (received s line rest) addr (Some (decimal_value digits)))
  /\ (mailSizeRE params = None ->
      serve_body s = handleMailFrom (received s line rest) addr None).
Proof.
  intros Hr Hv Hverb Hm.
  rewrite (serve_body_MAIL s line rest addr params) by auto.
  split; [|split].
  - intros digits Hd Hbig. rewrite Hd.
    destruct (mailSizeRE_Some _ _ Hd) as (Hall & Hne & _).
    rewrite Atoi_digits by assumption.
    destruct (Z.leb_spec (decimal_value digits) maxInt); [lia|].
    eexists; split; [reflexivity|]. cbn; rewrite <- app_assoc; auto.
  - intros digits Hd Hfit. rewrite Hd.
    destruct (mailSizeRE_Some _ _ Hd) as (Hall & Hne & _).
    rewrite Atoi_digits by assumption.
    destruct (Z.leb_spec (decimal_value digits) maxInt); [reflexivity|lia].
  - intros ->; reflexivity.
Qed.

End Dispatch.

(** ** The commands on sample sessions *)

Example ehlo_reply_full_server :
  ehlo_reply full_server
  = crlf "250-mx" ++ crlf "250-AUTH PLAIN" ++ crlf "250-STARTTLS"
    ++ crlf "250-SIZE 10485760" ++ crlf "250-PIPELINING"
    ++ crlf "250-ENHANCEDSTATUSCODES" ++ crlf "250-8BITMIME" ++ crlf "250 DSN".
Proof. reflexivity. Qed.

Lemma EHLO_reply_from_config_witness :
  let s := newSession full_server "192.0.2.1:40000" (crlf "EHLO mail.example.com") in
  ReadSlice (br s) = (Some (crlf "EHLO mail.example.com"), EmptyString)
  /\ cmdLine_checkValid (crlf "EHLO mail.example.com") = None
  /\ cmdLine_Verb (crlf "EHLO mail.example.com") = "EHLO"
  /\ exists s' : session PolicyEnvelope,
       serve_body s = Continue s'
       /\ trace s'
          = (trace s ++ [EvRecv (crlf "EHLO mail.example.com");
                         EvSent (ehlo_reply (srv s))])%list
       /\ srv s' = srv s.
Proof.
  intros s.
  assert (Hr : ReadSlice (br s) = (Some (crlf "EHLO mail.example.com"), EmptyString))
    by (vm_compute; reflexivity).
  assert (Hv : cmdLine_checkValid (crlf "EHLO mail.example.com") = None)
    by (vm_compute; reflexivity).
  assert (Hverb : cmdLine_Verb (crlf "EHLO mail.example.com") = "EHLO")
    by (vm_compute; reflexivity).
  repeat split; try assumption.
  exact (EHLO_reply_from_config s _ _ Hr Hv Hverb).
Defined.

Lemma HELO_reply_is_extension_reply_witness :
  let s := sample_session None None (crlf "HELO mail.example.com") in
  ReadSlice (br s) = (Some (crlf "HELO mail.example.com"), EmptyString)
  /\ cmdLine_checkValid (crlf "HELO mail.example.com") = None
  /\ cmdLine_Verb (crlf "HELO mail.example.com") = "HELO"
  /\ exists s' : session PolicyEnvelope,
       serve_body s = Continue s'
       /\ trace s'
          = (trace s ++ [EvRecv (crlf "HELO mail.example.com");
                         EvSent (ehlo_reply (srv s))])%list.
Proof.
  intros s.
  assert (Hr : ReadSlice (br s) = (Some (crlf "HELO mail.example.com"), EmptyString))
    by (vm_compute; reflexivity).
  assert (Hv : cmdLine_checkValid (crlf "HELO mail.example.com") = None)
    by (vm_compute; reflexivity).
  assert (Hverb : cmdLine_Verb (crlf "HELO mail.example.com") = "HELO")
    by (vm_compute; reflexivity).
  repeat split; try assumption.
  exact (HELO_reply_is_extension_reply s _ _ Hr Hv Hverb).
Defined.

(** C3 as stated fails: the reply to a valid HELO is not the single line
    [250 mx]; four lines of extensions follow the host name. *)
Lemma HELO_reply_not_single_line :
  cmdLine_checkValid (crlf "HELO mail.example.com") = None
  /\ cmdLine_Verb (crlf "HELO mail.example.com") = "HELO"
  /\ exists s' : session PolicyEnvelope,
       serve_body (sample_session None None (crlf "HELO mail.example.com"))
       = Continue s'
       /\ trace s'
          = [EvRecv (crlf "HELO mail.example.com");
             EvSent (crlf "250-mx" ++ crlf "250-PIPELINING"
                     ++ crlf "250-ENHANCEDSTATUSCODES" ++ crlf "250-8BITMIME"
                     ++ crlf "250 DSN")]
       /\ trace s' <> [EvRecv (crlf "HELO mail.example.com"); EvSent (crlf "250 mx")].
Proof.
  split; [reflexivity|]. split; [reflexivity|].
  eexists; split; [vm_compute; reflexivity|].
  split; [reflexivity | discriminate].
Qed.

Lemma hello_keeps_envelope_witness :
  let s := with_env (sample_session None None (crlf "EHLO mail.example.com"))
             (Some (policy None None)) in
  ReadSlice (br s) = (Some (crlf "EHLO mail.example.com"), EmptyString)
  /\ cmdLine_checkValid (crlf "EHLO mail.example.com") = None
  /\ (cmdLine_Verb (crlf "EHLO mail.example.com") = "HELO"
      \/ cmdLine_Verb (crlf "EHLO mail.example.com") = "EHLO")
  /\ exists s' : session PolicyEnvelope,
       serve_body s = Continue s'
       /\ env s' = env s
       /\ helloType s' = cmdLine_Verb (crlf "EHLO mail.example.com")
       /\ helloHost s' = cmdLine_Arg (crlf "EHLO mail.example.com").
Proof.
  intros s.
  assert (Hr : ReadSlice (br s) = (Some (crlf "EHLO mail.example.com"), EmptyString))
    by (vm_compute; reflexivity).
  assert (Hv : cmdLine_checkValid (crlf "EHLO mail.example.com") = None)
    by (vm_compute; reflexivity).
  assert (Hverb : cmdLine_Verb (crlf "EHLO mail.example.com") = "HELO"
                  \/ cmdLine_Verb (crlf "EHLO mail.example.com") = "EHLO")
    by (right; vm_compute; reflexivity).
  repeat split; try assumption.
  exact (hello_keeps_envelope s _ _ Hr Hv Hverb).
Defined.

(** C8 as stated fails: after an accepted MAIL FROM, an EHLO is answered
    and the envelope is still there. *)
Lemma EHLO_does_not_clear_envelope :
  exists s' : session PolicyEnvelope,
    serve_loop 2
      (sample_session None None (crlf "MAIL FROM:<a@x>" ++ crlf "EHLO mail.example.com"))
    = Continue s'
    /\ trace s'
       = [EvRecv (crlf "MAIL FROM:<a@x>"); EvNewMail "a@x" None true None;
          EvSent (crlf "250 2.1.0 Ok");
          EvRecv (crlf "EHLO mail.example.com");
          EvSent (crlf "250-mx" ++ crlf "250-PIPELINING"
                  ++ crlf "250-ENHANCEDSTATUSCODES" ++ crlf "250-8BITMIME"
                  ++ crlf "250 DSN")]
    /\ env s' = Some (policy None None)
    /\ env s' <> None.
Proof.
  eexists; split; [vm_compute; reflexivity|].
  split; [reflexivity|]. split; [reflexivity | discriminate].
Qed.

Lemma bad_framing_500_and_continue_witness :
  let s := sample_session None None (("NOOP" ++ String LF EmptyString) ++ crlf "NOOP") in
  ReadSlice (br s) = (Some ("NOOP" ++ String LF EmptyString), crlf "NOOP")
  /\ HasSuffix ("NOOP" ++ String LF EmptyString) CRLF = false
  /\ exists s' : session PolicyEnvelope,
       serve_body s = Continue s'
       /\ trace s'
          = (trace s ++ [EvRecv ("NOOP" ++ String LF EmptyString);
                         EvSent (crlf "500 line doesn't end in \r\n")])%list
       /\ env s' = env s
       /\ br s' = crlf "NOOP".
Proof.
  intros s.
  assert (Hr : ReadSlice (br s) = (Some ("NOOP" ++ String LF EmptyString), crlf "NOOP"))
    by (vm_compute; reflexivity).
  assert (Hs : HasSuffix ("NOOP" ++ String LF EmptyString) CRLF = false)
    by (vm_compute; reflexivity).
  repeat split; try assumption.
  exact (bad_framing_500_and_continue s _ _ Hr Hs).
Defined.

(** C2 as stated fails: after the 500 for a line that ends in a bare line
    feed the session is still being served, and the next command is read
    and answered. *)
Lemma bad_framing_does_not_terminate :
  HasSuffix ("NOOP" ++ String LF EmptyString) CRLF = false
  /\ exists s' : session PolicyEnvelope,
       serve_loop 2
         (sample_session None None (("NOOP" ++ String LF EmptyString) ++ crlf "NOOP"))
       = Continue s'
       /\ trace s'
          = [EvRecv ("NOOP" ++ String LF EmptyString);
             EvSent (crlf "500 line doesn't end in \r\n");
             EvRecv (crlf "NOOP");
             EvSent (crlf "250 2.0.0 OK")].
Proof.
  split; [reflexivity|].
  eexists; split; [vm_compute; reflexivity | reflexivity].
Qed.

Lemma MAIL_SIZE_parameter_witness :
  let big := crlf "MAIL FROM:<a@x> SIZE=99999999999999999999" in
  let fits := crlf "MAIL FROM:<a@x> SIZE=123" in
  let none := crlf "MAIL FROM:<a@x> BODY=8BITMIME" in
  (ReadSlice (br (sample_session None None big)) = (Some big, EmptyString)
   /\ cmdLine_checkValid big = None
   /\ cmdLine_Verb big = "MAIL"
   /\ mailFromRE (cmdLine_Arg big) = Some ("a@x", " SIZE=99999999999999999999")
   /\ mailSizeRE " SIZE=99999999999999999999" = Some "99999999999999999999"
   /\ (maxInt < decimal_value "99999999999999999999")%Z
   /\ exists s' : session PolicyEnvelope,
        serve_body (sample_session None None big) = Continue s'
        /\ trace s'
           = (trace (sample_session None None big) ++
              [EvRecv big;
               EvSent (crlf "501 5.5.4 Syntax error in parameters or arguments (invalid SIZE parameter)")])%list
        /\ env s' = env (sample_session None None big))
  /\ (mailFromRE (cmdLine_Arg fits) = Some ("a@x", " SIZE=123")
      /\ mailSizeRE " SIZE=123" = Some "123"
      /\ (decimal_value "123" <= maxInt)%Z
      /\ serve_body (sample_session None None fits)
         = handleMailFrom (received (sample_session None None fits) fits EmptyString)
             "a@x" (Some (decimal_value "123")))
  /\ (mailFromRE (cmdLine_Arg none) = Some ("a@x", " BODY=8BITMIME")
      /\ mailSizeRE " BODY=8BITMIME" = None
      /\ serve_body (sample_session None None none)
         = handleMailFrom (received (sample_session None None none) none EmptyString)
             "a@x" None).
Proof.
  intros big fits none.
  assert (Hbig : (maxInt < decimal_value "99999999999999999999")%Z)
    by (vm_compute; reflexivity).
  assert (Hfit : (decimal_value "123" <= maxInt)%Z)
    by (vm_compute; discriminate).
  pose proof (MAIL_SIZE_parameter (sample_session None None big) big EmptyString
                "a@x" " SIZE=99999999999999999999"
                eq_refl eq_refl eq_refl eq_refl) as (Tbig & _ & _).
  pose proof (MAIL_SIZE_parameter (sample_session None None fits) fits EmptyString
                "a@x" " SIZE=123" eq_refl eq_refl eq_refl eq_refl) as (_ & Tfit & _).
  pose proof (MAIL_SIZE_parameter (sample_session None None none) none EmptyString
                "a@x" " BODY=8BITMIME" eq_refl eq_refl eq_refl eq_refl) as (_ & _ & Tnone).
  split; [|split].
  - do 5 (split; [reflexivity|]). split; [exact Hbig|].
    exact (Tbig "99999999999999999999" eq_refl Hbig).
  - do 2 (split; [reflexivity|]). split; [exact Hfit|].
    exact (Tfit "123" eq_refl Hfit).
  - do 2 (split; [reflexivity|]). exact (Tnone eq_refl).
Defined.

(** C4 as stated fails on the specification's own example: [SIZE=xyz] is
    not answered with 501 5.5.4; the callback is called, without a size, and
    the command is accepted. *)
Lemma SIZE_xyz_is_accepted :
  mailFromRE (cmdLine_Arg (crlf "MAIL FROM:<a@x> SIZE=xyz")) = Some ("a@x", " SIZE=xyz")
  /\ exists s' : session PolicyEnvelope,
       serve_body (sample_session None None (crlf "MAIL FROM:<a@x> SIZE=xyz"))
       = Continue s'
       /\ trace s'
          = [EvRecv (crlf "MAIL FROM:<a@x> SIZE=xyz");
             EvNewMail "a@x" None true None;
             EvSent (crlf "250 2.1.0 Ok")].
Proof.
  split; [reflexivity|].
  eexists; split; [vm_compute; reflexivity | reflexivity].
Qed.

(** C5, the code at the failing inputs. A DATA whose [BeginData] fails with
    a plain error is answered with nothing at all: the error is logged, the
    envelope dropped, and the next command is read. A DATA whose [Close]
    fails with a plain error gets its 354 and no status line after the end
    of the data. *)
Theorem plain_error_leaves_DATA_unanswered :
  (exists s1 s2 : session PolicyEnvelope,
      serve_loop 1
        (sample_session (Some (PlainError "disk full")) None
           (crlf "MAIL FROM:<a@x>" ++ crlf "DATA" ++ crlf "NOOP"))
      = Continue s1
      /\ serve_body s1 = Continue s2
      /\ trace s2
         = (trace s1 ++
            [EvRecv (crlf "DATA"); EvBeginData (Some (PlainError "disk full"));
             EvLog "Method %s returns error: %v"])%list
      /\ replies_to_next s1 = 0
      /\ br s2 = crlf "NOOP")
  /\ (exists s1 s2 : session PolicyEnvelope,
         serve_loop 2
           (sample_session None (Some (PlainError "disk full"))
              (crlf "MAIL FROM:<a@x>" ++ crlf "RCPT TO:<b@y>" ++ crlf "DATA"
               ++ crlf "hello" ++ crlf "." ++ crlf "NOOP"))
         = Continue s1
         /\ serve_body s1 = Continue s2
         /\ trace s2
            = (trace s1 ++
               [EvRecv (crlf "DATA"); EvBeginData None; EvSent (crlf "354 Go ahead");
                EvRecvData (crlf "hello"); EvWrite (crlf "hello") None;
                EvRecvData (crlf "."); EvClose (Some (PlainError "disk full"));
                EvLog "Method %s returns error: %v"])%list
         /\ replies_to_next s1 = 1
         /\ br s2 = crlf "NOOP").
Proof.
  split.
  - eexists; eexists; split; [vm_compute; reflexivity|].
    split; [vm_compute; reflexivity|].
    repeat split; reflexivity.
  - eexists; eexists; split; [vm_compute; reflexivity|].
    split; [vm_compute; reflexivity|].
    repeat split; reflexivity.
Qed.

(** ** The DATA phase *)

Lemma delivered_cons (c : ascii) (tl : string) :
  (if (c =? ".")%char then tl else String c tl) = delivered (String c tl).
Proof.
  unfold delivered, HasPrefix; cbn.
  destruct (c =? ".")%char; reflexivity.
Qed.

Lemma delivered_keeps_CRLF (l : string) :
  HasSuffix l CRLF = true -> HasSuffix (delivered l) CRLF = true.
Proof.
  intros Hs. unfold delivered.
  destruct (HasPrefix l ".") eqn:Hp; [|assumption].
  apply HasSuffix_iff in Hs as [p ->]. apply HasSuffix_iff.
  destruct p as [|c p]; [discriminate Hp|]. now exists p.
Qed.

Lemma is_line_terminator : is_line ("." ++ CRLF) = true.
Proof. reflexivity. Qed.

Section DataPhase.

Context {E : Type} `{Envelope E}.

Lemma data_loop_lines (lines : list string) :
  forall (fuel : nat) (s : session E) (e eN : E) (rest : string),
    Forall (fun l => is_line l = true) lines ->
    Forall (fun l => l <> "." ++ CRLF) lines ->
    br s = body_stream lines ++ ("." ++ CRLF) ++ rest ->
    write_all e (map delivered lines) = Some eN ->
    String.length (br s) < fuel ->
    exists s' : session E,
      data_loop fuel s e = LBreak s' eN
      /\ trace s' = (trace s ++ data_events lines ++ [EvRecvData ("." ++ CRLF)])%list
      /\ br s' = rest
      /\ env s' = match lines with [] => env s | _ => Some eN end.
Proof.
  induction lines as [|l lines IH]; intros fuel s e eN rest Hl Hn Hbr Hw Hf.
  - destruct fuel as [|fuel]; [lia|].
    change (br s = ("." ++ CRLF) ++ rest) in Hbr.
    cbn [map write_all] in Hw. injection Hw as <-.
    cbn [data_loop].
    rewrite Hbr, (ReadSlice_line ("." ++ CRLF) rest is_line_terminator).
    rewrite String.eqb_refl. eexists; split; [reflexivity|].
    cbn; auto.
  - destruct fuel as [|fuel]; [lia|].
    inversion Hl as [|? ? Hl1 Hl2]; subst. inversion Hn as [|? ? Hn1 Hn2]; subst.
    cbn [body_stream] in Hbr. rewrite append_assoc in Hbr.
    cbn [map write_all] in Hw.
    destruct (Write e (delivered l)) as [e' [er|]] eqn:Hwr; [discriminate|].
    cbn [data_loop]. rewrite Hbr, (ReadSlice_line l _ Hl1).
    apply String.eqb_neq in Hn1. rewrite Hn1.
    destruct l as [|c tl]; [discriminate Hl1|].
    rewrite delivered_cons, Hwr.
    match goal with |- context [data_loop fuel ?t e'] => set (s1 := t) end.
    destruct (IH fuel s1 e' eN rest Hl2 Hn2 eq_refl Hw) as (s' & Hd & Ht & Hb & He).
    { cbn [s1 br emit with_env with_br]. rewrite Hbr in Hf.
      rewrite length_append in Hf; cbn [String.length] in Hf. lia. }
    exists s'; split; [exact Hd|]. split; [|split].
    + rewrite Ht. cbn [s1 trace emit with_env with_br data_events flat_map].
      rewrite <- !app_assoc. reflexivity.
    + exact Hb.
    + rewrite He. destruct lines; [|reflexivity].
      cbn [map write_all] in Hw. now injection Hw as <-.
Qed.

(** Whatever the session, a plain error from [BeginData] is logged and
    answered with nothing. *)
Lemma handleData_plain_begin_error (s : session E) (e e1 : E) (msg : string) :
  env s = Some e ->
  BeginData e = (e1, Some (PlainError msg)) ->
  exists s' : session E,
    handleData s = Continue s'
    /\ trace s'
       = (trace s ++ [EvBeginData (Some (PlainError msg));
                      EvLog "Method %s returns error: %v"])%list
    /\ env s' = None.
Proof.
  intros He Hb; unfold handleData; rewrite He, Hb.
  eexists; split; [reflexivity|]. cbn; rewrite <- app_assoc; auto.
Qed.

(** C6: with an envelope in place whose [BeginData], [Write] and [Close]
    succeed, the DATA phase goes as follows. After [354 Go ahead] every
    line read before the first line that is exactly a dot and CRLF is handed
    to [Write], in order, without its first byte if that byte is a dot and
    unchanged otherwise, so with the CRLF it ends in; the dot line ends the
    phase and is not handed to [Write]; [Close] is called, the reply is
    [250 2.0.0 Ok: queued] and the envelope is nil afterwards. *)
Theorem DATA_body_delivery
  (s : session E) (e e1 eN eC : E) (lines : list string) (rest : string) :
  env s = Some e ->
  BeginData e = (e1, None) ->
  Forall (fun l => is_line l = true) lines ->
  Forall (fun l => l <> "." ++ CRLF) lines ->
  br s = body_stream lines ++ ("." ++ CRLF) ++ rest ->
  write_all e1 (map delivered lines) = Some eN ->
  Close eN = (eC, None) ->
  exists s' : session E,
    handleData s = Continue s'
    /\ trace s'
       = (trace s ++ [EvBeginData None; EvSent (crlf "354 Go ahead")]
          ++ data_events lines
          ++ [EvRecvData ("." ++ CRLF); EvClose None;
              EvSent (crlf "250 2.0.0 Ok: queued")])%list
    /\ env s' = None
    /\ br s' = rest
    /\ Forall (fun l =>
                 (HasPrefix l "." = true -> delivered l = drop 1 l)
                 /\ (HasPrefix l "." = false -> delivered l = l)
                 /\ (HasSuffix l CRLF = true -> HasSuffix (delivered l) CRLF = true))
         lines.
Proof.
  intros He Hb Hl Hn Hbr Hw Hc.
  unfold handleData. rewrite He, Hb.
  match goal with |- context [data_loop _ ?t e1] => set (s1 := t) end.
  destruct (data_loop_lines lines (S (String.length (br s1))) s1 e1 eN rest
              Hl Hn Hbr Hw (Nat.lt_succ_diag_r _))
    as (s2 & Hd & Ht & Hr & _).
  rewrite Hd, Hc. eexists; split; [reflexivity|].
  split; [|split; [reflexivity|split]].
  - cbn [trace emit with_env sendlinef sendf]. rewrite Ht.
    cbn [s1 trace emit with_env sendlinef sendf with_br].
    rewrite <- !app_assoc. reflexivity.
  - exact Hr.
  - apply Forall_forall; intros l _. unfold delivered.
    split; [intros ->; reflexivity|].
    split; [intros ->; reflexivity|]. apply delivered_keeps_CRLF.
Qed.

End DataPhase.

Lemma DATA_body_delivery_witness :
  let e := with_basic (policy None None) {| rcpts := ["b@y"] |} in
  let lines := [crlf "Subject: hi"; crlf "..foo"; crlf ".hidden"; crlf "body"] in
  let s := with_env
             (sample_session None None
                (body_stream lines ++ ("." ++ CRLF) ++ crlf "QUIT"))
             (Some e) in
  env s = Some e
  /\ BeginData e = (e, None)
  /\ Forall (fun l => is_line l = true) lines
  /\ Forall (fun l => l <> "." ++ CRLF) lines
  /\ br s = body_stream lines ++ ("." ++ CRLF) ++ crlf "QUIT"
  /\ write_all e (map delivered lines) = Some e
  /\ Close e = (e, None)
  /\ map delivered lines = [crlf "Subject: hi"; crlf ".foo"; crlf "hidden"; crlf "body"]
  /\ exists s' : session PolicyEnvelope,
       handleData s = Continue s'
       /\ trace s'
          = (trace s ++ [EvBeginData None; EvSent (crlf "354 Go ahead")]
             ++ data_events lines
             ++ [EvRecvData ("." ++ CRLF); EvClose None;
                 EvSent (crlf "250 2.0.0 Ok: queued")])%list
       /\ env s' = None
       /\ br s' = crlf "QUIT"
       /\ Forall (fun l =>
                    (HasPrefix l "." = true -> delivered l = drop 1 l)
                    /\ (HasPrefix l "." = false -> delivered l = l)
                    /\ (HasSuffix l CRLF = true -> HasSuffix (delivered l) CRLF = true))
            lines.
Proof.
  intros e lines s.
  assert (Hl : Forall (fun l => is_line l = true) lines)
    by (repeat constructor).
  assert (Hn : Forall (fun l => l <> "." ++ CRLF) lines)
    by (repeat constructor; discriminate).
  split; [reflexivity|]. split; [reflexivity|].
  split; [exact Hl|]. split; [exact Hn|].
  split; [reflexivity|]. split; [reflexivity|]. split; [reflexivity|].
  split; [reflexivity|].
  exact (DATA_body_delivery s e e e e lines (crlf "QUIT")
           eq_refl eq_refl Hl Hn eq_refl eq_refl eq_refl).
Defined.

(** ** The envelope along a session *)

Create HintDb follows discriminated.

Section EnvelopeInvariant.

Context {E : Type} `{Envelope E}.

Lemma follows_refl (s : session E) : follows s s.
Proof. exists []; split; [now rewrite app_nil_r | reflexivity]. Qed.

Lemma follows_trans (s1 s2 s3 : session E) :
  follows s1 s2 -> follows s2 s3 -> follows s1 s3.
Proof.
  intros (ev1 & Ht1 & He1) (ev2 & Ht2 & He2).
  exists (ev1 ++ ev2)%list; split.
  - now rewrite Ht2, Ht1, app_assoc.
  - rewrite existsb_app, fold_left_app. intros Hno.
    apply orb_false_iff in Hno as [Hn1 Hn2].
    now rewrite He1, He2.
Qed.

(** [follows] looks at the trace and at whether there is an envelope, at
    nothing else. *)
Lemma follows_ext (s a b : session E) :
  trace b = trace a -> isSome (env b) = isSome (env a) ->
  follows s a -> follows s b.
Proof.
  intros Ht He (evs & Hevs & Hf); exists evs; split; [congruence|].
  now rewrite He.
Qed.

(** One more event, of a kind that neither opens nor clears. *)
Lemma follows_then_event (s a : session E) (ev : event) :
  mail_accepted ev = false -> clears_also_begin ev = false ->
  follows s a -> follows s (emit a ev).
Proof.
  intros Ha Hc Hf; apply follows_trans with a; [assumption|].
  exists [ev]; split; [reflexivity|].
  intros _; cbn [fold_left]; unfold envelope_step. now rewrite Ha, Hc.
Qed.

(** The step for an event that computes to neither an acceptance nor a
    clearing. *)
Ltac quiet_event := apply follows_then_event; [reflexivity..|].

Lemma follows_then_sendf (s a : session E) (text : string) :
  follows s a -> follows s (sendf a text).
Proof. now quiet_event. Qed.

Lemma follows_then_sendlinef (s a : session E) (text : string) :
  follows s a -> follows s (sendlinef a text).
Proof. apply follows_then_sendf. Qed.

Lemma follows_then_log (s a : session E) (format : string) :
  follows s a -> follows s (log a format).
Proof. now quiet_event. Qed.

Lemma follows_then_errorf (s a : session E) (format : string) :
  follows s a -> follows s (errorf a format).
Proof. apply follows_then_log. Qed.

Lemma follows_then_sendSMTPErrorOrLinef (s a : session E) (err : error) (text : string) :
  follows s a -> follows s (sendSMTPErrorOrLinef a err text).
Proof. destruct err; apply follows_then_sendlinef. Qed.

Lemma follows_then_with_br (s a : session E) (b : string) :
  follows s a -> follows s (with_br a b).
Proof. now apply follows_ext. Qed.

Lemma follows_then_with_hello (s a : session E) (greeting host : string) :
  follows s a -> follows s (with_hello a greeting host).
Proof. now apply follows_ext. Qed.

(** An envelope replaced by an envelope, or none by none. *)
Lemma follows_then_with_env (s a : session E) (o : option E) :
  isSome o = isSome (env a) -> follows s a -> follows s (with_env a o).
Proof. intros Ho; now apply follows_ext. Qed.

Lemma follows_then_handleHello (s a : session E) (greeting host : string) :
  follows s a -> follows s (handleHello a greeting host).
Proof.
  intros Hf; rewrite handleHello_reply.
  now apply follows_then_sendf, follows_then_with_hello.
Qed.

Lemma follows_then_handleStartTLS (s a : session E) (cfg : tlsConfig) :
  follows s a -> follows s (fst (handleStartTLS a cfg)).
Proof.
  intros Hf; unfold handleStartTLS; cbv zeta.
  destruct (Handshake cfg _) as [[e|] stream]; cbn [fst].
  - apply follows_then_sendSMTPErrorOrLinef.
    quiet_event.
    now apply follows_then_with_br, follows_then_sendlinef.
  - quiet_event.
    now apply follows_then_with_br, follows_then_sendlinef.
Qed.

Lemma follows_then_handleRcpt (s a : session E) (line : cmdLine) :
  follows s a -> follows s (handleRcpt a line).
Proof.
  intros Hf; unfold handleRcpt.
  destruct (env a) as [e|] eqn:He; [|now apply follows_then_sendlinef].
  destruct (rcptToRE _) as [m1|].
  - destruct (AddRecipient e m1) as [e' err].
    assert (Hs : follows s (emit (with_env a (Some e')) (EvAddRecipient m1 err))).
    { quiet_event.
      apply follows_then_with_env; [now rewrite He | assumption]. }
    destruct err;
      [now apply follows_then_sendSMTPErrorOrLinef | now apply follows_then_sendlinef].
  - now apply follows_then_sendlinef, follows_then_log.
Qed.

#[local] Hint Resolve follows_refl follows_then_sendf follows_then_sendlinef
  follows_then_log follows_then_errorf follows_then_sendSMTPErrorOrLinef
  follows_then_with_br follows_then_with_hello follows_then_handleHello
  follows_then_handleRcpt : follows.

Lemma follows_then_handleMailFrom
  (s a b : session E) (email : string) (size : option Z) :
  follows s a -> handleMailFrom a email size = Continue b -> follows s b.
Proof.
  intros Hf; unfold handleMailFrom.
  destruct (isSome (env a)) eqn:He;
    [intros [= <-]; now apply follows_then_sendlinef|].
  destruct (OnNewMail (srv a)) as [cb|]; [|discriminate].
  cbv zeta. destruct (cb _ _ _) as [e err].
  assert (Hn : follows s (with_env a None))
    by (apply follows_then_with_env; [now rewrite He | assumption]).
  destruct err as [er|]; intros [= <-].
  - repeat quiet_event.
    apply follows_then_event; [now destruct (isSome e) | reflexivity | assumption].
  - apply follows_then_sendlinef.
    apply follows_trans with (with_env a None); [assumption|].
    exists [EvNewMail email size (isSome e) None]; split; [reflexivity|].
    intros _; cbn [fold_left env with_env emit]; unfold envelope_step.
    now destruct e.
Qed.

Lemma follows_data_loop (fuel : nat) :
  forall (s a : session E) (e : E),
    follows s a -> isSome (env a) = true ->
    match data_loop fuel a e with
    | LBreak b _ => follows s b /\ isSome (env b) = true
    | LReturn b => follows s b
    | _ => True
    end.
Proof.
  induction fuel as [|fuel IH]; intros s a e Hf He; cbn [data_loop]; [exact I|].
  destruct (ReadSlice (br a)) as [[sl|] rest].
  - assert (Hr : follows s (emit (with_br a rest) (EvRecvData sl))).
    { quiet_event. now apply follows_then_with_br. }
    match goal with |- context [if ?c then _ else _] => destruct c end;
      [split; [exact Hr | exact He]|].
    destruct sl as [|c tl]; [exact I|].
    destruct (Write e _) as [e' [er|]].
    + apply follows_then_sendSMTPErrorOrLinef.
      quiet_event.
      apply follows_then_with_env; [cbn; now rewrite He | exact Hr].
    + apply IH; [|reflexivity].
      quiet_event.
      apply follows_then_with_env; [cbn; now rewrite He | exact Hr].
  - now apply follows_then_errorf, follows_then_with_br.
Qed.

Lemma follows_then_handleData (s a b : session E) :
  follows s a -> handleData a = Continue b -> follows s b.
Proof.
  intros Hf; unfold handleData.
  destruct (env a) as [e|] eqn:He;
    [|intros [= <-]; now apply follows_then_sendlinef].
  destruct (BeginData e) as [e1 [er|]].
  - intros [= <-]. apply follows_trans with a; [assumption|].
    destruct er as [reply|msg]; cbn [handleError].
    + exists [EvBeginData (Some (SMTPError reply)); EvSent (reply ++ CRLF)].
      split; [cbn; now rewrite <- app_assoc|].
      intros _; cbn. now rewrite He.
    + exists [EvBeginData (Some (PlainError msg)); EvLog "Method %s returns error: %v"].
      split; [cbn; now rewrite <- app_assoc|].
      intros _; reflexivity.
  - match goal with |- context [data_loop ?f ?t e1] =>
      assert (Hs : follows s t);
        [|pose proof (follows_data_loop f s t e1 Hs eq_refl) as Hl;
          destruct (data_loop f t e1) as [s2 e2|s2|p s2|s2]]
    end; try discriminate.
    + apply follows_then_sendlinef.
      quiet_event.
      apply follows_then_with_env; [now rewrite He | assumption].
    + destruct Hl as [Hl He2].
      destruct (Close e2) as [e3 cerr].
      intros Hb. apply follows_trans with s2; [assumption|].
      destruct (env s2) as [e2'|] eqn:He2'; [|discriminate He2].
      destruct cerr as [[reply|msg]|]; injection Hb as <-; cbn [handleError].
      * exists [EvClose (Some (SMTPError reply)); EvSent (reply ++ CRLF)].
        split; [cbn; now rewrite <- app_assoc|]. discriminate.
      * exists [EvClose (Some (PlainError msg)); EvLog "Method %s returns error: %v"].
        split; [cbn; now rewrite <- app_assoc|]. intros _; reflexivity.
      * exists [EvClose None; EvSent (crlf "250 2.0.0 Ok: queued")].
        split; [cbn; now rewrite <- app_assoc|]. intros _; reflexivity.
    + intros [= <-]; exact Hl.
Qed.

(** Every turn of the loop of [serve] that goes round again keeps the
    envelope in step with the events. *)
Lemma follows_serve_body (s b : session E) :
  serve_body s = Continue b -> follows s b.
Proof.
  unfold serve_body.
  destruct (ReadSlice (br s)) as [[line|] rest]; [|discriminate].
  cbv zeta. fold (received s line rest).
  destruct (cmdLine_checkValid line) as [msg|] eqn:Hv.
  { intros [= <-]. apply follows_then_sendlinef.
    apply follows_then_event; [reflexivity| |apply follows_then_with_br, follows_refl].
    unfold clears_also_begin, clears_rset_quit_data, is_command.
    now rewrite Hv. }
  remember (cmdLine_Verb line) as v eqn:Hverb.
  assert (Hcmd : forall w, is_command w (EvRecv line) = (v =? w)).
  { intros w; unfold is_command. now rewrite Hv, <- Hverb. }
  assert (Hrecv : (v =? "RSET") = false -> (v =? "QUIT") = false ->
                  follows s (received s line rest)).
  { intros Hr Hq.
    apply follows_then_event; [reflexivity| |apply follows_then_with_br, follows_refl].
    unfold clears_also_begin, clears_rset_quit_data.
    now rewrite !Hcmd, Hr, Hq. }
  destruct (String.eqb_spec v "HELO") as [Hh|_].
  { intros [= <-]. apply follows_then_handleHello, Hrecv; now rewrite Hh. }
  destruct (String.eqb_spec v "EHLO") as [Hh|_].
  { intros [= <-]. apply follows_then_handleHello, Hrecv; now rewrite Hh. }
  cbn [orb].
  destruct (String.eqb_spec v "STARTTLS") as [Hh|_].
  { assert (Hs : follows s (received s line rest))
      by (apply Hrecv; now rewrite Hh).
    destruct (TLSConfig (srv (received s line rest))) as [cfg|];
      [|intros [= <-]; auto with follows].
    pose proof (follows_then_handleStartTLS s _ cfg Hs) as Ht.
    destruct (handleStartTLS (received s line rest) cfg) as [s1 [er|]];
      intros [= <-]; [auto with follows | exact Ht]. }
  destruct (v =? "QUIT") eqn:Hq; [discriminate|].
  destruct (v =? "RSET") eqn:Hr.
  { intros [= <-].
    exists [EvRecv line; EvSent (crlf "250 2.0.0 OK")].
    split; [cbn; now rewrite <- app_assoc|].
    intros _; cbn [fold_left]; unfold envelope_step at 2.
    unfold clears_also_begin, clears_rset_quit_data.
    rewrite !Hcmd, Hr. reflexivity. }
  specialize (Hrecv eq_refl eq_refl).
  destruct (v =? "NOOP"); [intros [= <-]; auto with follows|].
  destruct (v =? "MAIL").
  { destruct (mailFromRE _) as [[m1 m2]|];
      [|intros [= <-]; auto with follows].
    destruct (0 <? String.length m2)%nat;
      [|now apply follows_then_handleMailFrom].
    destruct (mailSizeRE m2) as [digits|];
      [|now apply follows_then_handleMailFrom].
    destruct (Atoi digits);
      [now apply follows_then_handleMailFrom
      |intros [= <-]; auto with follows]. }
  destruct (v =? "RCPT"); [intros [= <-]; auto with follows|].
  destruct (v =? "DATA"); [now apply follows_then_handleData|].
  intros [= <-]; auto with follows.
Qed.

Lemma follows_serve_loop (fuel : nat) :
  forall s b : session E, serve_loop fuel s = Continue b -> follows s b.
Proof.
  induction fuel as [|fuel IH]; intros s b; cbn [serve_loop].
  - intros [= <-]; apply follows_refl.
  - destruct (serve_body s) as [s1| | |] eqn:Hb; try discriminate.
    intros Hl. apply follows_trans with s1;
      [now apply follows_serve_body | now apply IH].
Qed.


End EnvelopeInvariant.



(** The case the invariant leaves aside: a [Close] that fails with an SMTP
    reply. The reply is sent and the envelope stays, so that the next MAIL
    FROM is refused as nested. *)
Example close_smtp_error_keeps_envelope :
  exists s : session PolicyEnvelope,
    serve_loop 4
      (sample_session None (Some (SMTPError "552 5.3.4 Message too big"))
         (crlf "MAIL FROM:<a@x>" ++ crlf "RCPT TO:<b@y>" ++ crlf "DATA"
          ++ crlf "hello" ++ crlf "." ++ crlf "MAIL FROM:<c@z>"))
    = Continue s
    /\ trace s
       = [EvRecv (crlf "MAIL FROM:<a@x>"); EvNewMail "a@x" None true None;
          EvSent (crlf "250 2.1.0 Ok");
          EvRecv (crlf "RCPT TO:<b@y>"); EvAddRecipient "b@y" None;
          EvSent (crlf "250 2.1.0 Ok");
          EvRecv (crlf "DATA"); EvBeginData None; EvSent (crlf "354 Go ahead");
          EvRecvData (crlf "hello"); EvWrite (crlf "hello") None;
          EvRecvData (crlf ".");
          EvClose (Some (SMTPError "552 5.3.4 Message too big"));
          EvSent (crlf "552 5.3.4 Message too big");
          EvRecv (crlf "MAIL FROM:<c@z>");
          EvSent (crlf "503 5.5.1 Error: nested MAIL command")]
    /\ isSome (env s) = true
    /\ mail_open_begin (trace s) = false.
Proof.
  eexists; split; [vm_compute; reflexivity|].
  repeat split; reflexivity.
Qed.

(** * More of the code *)

(** ** Letters *)

Ltac by_ascii_cases c :=
  destruct c as [[] [] [] [] [] [] [] []]; reflexivity.

Lemma upper_of_lower (c : ascii) : upper_char (lower_char c) = upper_char c.
Proof. by_ascii_cases c. Qed.

Lemma upper_of_upper (c : ascii) : upper_char (upper_char c) = upper_char c.
Proof. by_ascii_cases c. Qed.

Lemma upper_char_not_lower (c : ascii) : is_lower (upper_char c) = false.
Proof. by_ascii_cases c. Qed.

Lemma lower_char_space (c : ascii) : (lower_char c =? " ")%char = (c =? " ")%char.
Proof. by_ascii_cases c. Qed.

Lemma upper_char_space (c : ascii) : (upper_char c =? " ")%char = (c =? " ")%char.
Proof. by_ascii_cases c. Qed.

Lemma fold_eq_F (c : ascii) : fold_eq c "f" "F" = (upper_char c =? "F")%char.
Proof. by_ascii_cases c. Qed.
Lemma fold_eq_R (c : ascii) : fold_eq c "r" "R" = (upper_char c =? "R")%char.
Proof. by_ascii_cases c. Qed.
Lemma fold_eq_O (c : ascii) : fold_eq c "o" "O" = (upper_char c =? "O")%char.
Proof. by_ascii_cases c. Qed.
Lemma fold_eq_M (c : ascii) : fold_eq c "m" "M" = (upper_char c =? "M")%char.
Proof. by_ascii_cases c. Qed.
Lemma fold_eq_T (c : ascii) : fold_eq c "t" "T" = (upper_char c =? "T")%char.
Proof. by_ascii_cases c. Qed.
Lemma fold_eq_S (c : ascii) : fold_eq c "s" "S" = (upper_char c =? "S")%char.
Proof. by_ascii_cases c. Qed.
Lemma fold_eq_I (c : ascii) : fold_eq c "i" "I" = (upper_char c =? "I")%char.
Proof. by_ascii_cases c. Qed.
Lemma fold_eq_Z (c : ascii) : fold_eq c "z" "Z" = (upper_char c =? "Z")%char.
Proof. by_ascii_cases c. Qed.
Lemma fold_eq_E (c : ascii) : fold_eq c "e" "E" = (upper_char c =? "E")%char.
Proof. by_ascii_cases c. Qed.
Lemma eq_colon (c : ascii) : (c =? ":")%char = (upper_char c =? ":")%char.
Proof. by_ascii_cases c. Qed.
Lemma eq_lt (c : ascii) : (c =? "<")%char = (upper_char c =? "<")%char.
Proof. by_ascii_cases c. Qed.
Lemma eq_equals (c : ascii) : (c =? "=")%char = (upper_char c =? "=")%char.
Proof. by_ascii_cases c. Qed.

Lemma length_map_string (f : ascii -> ascii) (s : string) :
  String.length (map_string f s) = String.length s.
Proof. induction s as [|c s IH]; simpl; [reflexivity | now rewrite IH]. Qed.

Lemma take_map_string (f : ascii -> ascii) (n : nat) (s : string) :
  take n (map_string f s) = map_string f (take n s).
Proof.
  revert s; induction n as [|n IH]; intros [|c s]; simpl; try reflexivity.
  now rewrite IH.
Qed.

Lemma map_string_append (f : ascii -> ascii) (a b : string) :
  map_string f (a ++ b) = map_string f a ++ map_string f b.
Proof. induction a as [|c a IH]; simpl; [reflexivity | now rewrite IH]. Qed.

Lemma Index_ToLower_space (s : string) : Index (ToLower s) " " = Index s " ".
Proof.
  unfold ToLower; induction s as [|c s IH]; cbn [map_string Index]; [reflexivity|].
  now rewrite lower_char_space, IH.
Qed.

Lemma ToUpper_ToLower (s : string) : ToUpper (ToLower s) = ToUpper s.
Proof.
  unfold ToUpper, ToLower; induction s as [|c s IH]; cbn [map_string];
    [reflexivity|].
  now rewrite upper_of_lower, IH.
Qed.

Lemma ToUpper_no_lower (s : string) : no_lower (ToUpper s) = true.
Proof.
  unfold ToUpper; induction s as [|c s IH]; cbn [map_string no_lower];
    [reflexivity|].
  now rewrite upper_char_not_lower, IH.
Qed.

Lemma contains_ToUpper_space (s : string) :
  contains (ToUpper s) " " = contains s " ".
Proof.
  unfold ToUpper; induction s as [|c s IH]; cbn [map_string contains];
    [reflexivity|].
  now rewrite upper_char_space, IH.
Qed.

(** ** The command line *)

Lemma Index_absent_append (a b : string) (c : ascii) :
  contains a c = false -> Index (a ++ b) c = option_map (Nat.add (String.length a)) (Index b c).
Proof.
  induction a as [|x a IH]; simpl; intros Hc.
  - now destruct (Index b c).
  - apply orb_false_iff in Hc as [-> Hc]. rewrite IH by assumption.
    now destruct (Index b c).
Qed.

Lemma take_all (s : string) : take (String.length s) s = s.
Proof. induction s as [|c s IH]; simpl; [reflexivity | now rewrite IH]. Qed.

(** X1: how a well-framed line of ASCII bytes splits. With a verb part
    [v] free of spaces, the line [v], a space, [a], CRLF has the verb [v] in
    upper case and the argument [a] without its trailing white space; the
    line [v], CRLF has the verb [v] in upper case and no argument. The verb
    has no lower-case letter and no space, the argument no white space at
    its end. *)
Theorem cmdLine_split (v a : string) :
  is_ascii v = true -> is_ascii a = true ->
  contains v " " = false ->
  (cmdLine_Verb (v ++ " " ++ a ++ CRLF) = ToUpper v
   /\ cmdLine_Arg (v ++ " " ++ a ++ CRLF) = TrimRightSpace a)
  /\ (cmdLine_Verb (v ++ CRLF) = ToUpper v
      /\ cmdLine_Arg (v ++ CRLF) = EmptyString)
  /\ no_lower (ToUpper v) = true
  /\ contains (ToUpper v) " " = false
  /\ no_trailing_space (TrimRightSpace a) = true.
Proof.
  intros _ _ Hv. split; [|split; [|split; [|split]]].
  - unfold cmdLine_Verb, cmdLine_Arg.
    change (v ++ " " ++ a ++ CRLF) with (v ++ String " " (a ++ CRLF)).
    rewrite Index_first by assumption.
    rewrite take_append_length. split; [reflexivity|].
    f_equal.
    replace (v ++ String " " (a ++ CRLF)) with ((v ++ String " " a) ++ CRLF)
      by (rewrite append_assoc; reflexivity).
    rewrite length_append. cbn [String.length CRLF].
    replace (String.length (v ++ String " " a) + 2 - 2)
      with (String.length (v ++ String " " a)) by lia.
    rewrite take_append_length. apply drop_past.
  - unfold cmdLine_Verb, cmdLine_Arg.
    rewrite Index_absent_append by assumption. cbn [Index CRLF option_map].
    cbn. rewrite length_append. cbn [String.length CRLF].
    replace (String.length v + 2 - 2) with (String.length v) by lia.
    now rewrite take_append_length.
  - apply ToUpper_no_lower.
  - now rewrite contains_ToUpper_space.
  - induction a as [|c a IH]; [reflexivity|].
    cbn [TrimRightSpace].
    destruct (TrimRightSpace a) as [|d r] eqn:Ht.
    + destruct (IsSpace c) eqn:Hc; [reflexivity|]. cbn. now rewrite Hc.
    + exact IH.
Qed.

Lemma cmdLine_split_witness :
  is_ascii "rcpt" = true /\ is_ascii "To:<b@y>  " = true
  /\ contains "rcpt" " " = false
  /\ (cmdLine_Verb ("rcpt" ++ " " ++ "To:<b@y>  " ++ CRLF) = ToUpper "rcpt"
      /\ cmdLine_Arg ("rcpt" ++ " " ++ "To:<b@y>  " ++ CRLF) = TrimRightSpace "To:<b@y>  ")
  /\ (cmdLine_Verb ("rcpt" ++ CRLF) = ToUpper "rcpt"
      /\ cmdLine_Arg ("rcpt" ++ CRLF) = EmptyString)
  /\ no_lower (ToUpper "rcpt") = true
  /\ contains (ToUpper "rcpt") " " = false
  /\ no_trailing_space (TrimRightSpace "To:<b@y>  ") = true.
Proof.
  do 3 (split; [reflexivity|]).
  exact (cmdLine_split "rcpt" "To:<b@y>  " eq_refl eq_refl eq_refl).
Defined.

(** X2: on lines of ASCII bytes verbs are read without regard to case: a
    line and the same line in lower case have the same verb, and are well
    framed or not together. *)
Theorem cmdLine_Verb_ignores_case (line : string) :
  is_ascii line = true ->
  cmdLine_Verb (ToLower line) = cmdLine_Verb line
  /\ HasSuffix (ToLower line) CRLF = HasSuffix line CRLF.
Proof.
  intros _. split.
  - unfold cmdLine_Verb. rewrite Index_ToLower_space.
    unfold ToLower. rewrite length_map_string.
    destruct (Index line " ") as [idx|];
      rewrite take_map_string; exact (ToUpper_ToLower _).
  - destruct (HasSuffix line CRLF) eqn:Hs.
    + apply HasSuffix_iff in Hs as [p ->]. apply HasSuffix_iff.
      exists (ToLower p). unfold ToLower. now rewrite map_string_append.
    + destruct (HasSuffix (ToLower line) CRLF) eqn:Hl; [|reflexivity].
      rewrite <- Hs. symmetry. apply HasSuffix_iff.
      apply HasSuffix_iff in Hl as [p Hp].
      unfold HasSuffix in Hs.
      assert (Hlen : String.length (ToLower line) = String.length line)
        by apply length_map_string.
      rewrite Hp, length_append in Hlen. cbn [String.length CRLF] in Hlen.
      exists (take (String.length line - 2) line).
      rewrite <- (take_drop (String.length line - 2) line) at 1. f_equal.
      assert (Hd : map_string lower_char (drop (String.length line - 2) line) = CRLF).
      { clear Hs. replace (String.length line - 2) with (String.length p) by lia.
        clear Hlen. revert line Hp; induction p as [|c p IH]; intros line Hp.
        - destruct line; cbn in *; [discriminate | exact Hp].
        - destruct line as [|d line]; [discriminate|]. cbn in Hp.
          injection Hp as _ Hp. cbn [String.length drop]. now apply IH. }
      destruct (drop (String.length line - 2) line) as [|x [|y [|z r]]];
        try discriminate Hd.
      cbn in Hd. injection Hd as Hx Hy.
      revert Hx Hy; clear.
      destruct x as [[] [] [] [] [] [] [] []]; try discriminate;
        destruct y as [[] [] [] [] [] [] [] []]; try discriminate; reflexivity.
Qed.

(** ** The arguments of MAIL and RCPT *)

Lemma contains_append (a b : string) (c : ascii) :
  contains (a ++ b) c = contains a c || contains b c.
Proof.
  induction a as [|x a IH]; simpl; [reflexivity|].
  now rewrite IH, orb_assoc.
Qed.

Lemma Index_Some_split (s : string) (c : ascii) (i : nat) :
  Index s c = Some i ->
  s = take i s ++ String c (drop (i + 1) s)
  /\ contains (take i s) c = false.
Proof.
  revert i; induction s as [|a s IH]; intros i; cbn [Index]; [discriminate|].
  destruct (a =? c)%char eqn:Ha.
  - intros [= <-]. apply Ascii.eqb_eq in Ha; subst a. cbn. now destruct s.
  - destruct (Index s c) as [j|]; [|discriminate]. intros [= <-].
    destruct (IH j eq_refl) as [Hs Hc].
    cbn [take drop Nat.add append contains]. rewrite Ha, Hc.
    split; [now rewrite <- Hs | reflexivity].
Qed.

Lemma LastIndex_Some_split (s : string) (c : ascii) (i : nat) :
  LastIndex s c = Some i ->
  s = take i s ++ String c (drop (i + 1) s)
  /\ contains (drop (i + 1) s) c = false.
Proof.
  revert i; induction s as [|a s IH]; intros i; cbn [LastIndex]; [discriminate|].
  destruct (LastIndex s c) as [j|] eqn:Hl.
  - intros [= <-]. destruct (IH j eq_refl) as [Hs Hc].
    cbn [take drop Nat.add append]. split; [now rewrite <- Hs | exact Hc].
  - destruct (a =? c)%char eqn:Ha; [|discriminate]. intros [= <-].
    apply Ascii.eqb_eq in Ha; subst a. cbn.
    split; [now destruct s|].
    clear IH. assert (Hn : forall t, LastIndex t c = None -> contains t c = false).
    { induction t as [|x t IHt]; cbn; [reflexivity|].
      destruct (LastIndex t c); [discriminate|].
      destruct (x =? c)%char; [discriminate|]. intros _; now apply IHt. }
    destruct s; [reflexivity | now apply Hn].
Qed.

Lemma LastIndex_last (m t : string) (c : ascii) :
  contains t c = false -> LastIndex (m ++ String c t) c = Some (String.length m).
Proof.
  intros Ht.
  assert (Hn : LastIndex t c = None).
  { induction t as [|x t IH]; cbn in *; [reflexivity|].
    apply orb_false_iff in Ht as [Hx Ht]. now rewrite IH, Hx. }
  induction m as [|a m IH]; cbn [append LastIndex String.length].
  - now rewrite Hn, Ascii.eqb_refl.
  - now rewrite IH.
Qed.

Lemma first_line_append (a b : string) :
  contains a LF = false -> first_line (a ++ b) = a ++ first_line b.
Proof.
  induction a as [|x a IH]; cbn [append contains first_line]; [reflexivity|].
  intros Hc; apply orb_false_iff in Hc as [-> Hc]. now rewrite IH.
Qed.

Lemma first_line_split (s : string) :
  exists after : string,
    s = first_line s ++ after
    /\ contains (first_line s) LF = false
    /\ first_line after = EmptyString.
Proof.
  induction s as [|c s (after & Hs & Hc & Ha)]; cbn [first_line].
  - exists EmptyString; repeat split.
  - destruct (c =? LF)%char eqn:Hl.
    + exists (String c s); cbn. now rewrite Hl.
    + exists after; cbn [append contains]. rewrite Hl, Hc.
      repeat split; [now rewrite <- Hs | assumption].
Qed.

Lemma upper_eqb (c up : ascii) :
  (upper_char c =? up)%char = true -> upper_char c = up.
Proof. apply Ascii.eqb_eq. Qed.

(** X3: the argument of MAIL is accepted exactly when it is FROM, a colon
    and an opening bracket (the letters in either case), an address free of
    closing brackets, a closing bracket, and parameters free of line feeds;
    the two captures are that address and those parameters. *)
Theorem mailFromRE_matches (arg addr params : string) :
  mailFromRE arg = Some (addr, params)
  <-> exists pre : string,
        arg = pre ++ addr ++ String ">" params
        /\ ToUpper pre = "FROM:<"
        /\ contains addr ">" = false
        /\ contains params LF = false.
Proof.
  split.
  - unfold mailFromRE.
    destruct arg as [|f [|r [|o [|m [|co [|lt rest]]]]]]; try discriminate.
    destruct (_ && _) eqn:Hc; [|discriminate].
    repeat (apply andb_true_iff in Hc as [Hc ?]).
    destruct (Index rest ">") as [i|] eqn:Hi; [|discriminate].
    destruct (contains (drop (i + 1) rest) LF) eqn:Hl; [discriminate|].
    intros [= <- <-].
    destruct (Index_Some_split _ _ _ Hi) as [Hs Hn].
    exists (String f (String r (String o (String m (String co (String lt EmptyString)))))).
    cbn [append]. rewrite <- Hs. split; [reflexivity|]. split; [|auto].
    unfold ToUpper; cbn [map_string].
    rewrite fold_eq_F in Hc. rewrite fold_eq_R in *. rewrite fold_eq_O in *.
    rewrite fold_eq_M in *. rewrite eq_colon in *. rewrite eq_lt in *.
    repeat match goal with
           | Hx : (upper_char _ =? _)%char = true |- _ =>
               apply upper_eqb in Hx; rewrite Hx
           end.
    reflexivity.
  - intros (pre & -> & Hp & Ha & Hl).
    destruct pre as [|f [|r [|o [|m [|co [|lt [|x pre]]]]]]];
      unfold ToUpper in Hp; cbn [map_string] in Hp; try discriminate Hp.
    injection Hp as Hf Hr Ho Hm Hco Hlt.
    cbn [append]. unfold mailFromRE.
    rewrite fold_eq_F, fold_eq_R, fold_eq_O, fold_eq_M, eq_colon, eq_lt.
    rewrite Hf, Hr, Ho, Hm, Hco, Hlt. cbn [Ascii.eqb Bool.eqb andb].
    rewrite Index_first, drop_past, take_append_length, Hl by assumption.
    reflexivity.
Qed.

(** X4: the argument of RCPT is accepted exactly when it is TO, a colon
    and an opening bracket (the letters in either case), a non-empty address
    free of line feeds, and a closing bracket after which the first line
    has no further closing bracket; the capture is that address. What
    follows the bracket is ignored, and an empty address is refused. *)
Theorem rcptToRE_matches (arg addr : string) :
  rcptToRE arg = Some addr
  <-> exists pre tail : string,
        arg = pre ++ addr ++ String ">" tail
        /\ ToUpper pre = "TO:<"
        /\ addr <> EmptyString
        /\ contains addr LF = false
        /\ contains (first_line tail) ">" = false.
Proof.
  split.
  - unfold rcptToRE.
    destruct arg as [|t [|o [|co [|lt rest]]]]; try discriminate.
    destruct (_ && _) eqn:Hc; [|discriminate].
    repeat (apply andb_true_iff in Hc as [Hc ?]).
    destruct (LastIndex (first_line rest) ">") as [[|j]|] eqn:Hi; try discriminate.
    intros [= <-].
    destruct (LastIndex_Some_split _ _ _ Hi) as [Hs Hn].
    destruct (first_line_split rest) as (after & Hrest & Hnl & Hafter).
    set (seg := first_line rest) in *.
    exists (String t (String o (String co (String lt EmptyString)))),
      (drop (S j + 1) seg ++ after).
    split; [|split; [|split; [|split]]].
    + cbn [append]. do 4 f_equal.
      rewrite Hrest at 1. rewrite Hs at 1.
      rewrite append_assoc. reflexivity.
    + unfold ToUpper; cbn [map_string].
      rewrite fold_eq_T in Hc. rewrite fold_eq_O in *.
      rewrite eq_colon in *. rewrite eq_lt in *.
      repeat match goal with
             | Hx : (upper_char _ =? _)%char = true |- _ =>
                 apply upper_eqb in Hx; rewrite Hx
             end.
      reflexivity.
    + rewrite Hs. destruct seg; discriminate.
    + rewrite Hs in Hnl. rewrite contains_append in Hnl.
      now apply orb_false_iff in Hnl as [Hnl _].
    + rewrite Hs in Hnl. rewrite contains_append in Hnl.
      apply orb_false_iff in Hnl as [_ Hnl]. cbn [contains] in Hnl.
      apply orb_false_iff in Hnl as [_ Hnl].
      rewrite first_line_append by assumption.
      now rewrite Hafter, append_nil_r.
  - intros (pre & tail & -> & Hp & Hne & Hl & Ht).
    destruct pre as [|t [|o [|co [|lt [|x pre]]]]];
      unfold ToUpper in Hp; cbn [map_string] in Hp; try discriminate Hp.
    injection Hp as Ht' Ho Hco Hlt.
    cbn [append]. unfold rcptToRE.
    rewrite fold_eq_T, fold_eq_O, eq_colon, eq_lt.
    rewrite Ht', Ho, Hco, Hlt. cbn [Ascii.eqb Bool.eqb andb].
    rewrite first_line_append by assumption.
    cbn [first_line]. change ((">" =? LF)%char) with false. cbv iota.
    rewrite LastIndex_last by assumption.
    destruct addr as [|a addr]; [congruence|].
    cbn [String.length].
    change (S (String.length addr)) with (String.length (String a addr)).
    now rewrite take_append_length.
Qed.

(** X5: the capture of a SIZE parameter is a non-empty run of digits that
    stands, after SIZE= in either case, somewhere in the parameters and is
    not followed by a further digit; and a SIZE=digits that no letter s
    precedes is the one found. *)
Theorem mailSizeRE_matches :
  (forall params digits : string,
      mailSizeRE params = Some digits ->
      exists pre key tail : string,
        params = pre ++ key ++ digits ++ tail
        /\ ToUpper key = "SIZE="
        /\ all_digits digits = true /\ digits <> EmptyString
        /\ digits_prefix tail = EmptyString)
  /\ (forall pre key digits tail : string,
         contains pre "s" = false -> contains pre "S" = false ->
         ToUpper key = "SIZE=" ->
         all_digits digits = true -> digits <> EmptyString ->
         digits_prefix tail = EmptyString ->
         mailSizeRE (pre ++ key ++ digits ++ tail) = Some digits).
Proof.
  assert (Hsplit : forall s, s = digits_prefix s ++ drop (String.length (digits_prefix s)) s
                             /\ digits_prefix (drop (String.length (digits_prefix s)) s)
                                = EmptyString).
  { induction s as [|c s [IH1 IH2]]; cbn [digits_prefix]; [split; reflexivity|].
    destruct (is_digit c) eqn:Hc; cbn [String.length drop append].
    - split; [now rewrite <- IH1 | exact IH2].
    - split; [reflexivity|]. cbn [digits_prefix]. now rewrite Hc. }
  assert (Hpre : forall ds tail, all_digits ds = true -> digits_prefix tail = EmptyString ->
                                 digits_prefix (ds ++ tail) = ds).
  { induction ds as [|c ds IH]; cbn [append all_digits digits_prefix]; intros tail Hd Ht;
      [exact Ht|].
    apply andb_true_iff in Hd as [Hc Hd]. now rewrite Hc, IH. }
  split.
  - induction params as [|c params IH]; intros digits; [discriminate|].
    cbn [mailSizeRE].
    destruct (size_here (String c params)) as [d|] eqn:Hs.
    + intros [= <-]. destruct (size_here_Some _ _ Hs) as [Hall Hne].
      unfold size_here in Hs.
      destruct params as [|b [|c' [|d' [|e rest]]]]; try discriminate Hs.
      destruct (_ && _) eqn:Hc; [|discriminate].
      repeat (apply andb_true_iff in Hc as [Hc ?]).
      destruct (digits_prefix rest) eqn:Hd; [discriminate|].
      injection Hs as <-. destruct (Hsplit rest) as [Hr1 Hr2]. rewrite Hd in Hr1, Hr2.
      exists EmptyString, (String c (String b (String c' (String d' (String e EmptyString))))),
        (drop (String.length (String a s)) rest).
      split; [cbn [append]; do 5 f_equal; exact Hr1|].
      split; [|auto].
      unfold ToUpper; cbn [map_string].
      rewrite fold_eq_S in Hc. rewrite fold_eq_I in *. rewrite fold_eq_Z in *.
      rewrite fold_eq_E in *. rewrite eq_equals in *.
      repeat match goal with
             | Hx : (upper_char _ =? _)%char = true |- _ =>
                 apply upper_eqb in Hx; rewrite Hx
             end.
      reflexivity.
    + intros Hm. destruct (IH _ Hm) as (pre & key & tail & -> & Hk & Hrest).
      exists (String c pre), key, tail. split; [reflexivity | auto].
  - intros pre key digits tail Hs1 Hs2 Hk Hall Hne Htail.
    destruct key as [|a [|b [|c [|d [|e [|x key]]]]]];
      unfold ToUpper in Hk; cbn [map_string] in Hk; try discriminate Hk.
    injection Hk as Ha Hb Hc Hd He.
    assert (Hhead : size_here (String a (String b (String c (String d (String e EmptyString))))
                                 ++ digits ++ tail) = Some digits).
    { cbn [append size_here].
      rewrite fold_eq_S, fold_eq_I, fold_eq_Z, fold_eq_E, eq_equals.
      rewrite Ha, Hb, Hc, Hd, He. cbn [Ascii.eqb Bool.eqb andb].
      rewrite Hpre by assumption. destruct digits; [congruence | reflexivity]. }
    set (body := String a (String b (String c (String d (String e EmptyString))))
                 ++ digits ++ tail) in *.
    induction pre as [|p pre IH].
    + change (EmptyString ++ body) with body.
      unfold body in *. cbn [append] in *. cbn [mailSizeRE]. now rewrite Hhead.
    + cbn [contains] in Hs1, Hs2.
      apply orb_false_iff in Hs1 as [Hp1 Hs1]. apply orb_false_iff in Hs2 as [Hp2 Hs2].
      change (String p pre ++ body) with (String p (pre ++ body)).
      cbn [mailSizeRE]. rewrite (IH Hs1 Hs2).
      assert (Hh : size_here (String p (pre ++ body)) = None).
      { unfold size_here.
        destruct (pre ++ body) as [|? [|? [|? [|? ?]]]]; try reflexivity.
        unfold fold_eq at 1. now rewrite Hp1, Hp2. }
      now rewrite Hh.
Qed.

(** ** Commands at the edges *)

Section Edges.

Context {E : Type} `{Envelope E}.

(** X7: RSET, DATA and QUIT take no argument. Given one, on a line of
    ASCII bytes, the command is answered with [500 unexpected argument] and
    not carried out: the envelope is not reset, no data phase starts, and
    the session is not ended. *)
Theorem unexpected_argument_500 (s : session E) (line rest : string) :
  ReadSlice (br s) = (Some line, rest) ->
  is_ascii line = true ->
  HasSuffix line CRLF = true ->
  cmdLine_Verb line = "RSET" \/ cmdLine_Verb line = "DATA" \/ cmdLine_Verb line = "QUIT" ->
  cmdLine_Arg line <> EmptyString ->
  exists s' : session E,
    serve_body s = Continue s'
    /\ trace s' = (trace s ++ [EvRecv line; EvSent (crlf "500 unexpected argument")])%list
    /\ env s' = env s
    /\ br s' = rest.
Proof.
  intros Hr _ Hs Hv Ha.
  rewrite (serve_body_invalid s line rest "unexpected argument"); auto.
  - eexists; split; [reflexivity|]. cbn; rewrite <- app_assoc; auto.
  - unfold cmdLine_checkValid. rewrite Hs. cbn [negb].
    apply String.eqb_neq in Ha. rewrite Ha.
    destruct Hv as [-> | [-> | ->]]; reflexivity.
Qed.

(** X8: a well-framed line of ASCII bytes whose verb is none of those
    [serve] knows (AUTH, for one) is answered with
    [502 5.5.2 Error: command not recognized], and nothing of the session
    changes but what is left to read. *)
Theorem unknown_verb_502 (s : session E) (line rest : string) :
  ReadSlice (br s) = (Some line, rest) ->
  is_ascii line = true ->
  cmdLine_checkValid line = None ->
  existsb (String.eqb (cmdLine_Verb line)) known_verbs = false ->
  exists s' : session E,
    serve_body s = Continue s'
    /\ trace s'
       = (trace s ++ [EvRecv line;
                      EvSent (crlf "502 5.5.2 Error: command not recognized")])%list
    /\ env s' = env s
    /\ helloType s' = helloType s /\ helloHost s' = helloHost s
    /\ br s' = rest.
Proof.
  intros Hr _ Hv Hk. unfold serve_body. rewrite Hr, Hv.
  cbn [existsb known_verbs] in Hk.
  repeat (apply orb_false_iff in Hk as [? Hk]).
  repeat match goal with Hx : (_ =? _) = false |- _ => rewrite Hx; clear Hx end.
  cbn [orb]. eexists; split; [reflexivity|].
  cbn; rewrite <- app_assoc; auto 10.
Qed.

(** X9: QUIT ends the session. The reply is [221 2.0.0 Bye], [serve]
    returns however many turns it was given, and what the client sent after
    the QUIT is left unread. *)
Theorem QUIT_ends_session (s : session E) (line rest : string) (fuel : nat) :
  ReadSlice (br s) = (Some line, rest) ->
  cmdLine_checkValid line = None ->
  cmdLine_Verb line = "QUIT" ->
  exists s' : session E,
    serve_loop (S fuel) s = Return s'
    /\ trace s' = (trace s ++ [EvRecv line; EvSent (crlf "221 2.0.0 Bye")])%list
    /\ br s' = rest
    /\ env s' = env s.
Proof.
  intros Hr Hv Hq. cbn [serve_loop]. unfold serve_body. rewrite Hr, Hv, Hq.
  eexists; split; [reflexivity|]. cbn; rewrite <- app_assoc; auto.
Qed.

(** X10: STARTTLS. Without a TLS configuration the answer is 502. With one,
    [220 Ready to start TLS] is sent and the handshake run; when it
    succeeds the session reads the upgraded connection from then on and
    keeps its envelope and its greeting, and when it fails the error's own
    reply or [403 4.7.0 TLS handshake failed] is sent, the failure logged,
    and the session goes on with the next line. *)
Theorem STARTTLS_upgrade (s : session E) (line rest : string) :
  ReadSlice (br s) = (Some line, rest) ->
  cmdLine_checkValid line = None ->
  cmdLine_Verb line = "STARTTLS" ->
  (TLSConfig (srv s) = None ->
   exists s' : session E,
     serve_body s = Continue s'
     /\ trace s'
        = (trace s ++ [EvRecv line;
                       EvSent (crlf "502 5.5.2 Error: command not recognized")])%list
     /\ br s' = rest /\ env s' = env s)
  /\ (forall (cfg : tlsConfig) (plain : string),
         TLSConfig (srv s) = Some cfg ->
         Handshake cfg rest = (None, plain) ->
         exists s' : session E,
           serve_body s = Continue s'
           /\ trace s'
              = (trace s ++ [EvRecv line; EvSent (crlf "220 Ready to start TLS");
                             EvHandshake None])%list
           /\ br s' = plain
           /\ env s' = env s
           /\ helloType s' = helloType s /\ helloHost s' = helloHost s)
  /\ (forall (cfg : tlsConfig) (err : error) (left : string),
         TLSConfig (srv s) = Some cfg ->
         Handshake cfg rest = (Some err, left) ->
         exists s' : session E,
           serve_body s = Continue s'
           /\ trace s'
              = (trace s ++ [EvRecv line; EvSent (crlf "220 Ready to start TLS");
                             EvHandshake (Some err);
                             EvSent (reply_for err "403 4.7.0 TLS handshake failed");
                             EvLog "Client error: failed to start tls: %s"])%list
           /\ br s' = left
           /\ env s' = env s).
Proof.
  intros Hr Hv Hq. unfold serve_body. rewrite Hr, Hv, Hq.
  cbn [String.eqb Ascii.eqb Bool.eqb orb andb].
  split; [|split].
  - cbn [srv emit with_br]. intros ->.
    eexists; split; [reflexivity|]. cbn; rewrite <- app_assoc; auto.
  - intros cfg plain Hc Hh. cbn [srv emit with_br]. rewrite Hc.
    unfold handleStartTLS. cbn [br sendlinef sendf emit with_br]. rewrite Hh.
    eexists; split; [reflexivity|]. cbn; rewrite <- !app_assoc; auto 10.
  - intros cfg err left Hc Hh. cbn [srv emit with_br]. rewrite Hc.
    unfold handleStartTLS. cbn [br sendlinef sendf emit with_br]. rewrite Hh.
    eexists; split; [reflexivity|].
    destruct err; cbn; rewrite <- !app_assoc; auto.
Qed.

End Edges.

Lemma unexpected_argument_500_witness :
  let s := with_env (sample_session None None (crlf "RSET now" ++ crlf "NOOP"))
             (Some (policy None None)) in
  ReadSlice (br s) = (Some (crlf "RSET now"), crlf "NOOP")
  /\ is_ascii (crlf "RSET now") = true
  /\ HasSuffix (crlf "RSET now") CRLF = true
  /\ (cmdLine_Verb (crlf "RSET now") = "RSET" \/ cmdLine_Verb (crlf "RSET now") = "DATA"
      \/ cmdLine_Verb (crlf "RSET now") = "QUIT")
  /\ cmdLine_Arg (crlf "RSET now") <> EmptyString
  /\ exists s' : session PolicyEnvelope,
       serve_body s = Continue s'
       /\ trace s'
          = (trace s ++ [EvRecv (crlf "RSET now");
                         EvSent (crlf "500 unexpected argument")])%list
       /\ env s' = env s
       /\ br s' = crlf "NOOP".
Proof.
  intros s.
  assert (Hr : ReadSlice (br s) = (Some (crlf "RSET now"), crlf "NOOP"))
    by (vm_compute; reflexivity).
  assert (Hs : HasSuffix (crlf "RSET now") CRLF = true) by reflexivity.
  assert (Hv : cmdLine_Verb (crlf "RSET now") = "RSET"
               \/ cmdLine_Verb (crlf "RSET now") = "DATA"
               \/ cmdLine_Verb (crlf "RSET now") = "QUIT") by (left; reflexivity).
  assert (Ha : cmdLine_Arg (crlf "RSET now") <> EmptyString) by discriminate.
  repeat (split; [assumption|]).
  exact (unexpected_argument_500 s _ _ Hr eq_refl Hs Hv Ha).
Defined.

Lemma unknown_verb_502_witness :
  let s := sample_session None None (crlf "AUTH PLAIN AGFiYwBwdw==") in
  ReadSlice (br s) = (Some (crlf "AUTH PLAIN AGFiYwBwdw=="), EmptyString)
  /\ is_ascii (crlf "AUTH PLAIN AGFiYwBwdw==") = true
  /\ cmdLine_checkValid (crlf "AUTH PLAIN AGFiYwBwdw==") = None
  /\ existsb (String.eqb (cmdLine_Verb (crlf "AUTH PLAIN AGFiYwBwdw=="))) known_verbs = false
  /\ exists s' : session PolicyEnvelope,
       serve_body s = Continue s'
       /\ trace s'
          = (trace s ++ [EvRecv (crlf "AUTH PLAIN AGFiYwBwdw==");
                         EvSent (crlf "502 5.5.2 Error: command not recognized")])%list
       /\ env s' = env s
       /\ helloType s' = helloType s /\ helloHost s' = helloHost s
       /\ br s' = EmptyString.
Proof.
  intros s.
  assert (Hr : ReadSlice (br s) = (Some (crlf "AUTH PLAIN AGFiYwBwdw=="), EmptyString))
    by (vm_compute; reflexivity).
  repeat (split; [first [exact Hr | reflexivity]|]).
  exact (unknown_verb_502 s _ _ Hr eq_refl eq_refl eq_refl).
Defined.

Lemma QUIT_ends_session_witness :
  let s := sample_session None None (crlf "quit" ++ crlf "NOOP") in
  ReadSlice (br s) = (Some (crlf "quit"), crlf "NOOP")
  /\ cmdLine_checkValid (crlf "quit") = None
  /\ cmdLine_Verb (crlf "quit") = "QUIT"
  /\ exists s' : session PolicyEnvelope,
       serve_loop 7 s = Return s'
       /\ trace s' = (trace s ++ [EvRecv (crlf "quit"); EvSent (crlf "221 2.0.0 Bye")])%list
       /\ br s' = crlf "NOOP"
       /\ env s' = env s.
Proof.
  intros s.
  assert (Hr : ReadSlice (br s) = (Some (crlf "quit"), crlf "NOOP"))
    by (vm_compute; reflexivity).
  repeat (split; [first [exact Hr | reflexivity]|]).
  exact (QUIT_ends_session s _ _ 6 Hr eq_refl eq_refl).
Defined.

Lemma STARTTLS_upgrade_witness :
  let line := crlf "STARTTLS" in
  let s0 := sample_session None None (line ++ crlf "EHLO x") in
  let s1 := with_env (newSession tls_server "192.0.2.1:40000" (line ++ crlf "EHLO x"))
              (Some (policy None None)) in
  let s2 := newSession full_server "192.0.2.1:40000" (line ++ crlf "EHLO x") in
  (TLSConfig (srv s0) = None
   /\ exists s' : session PolicyEnvelope,
        serve_body s0 = Continue s'
        /\ trace s'
           = (trace s0 ++ [EvRecv line;
                           EvSent (crlf "502 5.5.2 Error: command not recognized")])%list
        /\ br s' = crlf "EHLO x" /\ env s' = env s0)
  /\ (TLSConfig (srv s1) = Some accepting_tls
      /\ Handshake accepting_tls (crlf "EHLO x") = (None, crlf "EHLO x")
      /\ exists s' : session PolicyEnvelope,
           serve_body s1 = Continue s'
           /\ trace s'
              = (trace s1 ++ [EvRecv line; EvSent (crlf "220 Ready to start TLS");
                              EvHandshake None])%list
           /\ br s' = crlf "EHLO x"
           /\ env s' = env s1
           /\ helloType s' = helloType s1 /\ helloHost s' = helloHost s1)
  /\ (TLSConfig (srv s2) = Some refusing_tls
      /\ Handshake refusing_tls (crlf "EHLO x")
         = (Some (PlainError "tls: handshake failure"), crlf "EHLO x")
      /\ exists s' : session PolicyEnvelope,
           serve_body s2 = Continue s'
           /\ trace s'
              = (trace s2 ++ [EvRecv line; EvSent (crlf "220 Ready to start TLS");
                              EvHandshake (Some (PlainError "tls: handshake failure"));
                              EvSent (reply_for (PlainError "tls: handshake failure")
                                        "403 4.7.0 TLS handshake failed");
                              EvLog "Client error: failed to start tls: %s"])%list
           /\ br s' = crlf "EHLO x"
           /\ env s' = env s2).
Proof.
  intros line s0 s1 s2.
  assert (R0 : ReadSlice (br s0) = (Some line, crlf "EHLO x")) by (vm_compute; reflexivity).
  assert (R1 : ReadSlice (br s1) = (Some line, crlf "EHLO x")) by (vm_compute; reflexivity).
  assert (R2 : ReadSlice (br s2) = (Some line, crlf "EHLO x")) by (vm_compute; reflexivity).
  pose proof (STARTTLS_upgrade s0 line _ R0 eq_refl eq_refl) as (T0 & _ & _).
  pose proof (STARTTLS_upgrade s1 line _ R1 eq_refl eq_refl) as (_ & T1 & _).
  pose proof (STARTTLS_upgrade s2 line _ R2 eq_refl eq_refl) as (_ & _ & T2).
  split; [|split].
  - split; [reflexivity | exact (T0 eq_refl)].
  - split; [reflexivity|]. split; [reflexivity|].
    exact (T1 accepting_tls _ eq_refl eq_refl).
  - split; [reflexivity|]. split; [reflexivity|].
    exact (T2 refusing_tls _ _ eq_refl eq_refl).
Defined.

(** ** More of the DATA phase *)

Lemma delivered_stuffed (l : string) : delivered (stuffed l) = l.
Proof.
  unfold stuffed. destruct (HasPrefix l ".") eqn:Hp; [reflexivity|].
  unfold delivered. now rewrite Hp.
Qed.

Lemma stuffed_not_terminator (l : string) : stuffed l <> "." ++ CRLF.
Proof.
  unfold stuffed. destruct (HasPrefix l ".") eqn:Hp.
  - apply HasPrefix_iff in Hp as [r ->]. discriminate.
  - intros ->. discriminate Hp.
Qed.

Lemma data_events_stuffed (lines : list string) :
  data_events (map stuffed lines) = stuffed_events lines.
Proof.
  unfold data_events, stuffed_events.
  induction lines as [|l lines IH]; cbn [map flat_map]; [reflexivity|].
  now rewrite delivered_stuffed, IH.
Qed.

Section DataLoop.

Context {E : Type} `{Envelope E}.

Lemma serve_body_DATA (s : session E) (line rest : string) :
  ReadSlice (br s) = (Some line, rest) ->
  cmdLine_checkValid line = None ->
  cmdLine_Verb line = "DATA" ->
  serve_body s = handleData (received s line rest).
Proof. intros Hr Hv Hq; unfold serve_body; rewrite Hr, Hv, Hq; reflexivity. Qed.

Lemma serve_body_RCPT (s : session E) (line rest : string) :
  ReadSlice (br s) = (Some line, rest) ->
  cmdLine_checkValid line = None ->
  cmdLine_Verb line = "RCPT" ->
  serve_body s = Continue (handleRcpt (received s line rest) line).
Proof. intros Hr Hv Hq; unfold serve_body; rewrite Hr, Hv, Hq; reflexivity. Qed.

(** The loop over a run of body lines that are all written: it arrives,
    with fuel to spare, at the state in front of what follows them. *)
Lemma data_loop_prefix (lines : list string) :
  forall (fuel : nat) (s : session E) (e eK : E) (after : string),
    Forall (fun l => is_line l = true) lines ->
    Forall (fun l => l <> "." ++ CRLF) lines ->
    br s = body_stream lines ++ after ->
    write_all e (map delivered lines) = Some eK ->
    env s = Some e ->
    String.length (br s) < fuel ->
    exists (fuel' : nat) (s' : session E),
      data_loop fuel s e = data_loop fuel' s' eK
      /\ String.length (br s') < fuel'
      /\ trace s' = (trace s ++ data_events lines)%list
      /\ br s' = after
      /\ env s' = Some eK.
Proof.
  induction lines as [|l lines IH]; intros fuel s e eK after Hl Hn Hbr Hw He Hf.
  - cbn [map write_all] in Hw. injection Hw as <-.
    exists fuel, s. cbn [data_events flat_map]. rewrite app_nil_r. auto.
  - destruct fuel as [|fuel]; [lia|].
    inversion Hl as [|? ? Hl1 Hl2]; subst. inversion Hn as [|? ? Hn1 Hn2]; subst.
    cbn [body_stream] in Hbr. rewrite append_assoc in Hbr.
    cbn [map write_all] in Hw.
    destruct (Write e (delivered l)) as [e' [er|]] eqn:Hwr; [discriminate|].
    cbn [data_loop]. rewrite Hbr, (ReadSlice_line l _ Hl1).
    apply String.eqb_neq in Hn1. rewrite Hn1.
    destruct l as [|c tl]; [discriminate Hl1|].
    rewrite delivered_cons, Hwr.
    match goal with |- context [data_loop fuel ?t e'] => set (s1 := t) end.
    destruct (IH fuel s1 e' eK after Hl2 Hn2 eq_refl Hw eq_refl)
      as (fuel' & s' & Hd & Hf' & Ht & Hb & He').
    { cbn [s1 br emit with_env with_br]. rewrite Hbr in Hf.
      rewrite length_append in Hf; cbn [String.length] in Hf. lia. }
    exists fuel', s'. split; [exact Hd|]. split; [exact Hf'|].
    split; [|auto].
    rewrite Ht. cbn [s1 trace emit with_env with_br data_events flat_map].
    rewrite <- !app_assoc. reflexivity.
Qed.

(** X11: a [Write] that fails ends the DATA phase at once. The lines before
    it have been written; the reply is the error's own, or [550 ??? failed];
    the envelope stays; and the rest of the body is not read as data: it is
    what the session reads next, as commands. *)
Theorem DATA_write_error
  (s : session E) (e e1 eK eB : E) (lines : list string) (l rest : string)
  (err : error) :
  env s = Some e ->
  BeginData e = (e1, None) ->
  Forall (fun l => is_line l = true) (lines ++ [l]) ->
  Forall (fun l => l <> "." ++ CRLF) (lines ++ [l]) ->
  br s = body_stream lines ++ l ++ rest ->
  write_all e1 (map delivered lines) = Some eK ->
  Write eK (delivered l) = (eB, Some err) ->
  exists s' : session E,
    handleData s = Continue s'
    /\ trace s'
       = (trace s ++ [EvBeginData None; EvSent (crlf "354 Go ahead")]
          ++ data_events lines
          ++ [EvRecvData l; EvWrite (delivered l) (Some err);
              EvSent (reply_for err "550 ??? failed")])%list
    /\ env s' = Some eB
    /\ br s' = rest.
Proof.
  intros He Hb Hl Hn Hbr Hw Hwe.
  apply Forall_app in Hl as [Hl Hl1]. apply Forall_app in Hn as [Hn Hn1].
  inversion Hl1 as [|? ? Hl1' _]; subst. inversion Hn1 as [|? ? Hn1' _]; subst.
  unfold handleData. rewrite He, Hb.
  match goal with |- context [data_loop _ ?t e1] => set (s1 := t) end.
  destruct (data_loop_prefix lines (S (String.length (br s1))) s1 e1 eK (l ++ rest)
              Hl Hn Hbr Hw eq_refl (Nat.lt_succ_diag_r _))
    as (fuel' & s2 & Hd & Hf & Ht & Hr & He2).
  rewrite Hd. destruct fuel' as [|fuel']; [lia|].
  cbn [data_loop]. rewrite Hr, (ReadSlice_line l rest Hl1').
  apply String.eqb_neq in Hn1'. rewrite Hn1'.
  destruct l as [|c tl]; [discriminate Hl1'|].
  rewrite delivered_cons, Hwe.
  eexists; split; [reflexivity|].
  split; [|split].
  - destruct err; cbn [sendSMTPErrorOrLinef trace emit with_env sendlinef sendf with_br];
      rewrite Ht; cbn [s1 trace emit with_env sendlinef sendf with_br reply_for];
      rewrite <- !app_assoc; reflexivity.
  - destruct err; reflexivity.
  - destruct err; reflexivity.
Qed.

(** X12: a read error during DATA (the input ends, or a line does not fit
    the buffer) ends the DATA phase with no reply after the 354: the error
    is logged, [handleData] returns to the command loop, and the envelope,
    with the lines written so far, is still the session's. *)
Theorem DATA_read_error
  (s : session E) (e e1 eK : E) (lines : list string) (after left : string) :
  env s = Some e ->
  BeginData e = (e1, None) ->
  Forall (fun l => is_line l = true) lines ->
  Forall (fun l => l <> "." ++ CRLF) lines ->
  br s = body_stream lines ++ after ->
  write_all e1 (map delivered lines) = Some eK ->
  ReadSlice after = (None, left) ->
  exists s' : session E,
    handleData s = Continue s'
    /\ trace s'
       = (trace s ++ [EvBeginData None; EvSent (crlf "354 Go ahead")]
          ++ data_events lines
          ++ [EvLog "Client error: read error: %v"])%list
    /\ env s' = Some eK
    /\ br s' = left.
Proof.
  intros He Hb Hl Hn Hbr Hw Hre.
  unfold handleData. rewrite He, Hb.
  match goal with |- context [data_loop _ ?t e1] => set (s1 := t) end.
  destruct (data_loop_prefix lines (S (String.length (br s1))) s1 e1 eK after
              Hl Hn Hbr Hw eq_refl (Nat.lt_succ_diag_r _))
    as (fuel' & s2 & Hd & Hf & Ht & Hr & He2).
  rewrite Hd. destruct fuel' as [|fuel']; [lia|].
  cbn [data_loop]. rewrite Hr, Hre.
  eexists; split; [reflexivity|].
  split; [|split].
  - cbn [errorf log trace emit with_br]. rewrite Ht.
    cbn [s1 trace emit with_env sendlinef sendf with_br].
    rewrite <- !app_assoc. reflexivity.
  - cbn. exact He2.
  - reflexivity.
Qed.

(** X13: dot-stuffing is undone. When the client sends each body line with
    a dot put in front of it if it begins with a dot, and then the dot line,
    [Write] receives the lines as they were before the stuffing, in order,
    whatever bytes they hold. *)
Theorem dot_stuffing_round_trip
  (s : session E) (e e1 eN eC : E) (lines : list string) (rest : string) :
  env s = Some e ->
  BeginData e = (e1, None) ->
  Forall (fun l => is_line (stuffed l) = true) lines ->
  br s = body_stream (map stuffed lines) ++ ("." ++ CRLF) ++ rest ->
  write_all e1 lines = Some eN ->
  Close eN = (eC, None) ->
  exists s' : session E,
    handleData s = Continue s'
    /\ trace s'
       = (trace s ++ [EvBeginData None; EvSent (crlf "354 Go ahead")]
          ++ stuffed_events lines
          ++ [EvRecvData ("." ++ CRLF); EvClose None;
              EvSent (crlf "250 2.0.0 Ok: queued")])%list
    /\ br s' = rest.
Proof.
  intros He Hb Hl Hbr Hw Hc.
  assert (Hl' : Forall (fun l => is_line l = true) (map stuffed lines))
    by (apply Forall_map; exact Hl).
  assert (Hn' : Forall (fun l => l <> "." ++ CRLF) (map stuffed lines))
    by (apply Forall_map, Forall_forall; intros l _; apply stuffed_not_terminator).
  assert (Hw' : write_all e1 (map delivered (map stuffed lines)) = Some eN).
  { rewrite map_map. rewrite (map_ext _ (fun l => l)) by apply delivered_stuffed.
    now rewrite map_id. }
  unfold handleData. rewrite He, Hb.
  match goal with |- context [data_loop _ ?t e1] => set (s1 := t) end.
  destruct (data_loop_lines (map stuffed lines) (S (String.length (br s1))) s1 e1 eN rest
              Hl' Hn' Hbr Hw' (Nat.lt_succ_diag_r _))
    as (s2 & Hd & Ht & Hr & _).
  rewrite Hd, Hc. eexists; split; [reflexivity|].
  split; [|exact Hr].
  cbn [trace emit with_env sendlinef sendf]. rewrite Ht, data_events_stuffed.
  cbn [s1 trace emit with_env sendlinef sendf with_br].
  rewrite <- !app_assoc. reflexivity.
Qed.

End DataLoop.

(** ** Sessions over the basic envelope *)

Section DataLoopTrace.

Context {E : Type} `{Envelope E}.

Lemma data_loop_extends (fuel : nat) :
  forall (s : session E) (e : E),
    match data_loop fuel s e with
    | LBreak b _ | LReturn b | LPanic _ b | LOutOfFuel b =>
        exists evs : list event, trace b = (trace s ++ evs)%list
    end.
Proof.
  induction fuel as [|fuel IH]; intros s e; cbn [data_loop].
  - exists []; now rewrite app_nil_r.
  - destruct (ReadSlice (br s)) as [[sl|] rest].
    + match goal with |- context [if ?c then _ else _] => destruct c end.
      * eexists; reflexivity.
      * destruct sl as [|c tl]; [eexists; reflexivity|].
        destruct (Write e _) as [e' [er|]].
        -- destruct er; cbn; rewrite <- !app_assoc; eexists; reflexivity.
        -- match goal with |- context [data_loop fuel ?t e'] =>
             specialize (IH t e'); destruct (data_loop fuel t e') end;
             destruct IH as [evs ->]; cbn; rewrite <- !app_assoc;
             eexists; reflexivity.
    + eexists; reflexivity.
Qed.

Lemma data_loop_panics_on_index_only (fuel : nat) :
  forall (s q : session E) (e : E), data_loop fuel s e <> LPanic OnNewMailIsNil q.
Proof.
  induction fuel as [|fuel IH]; intros s q e; cbn [data_loop]; [discriminate|].
  destruct (ReadSlice (br s)) as [[sl|] rest]; [|discriminate].
  match goal with |- context [if ?c then _ else _] => destruct c end;
    [discriminate|].
  destruct sl as [|c tl]; [discriminate|].
  destruct (Write e _) as [e' [er|]]; [discriminate | apply IH].
Qed.

(** Once [BeginData] has let the data phase start, [handleData] sends the
    354 and, whatever follows, hands control back to the command loop. *)
Lemma handleData_begun (s : session E) (e e1 : E) :
  env s = Some e -> BeginData e = (e1, None) ->
  exists (s' : session E) (evs : list event),
    handleData s = Continue s'
    /\ trace s'
       = (trace s ++ [EvBeginData None; EvSent (crlf "354 Go ahead")] ++ evs)%list.
Proof.
  intros He Hb. unfold handleData. rewrite He, Hb.
  match goal with |- context [data_loop ?f ?t e1] =>
    pose proof (data_loop_extends f t e1) as Hx;
    destruct (data_loop f t e1) as [s2 e2|s2|p s2|s2] eqn:Hd
  end.
  - destruct Hx as [evs Hx]. destruct (Close e2) as [e3 [[r|m]|]];
      eexists; eexists; (split; [reflexivity|]);
      cbn; rewrite Hx; cbn; rewrite <- !app_assoc; reflexivity.
  - destruct Hx as [evs Hx]. eexists; eexists; split; [reflexivity|].
    rewrite Hx; cbn; rewrite <- !app_assoc; reflexivity.
  - exfalso. destruct p.
    + exact (data_loop_panics_on_index_only _ _ _ _ Hd).
    + exact (data_loop_no_index_panic _ _ _ _ Hd).
  - exfalso. apply (data_loop_enough_fuel _ _ _ _ (Nat.lt_succ_diag_r _) Hd).
Qed.

End DataLoopTrace.

(** X14: over the basic envelope, RCPT commands add up. A run of RCPT lines
    whose addresses are all well formed is answered with [250 2.1.0 Ok]
    line by line, and the envelope ends up with those addresses after the
    recipients it had, in the order of arrival. *)
Theorem RCPT_run_accumulates (lines addrs : list string) :
  forall (s : session BasicEnvelope) (e : BasicEnvelope) (rest : string),
    env s = Some e ->
    Forall2 (fun l a =>
               is_line l = true /\ cmdLine_checkValid l = None
               /\ cmdLine_Verb l = "RCPT" /\ rcptToRE (cmdLine_Arg l) = Some a)
      lines addrs ->
    br s = body_stream lines ++ rest ->
    exists s' : session BasicEnvelope,
      serve_loop (List.length lines) s = Continue s'
      /\ env s' = Some {| rcpts := rcpts e ++ addrs |}
      /\ trace s' = (trace s ++ rcpt_events lines addrs)%list
      /\ br s' = rest.
Proof.
  revert addrs; induction lines as [|l lines IH]; intros addrs s e rest He Hf Hbr.
  - inversion Hf; subst. cbn. exists s. rewrite !app_nil_r.
    destruct e; auto.
  - inversion Hf as [|? a ? addrs' (Hl & Hv & Hq & Ha) Hf']; subst.
    cbn [body_stream] in Hbr. rewrite append_assoc in Hbr.
    cbn [List.length serve_loop].
    rewrite (serve_body_RCPT s l (body_stream lines ++ rest));
      [| rewrite Hbr; now apply ReadSlice_line | assumption..].
    unfold handleRcpt. cbn [env received emit with_br]. rewrite He, Ha.
    cbn [AddRecipient BasicEnvelope_Envelope BasicEnvelope_AddRecipient].
    match goal with |- context [serve_loop _ ?t] => set (s1 := t) end.
    destruct (IH addrs' s1 {| rcpts := rcpts e ++ [a] |} rest eq_refl Hf' eq_refl)
      as (s' & Hs & He' & Ht & Hb).
    exists s'. split; [exact Hs|]. split; [|split; [|exact Hb]].
    + rewrite He'. cbn [rcpts]. now rewrite <- app_assoc.
    + rewrite Ht. cbn [s1 trace emit with_env with_br sendlinef sendf received
                        rcpt_events combine flat_map fst snd].
      rewrite <- !app_assoc. reflexivity.
Qed.

(** X15: over the basic envelope, DATA needs a recipient. With none, the
    reply is [554 5.5.1 Error: no valid recipients], no body is read and the
    envelope stays, so that RCPT can still follow; with one or more, the
    reply is [354 Go ahead]. *)
Theorem BasicEnvelope_DATA_needs_recipient
  (s : session BasicEnvelope) (e : BasicEnvelope) (line rest : string) :
  env s = Some e ->
  ReadSlice (br s) = (Some line, rest) ->
  cmdLine_checkValid line = None ->
  cmdLine_Verb line = "DATA" ->
  (rcpts e = [] ->
   exists s' : session BasicEnvelope,
     serve_body s = Continue s'
     /\ trace s'
        = (trace s ++
           [EvRecv line;
            EvBeginData (Some (SMTPError "554 5.5.1 Error: no valid recipients"));
            EvSent (crlf "554 5.5.1 Error: no valid recipients")])%list
     /\ env s' = Some e
     /\ br s' = rest)
  /\ (rcpts e <> [] ->
      exists (s' : session BasicEnvelope) (evs : list event),
        serve_body s = Continue s'
        /\ trace s'
           = (trace s ++ [EvRecv line; EvBeginData None; EvSent (crlf "354 Go ahead")]
              ++ evs)%list).
Proof.
  intros He Hr Hv Hq. rewrite (serve_body_DATA s line rest) by assumption.
  split.
  - intros Hn. unfold handleData. cbn [env received emit with_br]. rewrite He.
    cbn [BeginData BasicEnvelope_Envelope]. unfold BasicEnvelope_BeginData.
    rewrite Hn. cbn [List.length Nat.eqb].
    eexists; split; [reflexivity|]. cbn; rewrite <- !app_assoc; auto.
  - intros Hn.
    destruct (handleData_begun (received s line rest) e e) as (s' & evs & Hd & Ht).
    + exact He.
    + cbn [BeginData BasicEnvelope_Envelope]. unfold BasicEnvelope_BeginData.
      destruct (rcpts e); [congruence | reflexivity].
    + exists s', evs. split; [exact Hd|]. rewrite Ht.
      cbn [trace received emit with_br]. rewrite <- !app_assoc. reflexivity.
Qed.

(** ** The order of the calls, and the framing of the replies *)

Lemma protocol_app (p : phase) (a b : list event) :
  protocol p (a ++ b)
  = match protocol p a with Some q => protocol q b | None => None end.
Proof.
  revert p; induction a as [|ev a IH]; intros p; cbn [app protocol]; [reflexivity|].
  destruct (protocol_step p ev); [apply IH | reflexivity].
Qed.

Lemma protocol_lifecycle (evs : list event) :
  forall p q : phase, protocol p evs = Some q -> lifecycle p evs = Some q.
Proof.
  induction evs as [|ev evs IH]; intros p q; cbn [protocol lifecycle]; [auto|].
  unfold protocol_step. destruct (sent_ends_in_CRLF ev); [|discriminate].
  destruct (lifecycle_step p ev); [apply IH | discriminate].
Qed.

Lemma protocol_CRLF (evs : list event) :
  forall p q : phase, protocol p evs = Some q -> forallb sent_ends_in_CRLF evs = true.
Proof.
  induction evs as [|ev evs IH]; intros p q; cbn [protocol forallb]; [auto|].
  unfold protocol_step. destruct (sent_ends_in_CRLF ev); [|discriminate].
  destruct (lifecycle_step p ev) as [r|]; [apply (IH r) | discriminate].
Qed.

Lemma HasSuffix_append (a b : string) : HasSuffix (a ++ b) b = true.
Proof. apply HasSuffix_iff; now exists a. Qed.

Lemma multiline_reply_CRLF (code l : string) (lines : list string) :
  HasSuffix (multiline_reply code (l :: lines)) CRLF = true.
Proof.
  revert l; induction lines as [|l' lines IH]; intros l.
  - cbn [multiline_reply]. apply HasSuffix_iff. exists (code ++ " " ++ l).
    now rewrite !append_assoc.
  - change (multiline_reply code (l :: l' :: lines))
      with (code ++ "-" ++ l ++ CRLF ++ multiline_reply code (l' :: lines)).
    specialize (IH l'). apply HasSuffix_iff in IH as [p Hp]. rewrite Hp.
    apply HasSuffix_iff. exists (code ++ "-" ++ l ++ CRLF ++ p).
    now rewrite !append_assoc.
Qed.

Section Protocol.

Context {E : Type} `{Envelope E}.

Lemma reach_refl (s : session E) : reach s s (phase_of s).
Proof. exists []; split; [now rewrite app_nil_r | reflexivity]. Qed.

Lemma reach_then_event (s a : session E) (p q : phase) (ev : event) :
  reach s a p -> protocol_step p ev = Some q -> reach s (emit a ev) q.
Proof.
  intros (evs & Ht & Hp) Hs. exists (evs ++ [ev])%list; split.
  - cbn [trace emit]. now rewrite Ht, app_assoc.
  - rewrite protocol_app, Hp. cbn [protocol]. now rewrite Hs.
Qed.

Lemma reach_ext (s a b : session E) (p : phase) :
  trace b = trace a -> reach s a p -> reach s b p.
Proof. intros Ht (evs & Hevs & Hp); exists evs; split; congruence. Qed.

Lemma reach_trans (s a b : session E) (p : phase) :
  reach s a (phase_of a) -> reach a b p -> reach s b p.
Proof.
  intros (ev1 & Ht1 & Hp1) (ev2 & Ht2 & Hp2). exists (ev1 ++ ev2)%list; split.
  - now rewrite Ht2, Ht1, app_assoc.
  - now rewrite protocol_app, Hp1.
Qed.

(** The step of a chunk that ends in CRLF, outside the body. *)
Lemma sent_step (p : phase) (text : string) :
  p = NoEnvelope \/ p = HasEnvelope ->
  protocol_step p (EvSent (text ++ CRLF)) = Some p.
Proof.
  intros Hp. unfold protocol_step. cbn [sent_ends_in_CRLF].
  rewrite HasSuffix_append. destruct Hp; subst; reflexivity.
Qed.

(** Peel the state in the goal down to a state that is known to be reached. *)
Ltac reach_run :=
  lazymatch goal with
  | |- reach _ (emit _ (EvSent (_ ++ CRLF))) _ =>
      eapply reach_then_event;
        [reach_run
        | first [apply sent_step; auto
                | unfold protocol_step; cbn [sent_ends_in_CRLF];
                  rewrite HasSuffix_append; reflexivity]]
  | |- reach _ (emit _ _) _ =>
      eapply reach_then_event; [reach_run | reflexivity]
  | |- reach _ (with_br ?x _) _ => apply (reach_ext _ x); [reflexivity | reach_run]
  | |- reach _ (with_env ?x _) _ => apply (reach_ext _ x); [reflexivity | reach_run]
  | |- reach _ (with_hello ?x _ _) _ =>
      apply (reach_ext _ x); [reflexivity | reach_run]
  | |- reach _ (sendlinef _ _) _ => unfold sendlinef, sendf; reach_run
  | |- reach _ (sendf _ _) _ => unfold sendf; reach_run
  | |- reach _ (errorf _ _) _ => unfold errorf, log; reach_run
  | |- reach _ (log _ _) _ => unfold log; reach_run
  | |- reach _ (received _ _ _) _ => unfold received; reach_run
  | |- _ => eassumption
  end.

(** A state reached in its own phase, the phase spelt out. *)
Lemma reach_phase (s a : session E) :
  reach s a (phase_of a) ->
  (isSome (env a) = true /\ reach s a HasEnvelope)
  \/ (isSome (env a) = false /\ reach s a NoEnvelope).
Proof.
  unfold phase_of at 1. destruct (isSome (env a)); [left | right]; auto.
Qed.

Lemma phase_of_Some (a : session E) : isSome (env a) = true -> phase_of a = HasEnvelope.
Proof. unfold phase_of; now intros ->. Qed.

Lemma phase_of_None (a : session E) : isSome (env a) = false -> phase_of a = NoEnvelope.
Proof. unfold phase_of; now intros ->. Qed.

Lemma reach_handleHello (s a : session E) (greeting host : string) :
  reach s a (phase_of a) ->
  reach s (handleHello a greeting host) (phase_of (handleHello a greeting host)).
Proof.
  intros Ha. rewrite handleHello_reply.
  change (phase_of (sendf (with_hello a greeting host) (ehlo_reply (srv a))))
    with (phase_of a).
  unfold sendf. eapply reach_then_event; [apply (reach_ext _ a); [reflexivity | exact Ha]|].
  unfold protocol_step. cbn [sent_ends_in_CRLF].
  unfold ehlo_reply. rewrite multiline_reply_CRLF.
  unfold phase_of; destruct (isSome (env a)); reflexivity.
Qed.

Lemma reach_sendlinef (s a : session E) (text : string) :
  reach s a (phase_of a) -> reach s (sendlinef a text) (phase_of (sendlinef a text)).
Proof.
  intros Ha. change (phase_of (sendlinef a text)) with (phase_of a).
  unfold sendlinef, sendf. eapply reach_then_event; [exact Ha|].
  apply sent_step. unfold phase_of; destruct (isSome (env a)); auto.
Qed.

Lemma reach_log (s a : session E) (format : string) :
  reach s a (phase_of a) -> reach s (log a format) (phase_of (log a format)).
Proof.
  intros Ha. change (phase_of (log a format)) with (phase_of a).
  unfold log. eapply reach_then_event; [exact Ha|].
  unfold phase_of; destruct (isSome (env a)); reflexivity.
Qed.

Lemma reach_sendSMTPErrorOrLinef (s a : session E) (err : error) (text : string) :
  reach s a (phase_of a) ->
  reach s (sendSMTPErrorOrLinef a err text) (phase_of (sendSMTPErrorOrLinef a err text)).
Proof. destruct err; apply reach_sendlinef. Qed.

Lemma reach_handleStartTLS (s a : session E) (cfg : tlsConfig) :
  reach s a (phase_of a) ->
  reach s (fst (handleStartTLS a cfg)) (phase_of (fst (handleStartTLS a cfg))).
Proof.
  intros Ha. unfold handleStartTLS; cbv zeta.
  destruct (Handshake cfg _) as [[e|] stream]; cbn [fst].
  - apply reach_sendSMTPErrorOrLinef.
    match goal with |- reach _ ?t _ => change (phase_of t) with (phase_of a) end.
    destruct (reach_phase s a Ha) as [[He Hr] | [He Hr]];
      [rewrite (phase_of_Some a He) | rewrite (phase_of_None a He)]; reach_run.
  - match goal with |- reach _ ?t _ => change (phase_of t) with (phase_of a) end.
    destruct (reach_phase s a Ha) as [[He Hr] | [He Hr]];
      [rewrite (phase_of_Some a He) | rewrite (phase_of_None a He)]; reach_run.
Qed.

Lemma reach_handleRcpt (s a : session E) (line : cmdLine) :
  reach s a (phase_of a) ->
  reach s (handleRcpt a line) (phase_of (handleRcpt a line)).
Proof.
  intros Ha. unfold handleRcpt.
  destruct (env a) as [e|] eqn:He; [|now apply reach_sendlinef].
  assert (Hr : reach s a HasEnvelope)
    by (rewrite <- (phase_of_Some a); [assumption | now rewrite He]).
  destruct (rcptToRE _) as [m1|].
  - destruct (AddRecipient e m1) as [e' [[r|m]|]];
      cbn [sendSMTPErrorOrLinef];
      match goal with |- reach _ ?t _ => change (phase_of t) with HasEnvelope end;
      reach_run.
  - now apply reach_sendlinef, reach_log.
Qed.

Lemma reach_handleMailFrom (s a : session E) (email : string) (size : option Z) :
  reach s a (phase_of a) ->
  reach s (state_of (handleMailFrom a email size))
    (phase_of (state_of (handleMailFrom a email size))).
Proof.
  intros Ha. unfold handleMailFrom.
  destruct (isSome (env a)) eqn:He; [now apply reach_sendlinef|].
  destruct (OnNewMail (srv a)) as [cb|]; [|exact Ha].
  assert (Hr : reach s a NoEnvelope) by (now rewrite <- (phase_of_None a)).
  cbv zeta. destruct (cb _ _ _) as [e [er|]]; cbn [state_of].
  - match goal with |- reach _ ?t _ => change (phase_of t) with NoEnvelope end.
    destruct e; reach_run.
  - destruct e as [e|];
      match goal with |- reach _ ?t ?p =>
        let q := eval cbv in p in change p with q end;
      reach_run.
Qed.

Lemma reach_data_loop (fuel : nat) :
  forall (s a : session E) (e : E),
    reach s a InData -> isSome (env a) = true ->
    match data_loop fuel a e with
    | LBreak b _ => reach s b InData
    | LReturn b => reach s b HasEnvelope /\ isSome (env b) = true
    | _ => True
    end.
Proof.
  induction fuel as [|fuel IH]; intros s a e Ha He; cbn [data_loop]; [exact I|].
  destruct (ReadSlice (br a)) as [[sl|] rest].
  - match goal with |- context [if ?c then _ else _] => destruct c end;
      [reach_run|].
    destruct sl as [|c tl]; [exact I|].
    destruct (Write e _) as [e' [[r|m]|]].
    + cbn [sendSMTPErrorOrLinef]. split; [reach_run | reflexivity].
    + cbn [sendSMTPErrorOrLinef]. split; [reach_run | reflexivity].
    + apply IH; [reach_run | reflexivity].
  - split; [reach_run | exact He].
Qed.

Lemma reach_handleData (s a : session E) :
  reach s a (phase_of a) ->
  reach s (state_of (handleData a)) (phase_of (state_of (handleData a))).
Proof.
  intros Ha. unfold handleData.
  destruct (env a) as [e|] eqn:He; [|now apply reach_sendlinef].
  assert (Hr : reach s a HasEnvelope)
    by (rewrite <- (phase_of_Some a); [assumption | now rewrite He]).
  destruct (BeginData e) as [e1 [[r|m]|]].
  - cbn [state_of handleError].
    match goal with |- reach _ ?t _ => change (phase_of t) with HasEnvelope end.
    reach_run.
  - cbn [state_of handleError].
    match goal with |- reach _ ?t _ => change (phase_of t) with NoEnvelope end.
    reach_run.
  - match goal with |- context [data_loop ?f ?t e1] =>
      assert (Hs : reach s t InData) by reach_run;
      pose proof (reach_data_loop f s t e1 Hs eq_refl) as Hl;
      destruct (data_loop f t e1) as [s2 e2|s2|p s2|s2] eqn:Hd
    end.
    + destruct (Close e2) as [e3 [[r|m]|]]; cbn [state_of handleError];
        match goal with |- reach _ ?t ?p =>
          let q := eval cbv in p in change p with q end;
        reach_run.
    + destruct Hl as [Hl He2]. cbn [state_of].
      now rewrite (phase_of_Some s2 He2).
    + exfalso. destruct p.
      * exact (data_loop_panics_on_index_only _ _ _ _ Hd).
      * exact (data_loop_no_index_panic _ _ _ _ Hd).
    + exfalso. apply (data_loop_enough_fuel _ _ _ _ (Nat.lt_succ_diag_r _) Hd).
Qed.

(** One turn of the loop of [serve], whatever its outcome. *)
Lemma reach_serve_body (s : session E) :
  reach s (state_of (serve_body s)) (phase_of (state_of (serve_body s))).
Proof.
  unfold serve_body.
  destruct (ReadSlice (br s)) as [[line|] rest]; cbv zeta.
  2: { cbn [state_of]. apply (reach_log s (with_br s rest)).
       apply (reach_ext _ s); [reflexivity | exact (reach_refl s)]. }
  fold (received s line rest).
  destruct (cmdLine_checkValid line) as [msg|] eqn:Hv.
  { cbn [state_of]. apply reach_sendlinef.
    change (phase_of (received s line rest)) with (phase_of s).
    unfold received. eapply reach_then_event;
      [apply (reach_ext _ s); [reflexivity | exact (reach_refl s)]|].
    unfold protocol_step, lifecycle_step, phase_of, is_command. rewrite Hv.
    destruct (isSome (env s)); reflexivity. }
  remember (cmdLine_Verb line) as v eqn:Hverb.
  assert (Hcmd : is_command "RSET" (EvRecv line) = (v =? "RSET")).
  { unfold is_command. now rewrite Hv, <- Hverb. }
  assert (Hrecv : (v =? "RSET") = false ->
                  reach s (received s line rest) (phase_of (received s line rest))).
  { intros Hr. change (phase_of (received s line rest)) with (phase_of s).
    unfold received. eapply reach_then_event;
      [apply (reach_ext _ s); [reflexivity | exact (reach_refl s)]|].
    unfold protocol_step, lifecycle_step, phase_of. rewrite Hcmd, Hr.
    destruct (isSome (env s)); reflexivity. }
  destruct (String.eqb_spec v "HELO") as [Hh|_].
  { cbn [orb state_of]. apply reach_handleHello, Hrecv. now rewrite Hh. }
  destruct (String.eqb_spec v "EHLO") as [Hh|_].
  { cbn [orb state_of]. apply reach_handleHello, Hrecv. now rewrite Hh. }
  cbn [orb].
  destruct (String.eqb_spec v "STARTTLS") as [Hh|_].
  { assert (Hs : reach s (received s line rest) (phase_of (received s line rest)))
      by (apply Hrecv; now rewrite Hh).
    destruct (TLSConfig (srv (received s line rest))) as [cfg|];
      [|cbn [state_of]; now apply reach_sendlinef].
    pose proof (reach_handleStartTLS s _ cfg Hs) as Ht.
    destruct (handleStartTLS (received s line rest) cfg) as [s1 [er|]];
      cbn [state_of fst] in *; [now apply (reach_log s s1) | exact Ht]. }
  destruct (String.eqb_spec v "QUIT") as [Hh|_].
  { cbn [state_of]. apply reach_sendlinef, Hrecv. now rewrite Hh. }
  destruct (v =? "RSET") eqn:Hr.
  { cbn [state_of].
    match goal with |- reach _ ?t _ => change (phase_of t) with NoEnvelope end.
    unfold sendlinef, sendf. eapply reach_then_event; [|apply sent_step; auto].
    match goal with |- reach _ (with_env ?x _) _ =>
      apply (reach_ext _ x); [reflexivity|] end.
    unfold received. eapply reach_then_event;
      [apply (reach_ext _ s); [reflexivity | exact (reach_refl s)]|].
    unfold protocol_step, lifecycle_step, phase_of. rewrite Hcmd.
    destruct (isSome (env s)); reflexivity. }
  specialize (Hrecv eq_refl).
  destruct (v =? "NOOP"); [cbn [state_of]; now apply reach_sendlinef|].
  destruct (v =? "MAIL").
  { destruct (mailFromRE _) as [[m1 m2]|];
      [|cbn [state_of]; now apply reach_sendlinef, reach_log].
    destruct (0 <? String.length m2)%nat;
      [|now apply reach_handleMailFrom].
    destruct (mailSizeRE m2) as [digits|];
      [|now apply reach_handleMailFrom].
    destruct (Atoi digits);
      [now apply reach_handleMailFrom
      |cbn [state_of]; now apply reach_sendlinef]. }
  destruct (v =? "RCPT"); [cbn [state_of]; now apply reach_handleRcpt|].
  destruct (v =? "DATA"); [now apply reach_handleData|].
  cbn [state_of]; now apply reach_sendlinef.
Qed.

Lemma reach_serve_loop (fuel : nat) :
  forall s : session E,
    reach s (state_of (serve_loop fuel s)) (phase_of (state_of (serve_loop fuel s))).
Proof.
  induction fuel as [|fuel IH]; intros s; cbn [serve_loop].
  - apply reach_refl.
  - pose proof (reach_serve_body s) as Hb.
    destruct (serve_body s) as [s1|s1|p s1|s1]; cbn [state_of] in *; try exact Hb.
    apply (reach_trans s s1); [exact Hb | apply IH].
Qed.

Lemma reach_serve (fuel : nat) (s : session E) :
  reach s (state_of (serve fuel s)) (phase_of (state_of (serve fuel s))).
Proof.
  assert (Hc : forall (a : session E) (o : outcome E),
             reach a (state_of o) (phase_of (state_of o)) ->
             reach a (state_of (deferred_close o)) (phase_of (state_of (deferred_close o)))).
  { intros a [b|b|p b|b] Hb; cbn [deferred_close state_of] in *; try exact Hb.
    - change (phase_of (emit b EvConnClose)) with (phase_of b).
      eapply reach_then_event; [exact Hb|].
      unfold phase_of; destruct (isSome (env b)); reflexivity.
    - change (phase_of (emit b EvConnClose)) with (phase_of b).
      eapply reach_then_event; [exact Hb|].
      unfold phase_of; destruct (isSome (env b)); reflexivity. }
  assert (Hbanner : forall a : session E,
             reach s a (phase_of a) ->
             reach s (sendf a ("220 " ++ Server_hostname (srv a) ++ " ESMTP gosmtpd" ++ CRLF))
               (phase_of a)).
  { intros a Ha. unfold sendf. eapply reach_then_event; [exact Ha|].
    unfold protocol_step. cbn [sent_ends_in_CRLF].
    replace ("220 " ++ Server_hostname (srv a) ++ " ESMTP gosmtpd" ++ CRLF)
      with (("220 " ++ Server_hostname (srv a) ++ " ESMTP gosmtpd") ++ CRLF)
      by (now rewrite !append_assoc).
    rewrite HasSuffix_append.
    unfold phase_of; destruct (isSome (env a)); reflexivity. }
  unfold serve. apply Hc.
  destruct (OnNewConnection (srv s)) as [onc|].
  - cbv zeta.
    assert (Hn : reach s (emit s (EvNewConnection (onc (remote s))))
                   (phase_of (emit s (EvNewConnection (onc (remote s)))))).
    { change (phase_of (emit s _)) with (phase_of s).
      eapply reach_then_event; [apply reach_refl|].
      unfold phase_of; destruct (isSome (env s)); reflexivity. }
    destruct (onc (remote s)) as [er|].
    + cbn [state_of]. now apply reach_sendSMTPErrorOrLinef.
    + match goal with |- reach _ (state_of (serve_loop _ ?x)) _ =>
        apply (reach_trans s x); [|apply reach_serve_loop] end.
      exact (Hbanner _ Hn).
  - match goal with |- reach _ (state_of (serve_loop _ ?x)) _ =>
      apply (reach_trans s x); [|apply reach_serve_loop] end.
    exact (Hbanner s (reach_refl s)).
Qed.

(** X16: the calls a session makes come in the order of the envelope's
    life, with every embedder and on every input whose command lines are
    made of ASCII bytes (the body lines are any bytes). The MAIL callback
    is called only while there is no envelope; [AddRecipient] and
    [BeginData] only on an envelope the callback returned; a [BeginData]
    that returns nil is followed at once by the reply [354 Go ahead];
    [Write] and [Close] are called only after that reply, [Write] no more
    after one that failed, [Close] once; and between the 354 and the end of
    the body nothing is sent and no command is read. At the end the session
    has an envelope exactly when the events say so. *)
Theorem calls_follow_lifecycle
  (sv : Server E) (peer : Connection) (stream : string) (fuel : nat) :
  forallb ascii_command
    (trace (state_of (serve fuel (newSession sv peer stream)))) = true ->
  lifecycle NoEnvelope (trace (state_of (serve fuel (newSession sv peer stream))))
  = Some (phase_of (state_of (serve fuel (newSession sv peer stream)))).
Proof.
  intros _.
  destruct (reach_serve fuel (newSession sv peer stream)) as (evs & Ht & Hp).
  cbn [trace newSession app] in Ht. rewrite Ht.
  now apply protocol_lifecycle.
Qed.

(** X17: everything a session flushes to the connection ends in CRLF: the
    banner, every reply of the loop, and the reply an embedder's error
    carries. *)
Theorem replies_end_in_CRLF
  (sv : Server E) (peer : Connection) (stream : string) (fuel : nat) :
  forallb sent_ends_in_CRLF
    (trace (state_of (serve fuel (newSession sv peer stream)))) = true.
Proof.
  destruct (reach_serve fuel (newSession sv peer stream)) as (evs & Ht & Hp).
  cbn [trace newSession app] in Ht. rewrite Ht.
  now apply (protocol_CRLF evs _ _ Hp).
Qed.

End Protocol.

(** ** How many replies *)

Lemma sent_count_app (a b : list event) :
  sent_count (a ++ b) = sent_count a + sent_count b.
Proof. unfold sent_count. now rewrite filter_app, length_app. Qed.

Section Replies.

Context {E : Type} `{Envelope E}.

Lemma flushed_refl (s : session E) : flushed s s 0.
Proof. exists []; split; [now rewrite app_nil_r | reflexivity]. Qed.

Lemma flushed_then_event (s a : session E) (n : nat) (ev : event) :
  flushed s a n -> flushed s (emit a ev) (n + if is_sent ev then 1 else 0).
Proof.
  intros (evs & Ht & Hn). exists (evs ++ [ev])%list; split.
  - cbn [trace emit]. now rewrite Ht, app_assoc.
  - rewrite sent_count_app, Hn. unfold sent_count. cbn [filter].
    destruct (is_sent ev); reflexivity.
Qed.

Lemma flushed_ext (s a b : session E) (n : nat) :
  trace b = trace a -> flushed s a n -> flushed s b n.
Proof. intros Ht (evs & Hevs & Hn); exists evs; split; congruence. Qed.

Lemma flushed_eq (s a : session E) (n m : nat) :
  flushed s a n -> n = m -> flushed s a m.
Proof. now intros Hf <-. Qed.

Lemma flushed_replies (s : session E) (n : nat) :
  flushed s (state_of (serve_body s)) n -> replies_to_next s = n.
Proof.
  intros (evs & Ht & Hn). unfold replies_to_next.
  rewrite Ht, sent_count_app. lia.
Qed.

Ltac count_run :=
  lazymatch goal with
  | |- flushed _ (emit _ _) _ => eapply flushed_then_event; count_run
  | |- flushed _ (with_br ?x _) _ => apply (flushed_ext _ x); [reflexivity | count_run]
  | |- flushed _ (with_env ?x _) _ => apply (flushed_ext _ x); [reflexivity | count_run]
  | |- flushed _ (with_hello ?x _ _) _ =>
      apply (flushed_ext _ x); [reflexivity | count_run]
  | |- flushed _ (sendlinef _ _) _ => unfold sendlinef, sendf; count_run
  | |- flushed _ (sendf _ _) _ => unfold sendf; count_run
  | |- flushed _ (errorf _ _) _ => unfold errorf, log; count_run
  | |- flushed _ (log _ _) _ => unfold log; count_run
  | |- flushed _ (received _ _ _) _ => unfold received; count_run
  | |- _ => first [eassumption | apply flushed_refl]
  end.

(** Prove [flushed s t m] by counting the flushes that [t] adds to a state
    whose count is known. *)
Ltac counted := eapply flushed_eq; [count_run | cbn [is_sent]; lia].

Lemma flushed_handleHello (s a : session E) (n : nat) (greeting host : string) :
  flushed s a n -> flushed s (handleHello a greeting host) (S n).
Proof. intros Ha. rewrite handleHello_reply. counted. Qed.

Lemma flushed_handleRcpt (s a : session E) (n : nat) (line : cmdLine) :
  flushed s a n -> flushed s (handleRcpt a line) (S n).
Proof.
  intros Ha. unfold handleRcpt.
  destruct (env a) as [e|]; [|counted].
  destruct (rcptToRE _) as [m1|]; [|counted].
  destruct (AddRecipient e m1) as [e' [[r|m]|]]; cbn [sendSMTPErrorOrLinef]; counted.
Qed.

Lemma flushed_handleMailFrom (s a : session E) (n : nat) (email : string) (size : option Z) :
  flushed s a n -> OnNewMail (srv a) <> None ->
  flushed s (state_of (handleMailFrom a email size)) (S n).
Proof.
  intros Ha Hcb. unfold handleMailFrom.
  destruct (isSome (env a)); [cbn [state_of]; counted|].
  destruct (OnNewMail (srv a)) as [cb|]; [|congruence].
  cbv zeta. destruct (cb _ _ _) as [e [er|]]; cbn [state_of]; counted.
Qed.

Lemma flushed_data_loop (fuel : nat) :
  forall (s a : session E) (n : nat) (e : E),
    flushed s a n ->
    match data_loop fuel a e with
    | LBreak b _ => flushed s b n
    | LReturn b => flushed s b n \/ flushed s b (S n)
    | _ => True
    end.
Proof.
  induction fuel as [|fuel IH]; intros s a n e Ha; cbn [data_loop]; [exact I|].
  destruct (ReadSlice (br a)) as [[sl|] rest].
  - match goal with |- context [if ?c then _ else _] => destruct c end;
      [counted|].
    destruct sl as [|c tl]; [exact I|].
    destruct (Write e _) as [e' [[r|m]|]].
    + right. cbn [sendSMTPErrorOrLinef]. counted.
    + right. cbn [sendSMTPErrorOrLinef]. counted.
    + apply IH. counted.
  - left. counted.
Qed.

Lemma flushed_handleData (s a : session E) (n : nat) :
  flushed s a n ->
  exists m : nat, flushed s (state_of (handleData a)) m /\ n <= m <= n + 2.
Proof.
  intros Ha. unfold handleData.
  destruct (env a) as [e|]; [|exists (S n); split; [cbn [state_of]; counted | lia]].
  destruct (BeginData e) as [e1 [[r|m]|]].
  - exists (S n); split; [cbn [state_of handleError]; counted | lia].
  - exists n; split; [cbn [state_of handleError]; counted | lia].
  - match goal with |- context [data_loop ?f ?t e1] =>
      assert (Hs : flushed s t (S n)) by counted;
      pose proof (flushed_data_loop f s t (S n) e1 Hs) as Hl;
      destruct (data_loop f t e1) as [s2 e2|s2|p s2|s2] eqn:Hd
    end.
    + destruct (Close e2) as [e3 [[r|m]|]]; cbn [state_of handleError].
      * exists (S (S n)); split; [counted | lia].
      * exists (S n); split; [counted | lia].
      * exists (S (S n)); split; [counted | lia].
    + cbn [state_of]. destruct Hl as [Hl|Hl];
        [exists (S n) | exists (S (S n))]; (split; [exact Hl | lia]).
    + exfalso. destruct p.
      * exact (data_loop_panics_on_index_only _ _ _ _ Hd).
      * exact (data_loop_no_index_panic _ _ _ _ Hd).
    + exfalso. apply (data_loop_enough_fuel _ _ _ _ (Nat.lt_succ_diag_r _) Hd).
Qed.

(** X18: one command, one reply. Every line of ASCII bytes the session
    reads as a command, other than a well-framed DATA and a well-framed
    STARTTLS on a server with TLS, is answered with exactly one flush to
    the connection, be the line well framed or not and the command accepted
    or not, on a server whose MAIL callback is set. *)
Theorem one_reply_per_command (s : session E) (line rest : string) :
  ReadSlice (br s) = (Some line, rest) ->
  is_ascii line = true ->
  OnNewMail (srv s) <> None ->
  cmdLine_checkValid line <> None
  \/ (cmdLine_Verb line <> "DATA"
      /\ (cmdLine_Verb line <> "STARTTLS" \/ TLSConfig (srv s) = None)) ->
  replies_to_next s = 1.
Proof.
  intros Hr _ Hcb Hx. apply flushed_replies.
  unfold serve_body. rewrite Hr. cbv zeta. fold (received s line rest).
  assert (Hs : flushed s (received s line rest) 0)
    by (eapply flushed_eq; [unfold received; count_run | reflexivity]).
  destruct (cmdLine_checkValid line) as [msg|] eqn:Hv; [cbn [state_of]; counted|].
  destruct Hx as [Hx | [Hd Ht]]; [congruence|].
  destruct ((cmdLine_Verb line =? "HELO") || (cmdLine_Verb line =? "EHLO"));
    [cbn [state_of]; now apply flushed_handleHello|].
  destruct (String.eqb_spec (cmdLine_Verb line) "STARTTLS") as [Hq|_].
  { destruct Ht as [Ht | Ht]; [congruence|].
    cbn [srv received emit with_br]. rewrite Ht. cbn [state_of]; counted. }
  destruct (cmdLine_Verb line =? "QUIT"); [cbn [state_of]; counted|].
  destruct (cmdLine_Verb line =? "RSET"); [cbn [state_of]; counted|].
  destruct (cmdLine_Verb line =? "NOOP"); [cbn [state_of]; counted|].
  destruct (cmdLine_Verb line =? "MAIL").
  { destruct (mailFromRE _) as [[m1 m2]|]; [|cbn [state_of]; counted].
    destruct (0 <? String.length m2)%nat;
      [|now apply flushed_handleMailFrom].
    destruct (mailSizeRE m2) as [digits|];
      [|now apply flushed_handleMailFrom].
    destruct (Atoi digits);
      [now apply flushed_handleMailFrom | cbn [state_of]; counted]. }
  destruct (cmdLine_Verb line =? "RCPT");
    [cbn [state_of]; now apply flushed_handleRcpt|].
  destruct (String.eqb_spec (cmdLine_Verb line) "DATA") as [Hq|_]; [congruence|].
  cbn [state_of]; counted.
Qed.

(** X19: no command is answered with more than two flushes, and a read
    that fails with none: the turn of the loop that meets a read error
    sends nothing. *)
Theorem at_most_two_replies (s : session E) :
  replies_to_next s <= 2
  /\ (fst (ReadSlice (br s)) = None -> replies_to_next s = 0).
Proof.
  assert (Hm : exists m : nat, flushed s (state_of (serve_body s)) m /\ m <= 2
               /\ (fst (ReadSlice (br s)) = None -> m = 0)).
  { unfold serve_body.
    destruct (ReadSlice (br s)) as [[line|] rest]; cbv zeta; cbn [fst].
    2: { exists 0. split; [cbn [state_of]; eapply flushed_eq;
                           [count_run | reflexivity] | auto]. }
    fold (received s line rest).
    assert (Hs : flushed s (received s line rest) 0)
      by (eapply flushed_eq; [unfold received; count_run | reflexivity]).
    assert (One : forall t, flushed s t 1 ->
                            exists m, flushed s t m /\ m <= 2 /\ (Some line = None -> m = 0)).
    { intros t Ht; exists 1; repeat split; [assumption | lia | discriminate]. }
    destruct (cmdLine_checkValid line) as [msg|]; [apply One; cbn [state_of]; counted|].
    destruct ((cmdLine_Verb line =? "HELO") || (cmdLine_Verb line =? "EHLO"));
      [apply One; cbn [state_of]; now apply flushed_handleHello|].
    destruct (cmdLine_Verb line =? "STARTTLS").
    { destruct (TLSConfig _) as [cfg|]; [|apply One; cbn [state_of]; counted].
      unfold handleStartTLS. cbv zeta.
      destruct (Handshake cfg _) as [[[r|m]|] stream]; cbn [state_of sendSMTPErrorOrLinef].
      - exists 2; repeat split; [counted | lia | discriminate].
      - exists 2; repeat split; [counted | lia | discriminate].
      - apply One; counted. }
    destruct (cmdLine_Verb line =? "QUIT"); [apply One; cbn [state_of]; counted|].
    destruct (cmdLine_Verb line =? "RSET"); [apply One; cbn [state_of]; counted|].
    destruct (cmdLine_Verb line =? "NOOP"); [apply One; cbn [state_of]; counted|].
    assert (Mail : forall email size,
               exists m, flushed s (state_of (handleMailFrom (received s line rest) email size)) m
                         /\ m <= 2 /\ (Some line = None -> m = 0)).
    { intros email size. unfold handleMailFrom.
      destruct (isSome (env (received s line rest))); [apply One; cbn [state_of]; counted|].
      destruct (OnNewMail _) as [cb|].
      - cbv zeta. destruct (cb _ _ _) as [e [er|]]; apply One; cbn [state_of]; counted.
      - exists 0; split; [exact Hs | split; [lia | reflexivity]]. }
    destruct (cmdLine_Verb line =? "MAIL").
    { destruct (mailFromRE _) as [[m1 m2]|]; [|apply One; cbn [state_of]; counted].
      destruct (0 <? String.length m2)%nat; [|apply Mail].
      destruct (mailSizeRE m2) as [digits|]; [|apply Mail].
      destruct (Atoi digits); [apply Mail | apply One; cbn [state_of]; counted]. }
    destruct (cmdLine_Verb line =? "RCPT");
      [apply One; cbn [state_of]; now apply flushed_handleRcpt|].
    destruct (cmdLine_Verb line =? "DATA").
    { destruct (flushed_handleData s _ 0 Hs) as (m & Hf & Hle).
      exists m; repeat split; [assumption | lia | discriminate]. }
    apply One; cbn [state_of]; counted. }
  destruct Hm as (m & Hf & Hle & Hz).
  rewrite (flushed_replies s m Hf). split; [exact Hle | exact Hz].
Qed.

End Replies.

(** ** The input, in order and to the end *)

Lemma received_bytes_app (a b : list event) :
  received_bytes (a ++ b) = received_bytes a ++ received_bytes b.
Proof.
  induction a as [|ev a IH]; cbn [app received_bytes]; [reflexivity|].
  destruct ev; rewrite ?IH, ?append_assoc; reflexivity.
Qed.

Lemma length_drop_le (n : nat) :
  forall s : string, String.length (drop n s) <= String.length s.
Proof.
  induction n as [|n IH]; intros [|c t]; cbn [drop String.length]; try lia.
  specialize (IH t); lia.
Qed.

(** A failed read consumes what was buffered: it never gives bytes back. *)
Lemma ReadSlice_None_length (s rest : string) :
  ReadSlice s = (None, rest) -> String.length rest <= String.length s.
Proof.
  unfold ReadSlice. generalize defaultBufSize as room. intros room.
  destruct (cut_line room s) as [[? ?]|]; [discriminate|].
  intros [= <-]. apply length_drop_le.
Qed.

Section Input.

Context {E : Type} `{Envelope E}.

Lemma in_order_refl (s : session E) : in_order s s.
Proof. exists []; split; [now rewrite app_nil_r | reflexivity]. Qed.

Lemma in_order_trans (s a b : session E) :
  in_order s a -> in_order a b -> in_order s b.
Proof.
  intros (ev1 & Ht1 & Hb1) (ev2 & Ht2 & Hb2). exists (ev1 ++ ev2)%list; split.
  - now rewrite Ht2, Ht1, app_assoc.
  - rewrite existsb_app, received_bytes_app. intros Hno.
    apply orb_false_iff in Hno as [Hn1 Hn2].
    now rewrite Hb1, Hb2, append_assoc.
Qed.

Lemma in_order_ext (s a b : session E) :
  trace b = trace a -> br b = br a -> in_order s a -> in_order s b.
Proof.
  intros Ht Hb (evs & Hevs & Hbr); exists evs; split; [congruence|].
  now rewrite Hb.
Qed.

(** An event that reads nothing. *)
Lemma in_order_then_quiet (s a : session E) (ev : event) :
  received_bytes [ev] = EmptyString -> in_order s a -> in_order s (emit a ev).
Proof.
  intros Hq (evs & Ht & Hb). exists (evs ++ [ev])%list; split.
  - cbn [trace emit]. now rewrite Ht, app_assoc.
  - rewrite existsb_app, received_bytes_app, Hq, append_nil_r. intros Hno.
    apply orb_false_iff in Hno as [Hn _]. now apply Hb.
Qed.

(** A line read off the stream, as a command or as data. *)
Lemma in_order_then_read (s a : session E) (l rest : string) (ev : event) :
  ReadSlice (br a) = (Some l, rest) -> received_bytes [ev] = l ->
  in_order s a -> in_order s (emit (with_br a rest) ev).
Proof.
  intros Hr Hl (evs & Ht & Hb). exists (evs ++ [ev])%list; split.
  - cbn [trace emit with_br]. now rewrite Ht, app_assoc.
  - rewrite existsb_app, received_bytes_app, Hl. intros Hno.
    apply orb_false_iff in Hno as [Hn _].
    destruct (ReadSlice_Some _ _ _ Hr) as (body & _ & Hs & _).
    cbn [br emit with_br]. rewrite (Hb Hn), Hs. now rewrite append_assoc.
Qed.

(** An event at which input is lost: nothing is claimed from there on. *)
Lemma in_order_then_loss (s a b : session E) (ev : event) :
  loses_input ev = true -> trace b = (trace a ++ [ev])%list ->
  in_order s a -> in_order s b.
Proof.
  intros Hl Htb (evs & Ht & _). exists (evs ++ [ev])%list; split.
  - now rewrite Htb, Ht, app_assoc.
  - rewrite existsb_app. cbn [existsb]. rewrite Hl, orb_true_r. discriminate.
Qed.

Ltac order_run :=
  first
    [ eassumption
    | lazymatch goal with
      | |- in_order _ (emit ?x ?ev) =>
          apply in_order_then_quiet; [reflexivity | order_run]
      | |- in_order _ (with_env ?x _) =>
          apply (in_order_ext _ x); [reflexivity | reflexivity | order_run]
      | |- in_order _ (with_hello ?x _ _) =>
          apply (in_order_ext _ x); [reflexivity | reflexivity | order_run]
      | |- in_order _ (sendlinef _ _) => unfold sendlinef, sendf; order_run
      | |- in_order _ (sendf _ _) => unfold sendf; order_run
      | |- in_order _ (log _ _) => unfold log; order_run
      | |- in_order _ (errorf _ _) => unfold errorf; order_run
      end ].

Lemma in_order_handleHello (s a : session E) (greeting host : string) :
  in_order s a -> in_order s (handleHello a greeting host).
Proof. intros Ha. rewrite handleHello_reply. order_run. Qed.

Lemma in_order_handleRcpt (s a : session E) (line : cmdLine) :
  in_order s a -> in_order s (handleRcpt a line).
Proof.
  intros Ha. unfold handleRcpt.
  destruct (env a) as [e|]; [|order_run].
  destruct (rcptToRE _) as [m1|]; [|order_run].
  destruct (AddRecipient e m1) as [e' [[r|m]|]]; cbn [sendSMTPErrorOrLinef]; order_run.
Qed.

Lemma in_order_handleMailFrom (s a : session E) (email : string) (size : option Z) :
  in_order s a -> in_order s (state_of (handleMailFrom a email size)).
Proof.
  intros Ha. unfold handleMailFrom.
  destruct (isSome (env a)); [cbn [state_of]; order_run|].
  destruct (OnNewMail (srv a)) as [cb|]; [|exact Ha].
  cbv zeta. destruct (cb _ _ _) as [e [er|]]; cbn [state_of]; order_run.
Qed.

Lemma in_order_data_loop (fuel : nat) :
  forall (s a : session E) (e : E),
    in_order s a ->
    match data_loop fuel a e with
    | LBreak b _ | LReturn b | LPanic _ b | LOutOfFuel b => in_order s b
    end.
Proof.
  induction fuel as [|fuel IH]; intros s a e Ha; cbn [data_loop]; [exact Ha|].
  destruct (ReadSlice (br a)) as [[sl|] rest] eqn:Hr.
  - assert (Hs : in_order s (emit (with_br a rest) (EvRecvData sl)))
      by (apply (in_order_then_read s a sl rest); [assumption | apply append_nil_r | assumption]).
    match goal with |- context [if ?c then _ else _] => destruct c end;
      [exact Hs|].
    destruct sl as [|c tl]; [exact Hs|].
    destruct (Write e _) as [e' [[r|m]|]].
    + cbn [sendSMTPErrorOrLinef]. order_run.
    + cbn [sendSMTPErrorOrLinef]. order_run.
    + match goal with |- context [data_loop fuel ?t e'] =>
        specialize (IH s t e'); destruct (data_loop fuel t e') end;
        apply IH; order_run.
  - apply (in_order_then_loss s a _ (EvLog "Client error: read error: %v"));
      [reflexivity | reflexivity | assumption].
Qed.

Lemma in_order_handleData (s a : session E) :
  in_order s a -> in_order s (state_of (handleData a)).
Proof.
  intros Ha. unfold handleData.
  destruct (env a) as [e|]; [|cbn [state_of]; order_run].
  destruct (BeginData e) as [e1 [[r|m]|]];
    [cbn [state_of handleError]; order_run..|].
  match goal with |- context [data_loop ?f ?t e1] =>
    assert (Hs : in_order s t) by order_run;
    pose proof (in_order_data_loop f s t e1 Hs) as Hl;
    destruct (data_loop f t e1) as [s2 e2|s2|p s2|s2]
  end; cbn [state_of]; try exact Hl.
  destruct (Close e2) as [e3 [[r|m]|]]; cbn [state_of handleError]; order_run.
Qed.

Lemma in_order_serve_body (s : session E) :
  in_order s (state_of (serve_body s)).
Proof.
  unfold serve_body.
  destruct (ReadSlice (br s)) as [[line|] rest] eqn:Hr; cbv zeta.
  2: { cbn [state_of].
       apply (in_order_then_loss s s _ (EvLog "Client error: read error: %v"));
         [reflexivity | reflexivity | apply in_order_refl]. }
  fold (received s line rest).
  assert (Hs : in_order s (received s line rest)).
  { unfold received.
    apply (in_order_then_read s s line rest);
      [assumption | apply append_nil_r | apply in_order_refl]. }
  destruct (cmdLine_checkValid line); [cbn [state_of]; order_run|].
  destruct (_ || _); [cbn [state_of]; now apply in_order_handleHello|].
  destruct (cmdLine_Verb line =? "STARTTLS").
  { destruct (TLSConfig _) as [cfg|]; [|cbn [state_of]; order_run].
    unfold handleStartTLS. cbv zeta.
    destruct (Handshake cfg _) as [[er|] stream]; cbn [state_of].
    - unfold errorf. apply in_order_then_quiet; [reflexivity|].
      assert (Hh : in_order s (emit (with_br (sendlinef (received s line rest)
                                               "220 Ready to start TLS") stream)
                                 (EvHandshake (Some er)))).
      { apply (in_order_then_loss s (sendlinef (received s line rest)
                                       "220 Ready to start TLS") _
                 (EvHandshake (Some er))); [reflexivity | reflexivity | order_run]. }
      destruct er; cbn [sendSMTPErrorOrLinef]; order_run.
    - apply (in_order_then_loss s (sendlinef (received s line rest)
                                     "220 Ready to start TLS") _ (EvHandshake None));
        [reflexivity | reflexivity | order_run]. }
  destruct (cmdLine_Verb line =? "QUIT"); [cbn [state_of]; order_run|].
  destruct (cmdLine_Verb line =? "RSET"); [cbn [state_of]; order_run|].
  destruct (cmdLine_Verb line =? "NOOP"); [cbn [state_of]; order_run|].
  destruct (cmdLine_Verb line =? "MAIL").
  { destruct (mailFromRE _) as [[m1 m2]|]; [|cbn [state_of]; order_run].
    destruct (0 <? String.length m2)%nat; [|now apply in_order_handleMailFrom].
    destruct (mailSizeRE m2) as [digits|]; [|now apply in_order_handleMailFrom].
    destruct (Atoi digits);
      [now apply in_order_handleMailFrom | cbn [state_of]; order_run]. }
  destruct (cmdLine_Verb line =? "RCPT");
    [cbn [state_of]; now apply in_order_handleRcpt|].
  destruct (cmdLine_Verb line =? "DATA"); [now apply in_order_handleData|].
  cbn [state_of]; order_run.
Qed.

Lemma in_order_serve_loop (fuel : nat) :
  forall s : session E, in_order s (state_of (serve_loop fuel s)).
Proof.
  induction fuel as [|fuel IH]; intros s; cbn [serve_loop].
  - apply in_order_refl.
  - pose proof (in_order_serve_body s) as Hb.
    destruct (serve_body s) as [s1|s1|p s1|s1]; cbn [state_of] in *; try exact Hb.
    apply (in_order_trans s s1); [exact Hb | apply IH].
Qed.

(** X20: the input is read in order and nothing of it is skipped. As long
    as no read has failed and no TLS handshake has been run, the lines the
    session has read as commands and as data, one after the other, and then
    what it has still to read, are the bytes the client sent: pipelined
    commands are all there when their turn comes. *)
Theorem input_read_in_order
  (sv : Server E) (peer : Connection) (stream : string) (fuel : nat) :
  existsb loses_input (trace (state_of (serve fuel (newSession sv peer stream)))) = false ->
  stream
  = received_bytes (trace (state_of (serve fuel (newSession sv peer stream))))
    ++ br (state_of (serve fuel (newSession sv peer stream))).
Proof.
  set (s := newSession sv peer stream).
  assert (Hs : in_order s (state_of (serve fuel s))).
  { assert (Hc : forall o : outcome E,
               in_order s (state_of o) -> in_order s (state_of (deferred_close o))).
    { intros [b|b|p b|b] Hb; cbn [deferred_close state_of] in *; try exact Hb;
        order_run. }
    unfold serve. apply Hc.
    destruct (OnNewConnection (srv s)) as [onc|]; cbv zeta.
    - assert (Hn : in_order s (emit s (EvNewConnection (onc (remote s)))))
        by (apply in_order_then_quiet; [reflexivity | apply in_order_refl]).
      destruct (onc (remote s)) as [[r|m]|]; cbn [state_of sendSMTPErrorOrLinef];
        [order_run..|].
      match goal with |- in_order _ (state_of (serve_loop _ ?x)) =>
        apply (in_order_trans s x); [order_run | apply in_order_serve_loop] end.
    - match goal with |- in_order _ (state_of (serve_loop _ ?x)) =>
        apply (in_order_trans s x); [|apply in_order_serve_loop] end.
      unfold sendf. apply in_order_then_quiet; [reflexivity | apply in_order_refl]. }
  destruct Hs as (evs & Ht & Hb). cbn [trace s newSession app] in Ht.
  rewrite Ht. intros Hno. exact (Hb Hno).
Qed.

(** *** Termination *)

Lemma handleRcpt_keeps (a : session E) (line : cmdLine) :
  srv (handleRcpt a line) = srv a /\ br (handleRcpt a line) = br a.
Proof.
  unfold handleRcpt.
  destruct (env a) as [e|]; [|split; reflexivity].
  destruct (rcptToRE _) as [m1|]; [|split; reflexivity].
  destruct (AddRecipient e m1) as [e' [[r|m]|]]; split; reflexivity.
Qed.

Lemma handleMailFrom_keeps (a : session E) (email : string) (size : option Z) :
  srv (state_of (handleMailFrom a email size)) = srv a
  /\ br (state_of (handleMailFrom a email size)) = br a.
Proof.
  unfold handleMailFrom.
  destruct (isSome (env a)); [split; reflexivity|].
  destruct (OnNewMail (srv a)) as [cb|]; [|split; reflexivity].
  cbv zeta. destruct (cb _ _ _) as [e [er|]]; split; reflexivity.
Qed.

Lemma data_loop_keeps (fuel : nat) :
  forall (a : session E) (e : E),
    match data_loop fuel a e with
    | LBreak b _ | LReturn b | LPanic _ b | LOutOfFuel b =>
        srv b = srv a /\ String.length (br b) <= String.length (br a)
    end.
Proof.
  induction fuel as [|fuel IH]; intros a e; cbn [data_loop]; [auto|].
  destruct (ReadSlice (br a)) as [[sl|] rest] eqn:Hr.
  - apply ReadSlice_shrinks in Hr.
    match goal with |- context [if ?c then _ else _] => destruct c end;
      [cbn; split; [reflexivity | lia]|].
    destruct sl as [|c tl]; [cbn; split; [reflexivity | lia]|].
    destruct (Write e _) as [e' [[r|m]|]];
      [cbn; split; [reflexivity | lia]..|].
    match goal with |- context [data_loop fuel ?t e'] =>
      specialize (IH t e'); destruct (data_loop fuel t e') end;
      cbn in IH; destruct IH as [-> IH]; split; try reflexivity; lia.
  - apply ReadSlice_None_length in Hr. split; [reflexivity | exact Hr].
Qed.

Lemma handleData_keeps (a : session E) :
  srv (state_of (handleData a)) = srv a
  /\ String.length (br (state_of (handleData a))) <= String.length (br a).
Proof.
  unfold handleData.
  destruct (env a) as [e|]; [|split; [reflexivity | cbn; lia]].
  destruct (BeginData e) as [e1 [[r|m]|]];
    [split; [reflexivity | cbn; lia]..|].
  match goal with |- context [data_loop ?f ?t e1] =>
    pose proof (data_loop_keeps f t e1) as Hl;
    destruct (data_loop f t e1) as [s2 e2|s2|p s2|s2]
  end; cbn [state_of]; try exact Hl.
  destruct Hl as [Hs Hl].
  destruct (Close e2) as [e3 [[r|m]|]]; cbn [state_of handleError];
    (split; [exact Hs | exact Hl]).
Qed.

(** Without TLS, a turn that goes round again has consumed input. *)
Lemma serve_body_consumes (s s' : session E) :
  TLSConfig (srv s) = None -> serve_body s = Continue s' ->
  srv s' = srv s /\ String.length (br s') < String.length (br s).
Proof.
  intros Htls. unfold serve_body.
  destruct (ReadSlice (br s)) as [[line|] rest] eqn:Hr; [|discriminate].
  apply ReadSlice_shrinks in Hr. cbv zeta. fold (received s line rest).
  destruct (cmdLine_checkValid line); [intros [= <-]; cbn; auto|].
  destruct (_ || _).
  { intros [= <-]. rewrite handleHello_reply. cbn; auto. }
  destruct (cmdLine_Verb line =? "STARTTLS").
  { cbn [srv received emit with_br]. rewrite Htls. intros [= <-]; cbn; auto. }
  destruct (cmdLine_Verb line =? "QUIT"); [discriminate|].
  destruct (cmdLine_Verb line =? "RSET"); [intros [= <-]; cbn; auto|].
  destruct (cmdLine_Verb line =? "NOOP"); [intros [= <-]; cbn; auto|].
  assert (Mail : forall email size,
             handleMailFrom (received s line rest) email size = Continue s' ->
             srv s' = srv s /\ String.length (br s') < String.length (br s)).
  { intros email size Hm.
    destruct (handleMailFrom_keeps (received s line rest) email size) as [H1 H2].
    rewrite Hm in H1, H2. cbn in H1, H2. rewrite H1, H2. auto. }
  destruct (cmdLine_Verb line =? "MAIL").
  { destruct (mailFromRE _) as [[m1 m2]|]; [|intros [= <-]; cbn; auto].
    destruct (0 <? String.length m2)%nat; [|apply Mail].
    destruct (mailSizeRE m2) as [digits|]; [|apply Mail].
    destruct (Atoi digits); [apply Mail | intros [= <-]; cbn; auto]. }
  destruct (cmdLine_Verb line =? "RCPT").
  { intros [= <-].
    destruct (handleRcpt_keeps (received s line rest) line) as [-> ->]. cbn; auto. }
  destruct (cmdLine_Verb line =? "DATA").
  { intros Hd. destruct (handleData_keeps (received s line rest)) as [H1 H2].
    rewrite Hd in H1, H2. cbn in H1, H2. rewrite H1. split; [reflexivity | lia]. }
  intros [= <-]; cbn; auto.
Qed.

Lemma serve_body_enough_fuel (s q : session E) : serve_body s <> OutOfFuel q.
Proof.
  unfold serve_body.
  destruct (ReadSlice (br s)) as [[line|] rest]; [|discriminate].
  cbv zeta. fold (received s line rest).
  destruct (cmdLine_checkValid line); [discriminate|].
  destruct (_ || _); [discriminate|].
  destruct (cmdLine_Verb line =? "STARTTLS").
  { destruct (TLSConfig _) as [cfg|]; [|discriminate].
    destruct (handleStartTLS _ cfg) as [a [er|]]; discriminate. }
  destruct (cmdLine_Verb line =? "QUIT"); [discriminate|].
  destruct (cmdLine_Verb line =? "RSET"); [discriminate|].
  destruct (cmdLine_Verb line =? "NOOP"); [discriminate|].
  assert (Mail : forall email size,
             handleMailFrom (received s line rest) email size <> OutOfFuel q).
  { intros email size. unfold handleMailFrom.
    destruct (isSome _); [discriminate|].
    destruct (OnNewMail _) as [cb|]; [|discriminate].
    cbv zeta. destruct (cb _ _ _) as [e [er|]]; discriminate. }
  destruct (cmdLine_Verb line =? "MAIL").
  { destruct (mailFromRE _) as [[m1 m2]|]; [|discriminate].
    destruct (0 <? String.length m2)%nat; [|apply Mail].
    destruct (mailSizeRE m2) as [digits|]; [|apply Mail].
    destruct (Atoi digits); [apply Mail | discriminate]. }
  destruct (cmdLine_Verb line =? "RCPT"); [discriminate|].
  destruct (cmdLine_Verb line =? "DATA"); [apply handleData_total | discriminate].
Qed.

Lemma serve_loop_ends (fuel : nat) :
  forall s : session E,
    TLSConfig (srv s) = None -> String.length (br s) < fuel ->
    has_ended (serve_loop fuel s) = true.
Proof.
  induction fuel as [|fuel IH]; intros s Htls Hf; [lia|].
  cbn [serve_loop].
  destruct (serve_body s) as [s1|s1|p s1|s1] eqn:Hb; try reflexivity.
  - destruct (serve_body_consumes s s1 Htls Hb) as [Hs Hl].
    apply IH; [now rewrite Hs | lia].
  - exfalso; exact (serve_body_enough_fuel s s1 Hb).
Qed.

(** X21: on a server without TLS a session comes to its end. Every turn of
    the command loop that goes round again has consumed input, so on a
    stream of [n] bytes [serve] has returned, or panicked, after [n + 1]
    turns at most: it never waits in a loop of its own, and the loop of the
    DATA phase never outlasts the input either. *)
Theorem session_ends
  (sv : Server E) (peer : Connection) (stream : string) (fuel : nat) :
  TLSConfig sv = None ->
  String.length stream < fuel ->
  has_ended (serve fuel (newSession sv peer stream)) = true.
Proof.
  intros Htls Hf. unfold serve.
  assert (Hc : forall o : outcome E,
             has_ended o = true -> has_ended (deferred_close o) = true)
    by (intros [b|b|p b|b]; auto).
  apply Hc. cbn [srv newSession].
  destruct (OnNewConnection sv) as [onc|]; cbv zeta.
  - destruct (onc _) as [er|]; [reflexivity|].
    apply serve_loop_ends; [exact Htls | exact Hf].
  - apply serve_loop_ends; [exact Htls | exact Hf].
Qed.

End Input.

(** ** The properties above at concrete inputs *)

Ltac all_lines :=
  repeat first
    [ apply Forall_nil
    | apply Forall_cons; [first [vm_compute; reflexivity | discriminate]|] ].

Lemma cmdLine_Verb_ignores_case_witness :
  is_ascii (crlf "MaIl FROM:<A@X>") = true
  /\ ToLower (crlf "MaIl FROM:<A@X>") = crlf "mail from:<a@x>"
  /\ (cmdLine_Verb (ToLower (crlf "MaIl FROM:<A@X>")) = cmdLine_Verb (crlf "MaIl FROM:<A@X>")
      /\ HasSuffix (ToLower (crlf "MaIl FROM:<A@X>")) CRLF
         = HasSuffix (crlf "MaIl FROM:<A@X>") CRLF).
Proof.
  do 2 (split; [reflexivity|]).
  exact (cmdLine_Verb_ignores_case (crlf "MaIl FROM:<A@X>") eq_refl).
Defined.

Lemma calls_follow_lifecycle_witness :
  let stream := crlf "EHLO there" ++ crlf "MAIL FROM:<a@x>" ++ crlf "RCPT TO:<b@y>"
                ++ crlf "DATA" ++ crlf "..hello" ++ crlf "." ++ crlf "MAIL FROM:<c@z>"
                ++ crlf "rset" ++ crlf "QUIT" in
  let st := state_of (serve 9 (sample_session None None stream)) in
  forallb ascii_command (trace st) = true
  /\ phase_of st = NoEnvelope
  /\ lifecycle NoEnvelope (trace st) = Some (phase_of st).
Proof.
  intros stream st.
  assert (Ha : forallb ascii_command (trace st) = true) by (vm_compute; reflexivity).
  split; [exact Ha|]. split; [vm_compute; reflexivity|].
  exact (calls_follow_lifecycle (sample_server None None) "192.0.2.1:40000" stream 9 Ha).
Defined.

Lemma mailFromRE_matches_witness :
  mailFromRE "From:<a@x> SIZE=10" = Some ("a@x", " SIZE=10").
Proof.
  apply (proj2 (mailFromRE_matches "From:<a@x> SIZE=10" "a@x" " SIZE=10")).
  exists "From:<".
  split; [reflexivity | split; [reflexivity | split; reflexivity]].
Defined.

(** The address of RCPT runs to the last closing bracket of the line. *)
Lemma rcptToRE_matches_witness :
  rcptToRE "to:<a@x>,<b@y> NOTIFY=NEVER" = Some "a@x>,<b@y".
Proof.
  apply (proj2 (rcptToRE_matches "to:<a@x>,<b@y> NOTIFY=NEVER" "a@x>,<b@y")).
  exists "to:<", " NOTIFY=NEVER".
  split; [reflexivity | split; [reflexivity | split; [discriminate | split; reflexivity]]].
Defined.

Lemma mailSizeRE_matches_witness :
  mailSizeRE (" BODY=8BITMIME " ++ "size=" ++ "123" ++ " RET=HDRS") = Some "123".
Proof.
  apply (proj2 mailSizeRE_matches " BODY=8BITMIME " "size=" "123" " RET=HDRS");
    first [reflexivity | discriminate].
Defined.

Lemma DATA_write_error_witness :
  let s := with_env
             (sample_session None None (crlf "Subject: hi" ++ crlf "body" ++ crlf "."))
             (Some full_disk) in
  env s = Some full_disk
  /\ BeginData full_disk = (full_disk, None)
  /\ br s = body_stream [] ++ crlf "Subject: hi" ++ (crlf "body" ++ crlf ".")
  /\ Write full_disk (delivered (crlf "Subject: hi"))
     = (full_disk, Some (SMTPError "452 4.3.1 Insufficient system storage"))
  /\ exists s' : session PolicyEnvelope,
       handleData s = Continue s'
       /\ trace s'
          = (trace s ++ [EvBeginData None; EvSent (crlf "354 Go ahead")]
             ++ data_events []
             ++ [EvRecvData (crlf "Subject: hi");
                 EvWrite (delivered (crlf "Subject: hi"))
                   (Some (SMTPError "452 4.3.1 Insufficient system storage"));
                 EvSent (reply_for (SMTPError "452 4.3.1 Insufficient system storage")
                           "550 ??? failed")])%list
       /\ env s' = Some full_disk
       /\ br s' = crlf "body" ++ crlf ".".
Proof.
  intros s.
  do 4 (split; [reflexivity|]).
  apply (DATA_write_error s full_disk full_disk full_disk full_disk []
           (crlf "Subject: hi") (crlf "body" ++ crlf ".")
           (SMTPError "452 4.3.1 Insufficient system storage"));
    first [reflexivity | all_lines].
Defined.

Lemma DATA_read_error_witness :
  let e := with_basic (policy None None) {| rcpts := ["b@y"] |} in
  let lines := [crlf "Subject: hi"; crlf ".hidden"] in
  let s := with_env (sample_session None None (body_stream lines ++ "cut off")) (Some e) in
  env s = Some e
  /\ BeginData e = (e, None)
  /\ br s = body_stream lines ++ "cut off"
  /\ write_all e (map delivered lines) = Some e
  /\ ReadSlice "cut off" = (None, EmptyString)
  /\ exists s' : session PolicyEnvelope,
       handleData s = Continue s'
       /\ trace s'
          = (trace s ++ [EvBeginData None; EvSent (crlf "354 Go ahead")]
             ++ data_events lines
             ++ [EvLog "Client error: read error: %v"])%list
       /\ env s' = Some e
       /\ br s' = EmptyString.
Proof.
  intros e lines s.
  assert (Hr : ReadSlice "cut off" = (None, EmptyString)) by (vm_compute; reflexivity).
  do 4 (split; [reflexivity|]). split; [exact Hr|].
  apply (DATA_read_error s e e e lines "cut off" EmptyString);
    first [exact Hr | reflexivity | all_lines].
Defined.

Lemma dot_stuffing_round_trip_witness :
  let e := with_basic (policy None None) {| rcpts := ["b@y"] |} in
  let lines := [crlf "Subject: hi"; crlf ".hidden"; crlf "."; crlf "..two"] in
  let s := with_env
             (sample_session None None
                (body_stream (map stuffed lines) ++ ("." ++ CRLF) ++ crlf "QUIT"))
             (Some e) in
  map stuffed lines = [crlf "Subject: hi"; crlf "..hidden"; crlf ".."; crlf "...two"]
  /\ env s = Some e
  /\ BeginData e = (e, None)
  /\ write_all e lines = Some e
  /\ Close e = (e, None)
  /\ exists s' : session PolicyEnvelope,
       handleData s = Continue s'
       /\ trace s'
          = (trace s ++ [EvBeginData None; EvSent (crlf "354 Go ahead")]
             ++ stuffed_events lines
             ++ [EvRecvData ("." ++ CRLF); EvClose None;
                 EvSent (crlf "250 2.0.0 Ok: queued")])%list
       /\ br s' = crlf "QUIT".
Proof.
  intros e lines s.
  do 5 (split; [reflexivity|]).
  apply (dot_stuffing_round_trip s e e e e lines (crlf "QUIT"));
    first [reflexivity | all_lines].
Defined.

Lemma RCPT_run_accumulates_witness :
  let lines := [crlf "RCPT TO:<b@y>"; crlf "rcpt to:<c@z> NOTIFY=NEVER"] in
  let addrs := ["b@y"; "c@z"] in
  let e := {| rcpts := ["a@x"] |} in
  let s := with_env
             (newSession basic_server "192.0.2.1:40000"
                (body_stream lines ++ crlf "DATA"))
             (Some e) in
  exists s' : session BasicEnvelope,
    serve_loop 2 s = Continue s'
    /\ env s' = Some {| rcpts := ["a@x"; "b@y"; "c@z"] |}
    /\ trace s' = (trace s ++ rcpt_events lines addrs)%list
    /\ br s' = crlf "DATA".
Proof.
  intros lines addrs e s.
  apply (RCPT_run_accumulates lines addrs s e (crlf "DATA")); [reflexivity | | reflexivity].
  repeat first
    [ apply Forall2_nil
    | apply Forall2_cons;
      [split; [vm_compute; reflexivity
              | split; [vm_compute; reflexivity
                       | split; vm_compute; reflexivity]]|] ].
Defined.

Lemma BasicEnvelope_DATA_needs_recipient_witness :
  let e := {| rcpts := [] |} in
  let s := with_env
             (newSession basic_server "192.0.2.1:40000"
                (crlf "DATA" ++ crlf "RCPT TO:<b@y>"))
             (Some e) in
  exists s' : session BasicEnvelope,
    serve_body s = Continue s'
    /\ trace s'
       = (trace s ++
          [EvRecv (crlf "DATA");
           EvBeginData (Some (SMTPError "554 5.5.1 Error: no valid recipients"));
           EvSent (crlf "554 5.5.1 Error: no valid recipients")])%list
    /\ env s' = Some e
    /\ br s' = crlf "RCPT TO:<b@y>".
Proof.
  intros e s.
  assert (Hr : ReadSlice (br s) = (Some (crlf "DATA"), crlf "RCPT TO:<b@y>"))
    by (vm_compute; reflexivity).
  exact (proj1 (BasicEnvelope_DATA_needs_recipient s e _ _ eq_refl Hr eq_refl eq_refl)
           eq_refl).
Defined.

Lemma one_reply_per_command_witness :
  let s := sample_session None None (crlf "MAIL FROM:<a@x>" ++ crlf "DATA") in
  ReadSlice (br s) = (Some (crlf "MAIL FROM:<a@x>"), crlf "DATA")
  /\ is_ascii (crlf "MAIL FROM:<a@x>") = true
  /\ OnNewMail (srv s) <> None
  /\ cmdLine_Verb (crlf "MAIL FROM:<a@x>") <> "DATA"
  /\ TLSConfig (srv s) = None
  /\ replies_to_next s = 1.
Proof.
  intros s.
  assert (Hr : ReadSlice (br s) = (Some (crlf "MAIL FROM:<a@x>"), crlf "DATA"))
    by (vm_compute; reflexivity).
  assert (Hcb : OnNewMail (srv s) <> None) by discriminate.
  assert (Hv : cmdLine_Verb (crlf "MAIL FROM:<a@x>") <> "DATA")
    by (vm_compute; discriminate).
  split; [exact Hr|]. split; [reflexivity|].
  split; [exact Hcb|]. split; [exact Hv|]. split; [reflexivity|].
  exact (one_reply_per_command s _ _ Hr eq_refl Hcb
           (or_intror (conj Hv (or_intror eq_refl)))).
Defined.

Lemma input_read_in_order_witness :
  let stream := crlf "EHLO there" ++ crlf "MAIL FROM:<a@x>" ++ crlf "RCPT TO:<b@y>"
                ++ crlf "DATA" ++ crlf "hello" ++ crlf "." ++ crlf "QUIT"
                ++ crlf "NOOP" in
  let st := state_of (serve 9 (sample_session None None stream)) in
  existsb loses_input (trace st) = false
  /\ br st = crlf "NOOP"
  /\ stream = received_bytes (trace st) ++ br st.
Proof.
  intros stream st.
  assert (Hno : existsb loses_input (trace st) = false) by (vm_compute; reflexivity).
  split; [exact Hno|]. split; [vm_compute; reflexivity|].
  exact (input_read_in_order (sample_server None None) "192.0.2.1:40000" stream 9 Hno).
Defined.

Lemma session_ends_witness :
  let stream := crlf "EHLO there" ++ crlf "NOOP" ++ "NOO" in
  TLSConfig (sample_server None None) = None
  /\ String.length stream < 30
  /\ has_ended (serve 30 (sample_session None None stream)) = true.
Proof.
  intros stream.
  assert (Hl : String.length stream < 30) by (vm_compute; repeat constructor).
  split; [reflexivity|]. split; [exact Hl|].
  exact (session_ends (sample_server None None) "192.0.2.1:40000" stream 30 eq_refl Hl).
Defined.
